(** * ADC acquisition engine of the DIM firmware (src/src/peripherals/adc.c)

    A shallow embedding of the ADC1 driver: the peripheral registers are
    volatile, so every register access goes through an abstract device and
    is recorded in a trace; the driver's static context [adc_ctx] is part of
    the state that is threaded through every function.  Operations of C that
    have no defined result (division by zero, signed overflow, an access
    outside an array) end the execution with [Undefined]. *)

From Stdlib Require Import ZArith List Lia Bool Sorted Permutation.
From stdpp Require Import base list.
Import ListNotations.
Local Open Scope Z_scope.

(** ** Machine integers *)

(** Value of a [uint32_t] holding the mathematical integer [x]. *)
Definition wrap32 (x : Z) : Z := x mod 2 ^ 32.

(** Value of an [int32_t] after conversion from [x] (two's complement). *)
Definition to_int32 (x : Z) : Z :=
  let r := x mod 2 ^ 32 in if r <? 2 ^ 31 then r else r - 2 ^ 32.

(** Value of an [int8_t] after conversion from [x] (two's complement). *)
Definition to_int8 (x : Z) : Z :=
  let r := x mod 2 ^ 8 in if r <? 2 ^ 7 then r else r - 2 ^ 8.

Definition in_int32 (x : Z) : bool := (- 2 ^ 31 <=? x) && (x <? 2 ^ 31).

(** ** Local macros of adc.c *)

Definition ADC_MEDIAN_FILTER_SIZE : nat := 9.
Definition ADC_CENTER_AVERAGE_SIZE : nat := 3.
Definition ADC_FULL_SCALE_12BITS : Z := 4095.
Definition ADC_VMCU_DEFAULT_MV : Z := 3300.
Definition ADC_TIMEOUT_COUNT : Z := 1000000.
Definition ADC_VOLTAGE_DIVIDER_RATIO_VUSB : Z := 2.
Definition ADC_VOLTAGE_DIVIDER_RATIO_VRS : Z := 2.

(** [ADC_channel_t]: the enumerators are used as shift amounts and compared
    with [ADC_CHANNEL_LAST], so a channel is its integer value. *)
Definition ADC_CHANNEL_VRS : Z := 4.
Definition ADC_CHANNEL_VUSB : Z := 5.
Definition ADC_CHANNEL_VREFINT : Z := 17.
Definition ADC_CHANNEL_TMCU : Z := 18.
Definition ADC_CHANNEL_LAST : Z := 19.

(** ** Status codes *)

(** [LPTIM_status_t] of inc/peripherals/lptim.h. *)
Inductive LPTIM_status_t :=
| LPTIM_SUCCESS
| LPTIM_ERROR_DELAY_UNDERFLOW
| LPTIM_ERROR_DELAY_OVERFLOW
| LPTIM_ERROR_WRITE_ARR.

(** Modelled from the spec: math.h is absent.  The median filter either
    succeeds or reports that its parameters are invalid. *)
Inductive MATH_status_t :=
| MATH_SUCCESS
| MATH_ERROR_PARAMETER.

(** [ADC_status_t].  adc.h is absent; these are the codes adc.c uses.  The
    sums [ADC_ERROR_BASE_LPTIM + lptim1_status] and
    [ADC_ERROR_BASE_MATH + math_status] built by the status-check macros are
    kept as tagged values. *)
Inductive ADC_status_t :=
| ADC_SUCCESS
| ADC_ERROR_NULL_PARAMETER
| ADC_ERROR_CHANNEL
| ADC_ERROR_TIMEOUT
| ADC_ERROR_CALIBRATION
| ADC_ERROR_DATA_INDEX
| ADC_ERROR_BASE_LPTIM (lptim1_status : LPTIM_status_t)
| ADC_ERROR_BASE_MATH (math_status : MATH_status_t).

Definition ADC_status_t_eq_dec (a b : ADC_status_t) : {a = b} + {a <> b}.
Proof. repeat decide equality. Defined.

(** ** Board constants that adc.c takes from absent headers *)

(** adc_reg.h, adc.h and mapping.h are absent: the factory calibration
    values, the order of [ADC_data_index_t] and the hardware revision flag
    are parameters of the development. *)
Record ADC_config := {
  HW1_1 : bool;
  VREFINT_CAL : Z;
  VREFINT_VCC_CALIB_MV : Z;
  TS_CAL1 : Z;
  TS_CAL2 : Z;
  TS_CAL1_TEMP : Z;
  TS_CAL2_TEMP : Z;
  TS_VCC_CALIB_MV : Z;
  ADC_DATA_INDEX_VMCU_MV : nat;
  ADC_DATA_INDEX_VUSB_MV : nat;
  ADC_DATA_INDEX_VRS_MV : nat;
  ADC_DATA_INDEX_LAST : nat
}.

(** The three data indexes are distinct enumerators that precede
    [ADC_DATA_INDEX_LAST], which fits the [uint8_t] loop index of
    [ADC1_init]. *)
Definition layout_ok (cfg : ADC_config) : bool :=
  (ADC_DATA_INDEX_VMCU_MV cfg <? ADC_DATA_INDEX_LAST cfg)%nat
  && (ADC_DATA_INDEX_VUSB_MV cfg <? ADC_DATA_INDEX_LAST cfg)%nat
  && (ADC_DATA_INDEX_VRS_MV cfg <? ADC_DATA_INDEX_LAST cfg)%nat
  && negb (ADC_DATA_INDEX_VMCU_MV cfg =? ADC_DATA_INDEX_VUSB_MV cfg)%nat
  && negb (ADC_DATA_INDEX_VMCU_MV cfg =? ADC_DATA_INDEX_VRS_MV cfg)%nat
  && negb (ADC_DATA_INDEX_VUSB_MV cfg =? ADC_DATA_INDEX_VRS_MV cfg)%nat
  && (ADC_DATA_INDEX_LAST cfg <=? 255)%nat.

(** The calibration codes are 16-bit factory words, the calibration supply
    voltages positive [int] constants and the calibration temperatures small
    [int] constants. *)
Definition calib_ok (cfg : ADC_config) : bool :=
  (0 <=? VREFINT_CAL cfg) && (VREFINT_CAL cfg <=? 65535)
  && (0 <? VREFINT_VCC_CALIB_MV cfg) && (VREFINT_VCC_CALIB_MV cfg <=? 32767)
  && (0 <=? TS_CAL1 cfg) && (TS_CAL1 cfg <=? 65535)
  && (0 <=? TS_CAL2 cfg) && (TS_CAL2 cfg <=? 65535)
  && negb (TS_CAL1 cfg =? TS_CAL2 cfg)
  && (0 <? TS_VCC_CALIB_MV cfg) && (TS_VCC_CALIB_MV cfg <=? 32767)
  && (-32768 <=? TS_CAL1_TEMP cfg) && (TS_CAL1_TEMP cfg <=? 32767)
  && (-32768 <=? TS_CAL2_TEMP cfg) && (TS_CAL2_TEMP cfg <=? 32767).

(** [ADC_VREFINT_VOLTAGE_MV]. *)
Definition ADC_VREFINT_VOLTAGE_MV (cfg : ADC_config) : Z :=
  Z.quot (VREFINT_CAL cfg * VREFINT_VCC_CALIB_MV cfg) ADC_FULL_SCALE_12BITS.

(** ** Registers, pins and the device *)

Inductive reg :=
| ADC1_ISR | ADC1_CR | ADC1_CFGR2 | ADC1_SMPR | ADC1_CHSELR | ADC1_DR
| ADC1_CCR | RCC_APB2ENR.

Inductive gpio := GPIO_ADC1_IN4 | GPIO_ADC1_IN5 | GPIO_MNTR_EN.
Inductive gpio_mode := GPIO_MODE_ANALOG | GPIO_MODE_OUTPUT.
Inductive gpio_type := GPIO_TYPE_OPEN_DRAIN | GPIO_TYPE_PUSH_PULL.
Inductive gpio_speed := GPIO_SPEED_LOW.
Inductive gpio_pull := GPIO_PULL_NONE.

(** What the driver does to the outside world, in the order it does it. *)
Inductive event :=
| EvRead (r : reg) (v : Z)
| EvWrite (r : reg) (v : Z)
| EvGpioConfigure (p : gpio) (m : gpio_mode) (t : gpio_type)
    (s : gpio_speed) (u : gpio_pull)
| EvGpioWrite (p : gpio) (level : Z)
| EvDelay (delay_ms stop_mode : Z) (r : LPTIM_status_t).

(** The collaborators of the driver: the memory-mapped registers, the GPIO
    service and [LPTIM1_delay_milliseconds].  A register read may return any
    value and may change the device (flags set by hardware, the data
    register emptied by a read). *)
Class Device (HW : Type) := {
  hw_read : reg -> HW -> Z * HW;
  hw_write : reg -> Z -> HW -> HW;
  hw_gpio_configure :
    gpio -> gpio_mode -> gpio_type -> gpio_speed -> gpio_pull -> HW -> HW;
  hw_gpio_write : gpio -> Z -> HW -> HW;
  hw_delay_milliseconds : Z -> Z -> HW -> LPTIM_status_t * HW
}.

(** ** The driver context *)

(** [ADC_context_t]; [data] is the array [data[ADC_DATA_INDEX_LAST]]. *)
Record ADC_context_t := {
  vrefint_12bits : Z;
  data : list Z;
  tmcu_degrees : Z
}.

Definition ctx_wf (cfg : ADC_config) (c : ADC_context_t) : Prop :=
  length (data c) = ADC_DATA_INDEX_LAST cfg.

(** Reasons for which C gives an execution no meaning. *)
Inductive fault := DivisionByZero | SignedOverflow | OutOfBounds.

(** ** The median filter of math.c *)

(** Modelled from the spec: math.c is absent; the filter sorts its samples
    in ascending order.  Insertion of one sample in a sorted list. *)
Fixpoint insert_sorted (x : Z) (l : list Z) : list Z :=
  match l with
  | [] => [x]
  | y :: l' => if x <=? y then x :: l else y :: insert_sorted x l'
  end.

(** Modelled from the spec: math.c is absent; the samples, sorted in
    ascending order. *)
Fixpoint sort_ascending (l : list Z) : list Z :=
  match l with
  | [] => []
  | x :: l' => insert_sorted x (sort_ascending l')
  end.

(** Modelled from the spec: math.c is absent; the sum of the samples of
    the averaged window. *)
Definition sum_list (l : list Z) : Z := fold_right Z.add 0 l.

(** Modelled from the spec: math.c is absent.  [MATH_median_filter_u32
    samples count center_window] fails if [center_window > count] or if
    [count] is even or invalid; otherwise it sorts the samples and averages
    the [center_window] middle-ranked ones.  [result] is the content of the
    output location, unchanged on failure. *)
Definition MATH_median_filter_u32 (samples : list Z)
    (median_length average_length : nat) (result : option Z)
  : MATH_status_t * option Z :=
  if (median_length <? average_length)%nat || Nat.even median_length
     || (average_length =? 0)%nat || negb (length samples =? median_length)%nat
  then (MATH_ERROR_PARAMETER, result)
  else
    let sorted := sort_ascending samples in
    let start_idx := (median_length / 2 - average_length / 2)%nat in
    let window := take average_length (drop start_idx sorted) in
    (MATH_SUCCESS, Some (sum_list window / Z.of_nat average_length)).

(** ** State and executions *)

Section Execution.

Context {HW : Type} {dev : Device HW}.

(** The device, the trace of what was done to it (newest event first) and
    the static variable [adc_ctx]. *)
Record world := {
  hw : HW;
  trace : list event;
  adc_ctx : ADC_context_t
}.

Inductive outcome (A : Type) :=
| Done (a : A) (w : world)
| Undefined (f : fault)
| OutOfFuel.
#[local] Arguments Done {A} a w.
#[local] Arguments Undefined {A} f.
#[local] Arguments OutOfFuel {A}.

Definition exec (A : Type) : Type := world -> outcome A.

Definition ret {A} (a : A) : exec A := fun w => Done a w.

Definition bind {A B} (m : exec A) (k : A -> exec B) : exec B :=
  fun w =>
    match m w with
    | Done a w' => k a w'
    | Undefined f => Undefined f
    | OutOfFuel => OutOfFuel
    end.

Definition undefined {A} (f : fault) : exec A := fun _ => Undefined f.

Definition emit (e : event) (w : world) : world :=
  {| hw := hw w; trace := e :: trace w; adc_ctx := adc_ctx w |}.

Definition with_hw (h : HW) (w : world) : world :=
  {| hw := h; trace := trace w; adc_ctx := adc_ctx w |}.

(** Read of a volatile 32-bit register. *)
Definition reg_read (r : reg) : exec Z :=
  fun w =>
    let '(v, h) := hw_read r (hw w) in
    Done (wrap32 v) (emit (EvRead r (wrap32 v)) (with_hw h w)).

(** Write of a volatile 32-bit register. *)
Definition reg_write (r : reg) (v : Z) : exec unit :=
  fun w => Done tt (emit (EvWrite r v) (with_hw (hw_write r v (hw w)) w)).

(** [REG |= mask] and [REG &= mask]. *)
Definition reg_or (r : reg) (mask : Z) : exec unit :=
  bind (reg_read r) (fun v => reg_write r (Z.lor v mask)).

Definition reg_and (r : reg) (mask : Z) : exec unit :=
  bind (reg_read r) (fun v => reg_write r (Z.land v mask)).

Definition GPIO_configure (p : gpio) (m : gpio_mode) (t : gpio_type)
    (s : gpio_speed) (u : gpio_pull) : exec unit :=
  fun w =>
    Done tt (emit (EvGpioConfigure p m t s u)
               (with_hw (hw_gpio_configure p m t s u (hw w)) w)).

Definition GPIO_write (p : gpio) (level : Z) : exec unit :=
  fun w =>
    Done tt (emit (EvGpioWrite p level)
               (with_hw (hw_gpio_write p level (hw w)) w)).

Definition LPTIM1_delay_milliseconds (delay_ms stop_mode : Z)
  : exec LPTIM_status_t :=
  fun w =>
    let '(r, h) := hw_delay_milliseconds delay_ms stop_mode (hw w) in
    Done r (emit (EvDelay delay_ms stop_mode r) (with_hw h w)).

Definition with_ctx (c : ADC_context_t) (w : world) : world :=
  {| hw := hw w; trace := trace w; adc_ctx := c |}.

Definition get_ctx : exec ADC_context_t := fun w => Done (adc_ctx w) w.

Definition set_ctx (c : ADC_context_t) : exec unit :=
  fun w => Done tt (with_ctx c w).

End Execution.

Arguments world HW : clear implicits.
Arguments outcome HW A : clear implicits.
Arguments exec HW A : clear implicits.
Arguments Done {HW A} a w.
Arguments Undefined {HW A} f.
Arguments OutOfFuel {HW A}.

Notation "x <- c ;; k" := (bind c (fun x => k))
  (at level 100, c at next level, right associativity).
Notation "'let*' p := c 'in' k" := (bind c (fun x => let 'p := x in k))
  (at level 10, p pattern, c at level 100, k at level 200).
Notation "c ;;; k" := (bind c (fun _ => k))
  (at level 100, right associativity).

Section Driver.

Context {HW : Type} {dev : Device HW}.
Variable cfg : ADC_config.

Local Abbreviation M := (exec HW).

(** ** C arithmetic that can be undefined *)

(** Division of two [uint32_t]. *)
Definition udiv32 (a b : Z) : M Z :=
  if b =? 0 then undefined DivisionByZero else ret (a / b).

(** Product, sum and quotient of two [int32_t]. *)
Definition smul32 (a b : Z) : M Z :=
  if in_int32 (a * b) then ret (a * b) else undefined SignedOverflow.

Definition sadd32 (a b : Z) : M Z :=
  if in_int32 (a + b) then ret (a + b) else undefined SignedOverflow.

Definition sdiv32 (a b : Z) : M Z :=
  if b =? 0 then undefined DivisionByZero
  else if in_int32 (Z.quot a b) then ret (Z.quot a b)
  else undefined SignedOverflow.

(** [adc_ctx.data[idx] = v] and [adc_ctx.data[idx]]. *)
Definition data_store (idx : nat) (v : Z) : M unit :=
  c <- get_ctx ;;
  if (idx <? length (data c))%nat then
    set_ctx {| vrefint_12bits := vrefint_12bits c;
               data := <[idx := v]> (data c);
               tmcu_degrees := tmcu_degrees c |}
  else undefined OutOfBounds.

Definition data_load (idx : nat) : M Z :=
  c <- get_ctx ;;
  match data c !! idx with
  | Some v => ret v
  | None => undefined OutOfBounds
  end.

(** ** Busy-wait loops *)

(** [while (busy) { loop_count++; if (loop_count > ADC_TIMEOUT_COUNT)
    { status = on_timeout; leave } }], where [busy] polls the registers.
    The result is the status and the final [loop_count].  [fuel] bounds the
    number of polls of the model only; it is not in the code. *)
Fixpoint wait_while (fuel : nat) (busy : M bool) (on_timeout : ADC_status_t)
    (loop_count : Z) : M (ADC_status_t * Z) :=
  match fuel with
  | O => fun _ => OutOfFuel
  | S fuel' =>
      b <- busy ;;
      if b : bool then
        let loop_count := wrap32 (loop_count + 1) in
        if loop_count >? ADC_TIMEOUT_COUNT then ret (on_timeout, loop_count)
        else wait_while fuel' busy on_timeout loop_count
      else ret (ADC_SUCCESS, loop_count)
  end.

Definition poll_fuel : nat := S (Z.to_nat ADC_TIMEOUT_COUNT).

(** [((ADC1 -> ISR) & (0b1 << bit)) == 0]. *)
Definition isr_flag_clear (bit : Z) : M bool :=
  v <- reg_read ADC1_ISR ;; ret (Z.land v (Z.shiftl 1 bit) =? 0).

(** ** Local functions *)

(** [_ADC1_single_conversion].  [adc_result_12bits] is the content of the
    pointed location, [None] for a null pointer; the function returns the
    status and the new content. *)
Definition _ADC1_single_conversion (adc_channel : Z)
    (adc_result_12bits : option Z) : M (ADC_status_t * option Z) :=
  if ADC_CHANNEL_LAST <=? adc_channel then
    ret (ADC_ERROR_CHANNEL, adc_result_12bits)
  else
    match adc_result_12bits with
    | None => ret (ADC_ERROR_NULL_PARAMETER, None)
    | Some _ =>
        reg_and ADC1_CHSELR 0xFFF80000 ;;;
        reg_or ADC1_CHSELR (Z.shiftl 1 adc_channel) ;;;
        reg_or ADC1_ISR 0x0000089F ;;;
        reg_or ADC1_CR (Z.shiftl 1 2) ;;;
        let* (status, _) := wait_while poll_fuel (isr_flag_clear 2)
                           ADC_ERROR_TIMEOUT 0 in
        match status with
        | ADC_SUCCESS =>
            v <- reg_read ADC1_DR ;; ret (ADC_SUCCESS, Some v)
        | _ => ret (status, adc_result_12bits)
        end
    end.

(** The loop [for (idx ; idx < ADC_MEDIAN_FILTER_SIZE ; idx++)] of
    [_ADC1_filtered_conversion], with [n] iterations left. *)
Fixpoint sample_loop (n idx : nat) (adc_channel : Z)
    (adc_sample_buf : list Z) : M (ADC_status_t * list Z) :=
  match n with
  | O => ret (ADC_SUCCESS, adc_sample_buf)
  | S n' =>
      let* (status, slot) := _ADC1_single_conversion adc_channel
                               (adc_sample_buf !! idx) in
      let buf :=
        match slot with
        | Some v => <[idx := v]> adc_sample_buf
        | None => adc_sample_buf
        end in
      match status with
      | ADC_SUCCESS => sample_loop n' (S idx) adc_channel buf
      | _ => ret (status, buf)
      end
  end.

(** [_ADC1_filtered_conversion]. *)
Definition _ADC1_filtered_conversion (adc_channel : Z)
    (adc_result_12bits : option Z) : M (ADC_status_t * option Z) :=
  if ADC_CHANNEL_LAST <=? adc_channel then
    ret (ADC_ERROR_CHANNEL, adc_result_12bits)
  else
    match adc_result_12bits with
    | None => ret (ADC_ERROR_NULL_PARAMETER, None)
    | Some _ =>
        let* (status, adc_sample_buf) :=
          sample_loop ADC_MEDIAN_FILTER_SIZE 0 adc_channel
            (replicate ADC_MEDIAN_FILTER_SIZE 0) in
        match status with
        | ADC_SUCCESS =>
            let '(math_status, result) :=
              MATH_median_filter_u32 adc_sample_buf ADC_MEDIAN_FILTER_SIZE
                ADC_CENTER_AVERAGE_SIZE adc_result_12bits in
            match math_status with
            | MATH_SUCCESS => ret (ADC_SUCCESS, result)
            | _ => ret (ADC_ERROR_BASE_MATH math_status, result)
            end
        | _ => ret (status, adc_result_12bits)
        end
    end.

(** [_ADC1_compute_vrefint]: the filtered result is written through
    [&adc_ctx.vrefint_12bits]. *)
Definition _ADC1_compute_vrefint : M ADC_status_t :=
  c <- get_ctx ;;
  let* (status, slot) :=
    _ADC1_filtered_conversion ADC_CHANNEL_VREFINT (Some (vrefint_12bits c)) in
  match slot with
  | Some v =>
      set_ctx {| vrefint_12bits := v; data := data c;
                 tmcu_degrees := tmcu_degrees c |} ;;;
      ret status
  | None => ret status
  end.

(** [_ADC1_compute_vmcu].  The product of the two calibration constants is
    converted to the unsigned type of the divisor. *)
Definition _ADC1_compute_vmcu : M unit :=
  c <- get_ctx ;;
  vmcu_mv <- udiv32 (wrap32 (VREFINT_CAL cfg * VREFINT_VCC_CALIB_MV cfg))
               (vrefint_12bits c) ;;
  data_store (ADC_DATA_INDEX_VMCU_MV cfg) vmcu_mv.

(** [_ADC1_compute_tmcu].  In the first expression the [int32_t] reading
    is multiplied by a [uint32_t], so the product, the quotient by
    [TS_VCC_CALIB_MV] and the difference with [TS_CAL1] are unsigned 32-bit
    operations, and the result is converted to [int32_t] by the
    assignment.  The two following statements are signed. *)
Definition _ADC1_compute_tmcu : M ADC_status_t :=
  let* (status, slot) := _ADC1_filtered_conversion ADC_CHANNEL_TMCU (Some 0) in
  match status, slot with
  | ADC_SUCCESS, Some raw_temp_sensor_12bits =>
      vmcu_mv <- data_load (ADC_DATA_INDEX_VMCU_MV cfg) ;;
      q <- udiv32 (wrap32 (to_int32 raw_temp_sensor_12bits * vmcu_mv))
             (wrap32 (TS_VCC_CALIB_MV cfg)) ;;
      let raw_temp_calib_mv := to_int32 (q - wrap32 (TS_CAL1 cfg)) in
      temp_calib_degrees <-
        smul32 raw_temp_calib_mv
          (to_int32 (TS_CAL2_TEMP cfg - TS_CAL1_TEMP cfg)) ;;
      temp_calib_degrees <-
        sdiv32 temp_calib_degrees (to_int32 (TS_CAL2 cfg - TS_CAL1 cfg)) ;;
      degrees <- sadd32 temp_calib_degrees (TS_CAL1_TEMP cfg) ;;
      c <- get_ctx ;;
      set_ctx {| vrefint_12bits := vrefint_12bits c; data := data c;
                 tmcu_degrees := to_int8 degrees |} ;;;
      ret ADC_SUCCESS
  | _, _ => ret status
  end.

(** The conversion to millivolts shared by [_ADC1_compute_vusb] and
    [_ADC1_compute_vrs]: [(ADC_VREFINT_VOLTAGE_MV * raw * ratio) /
    adc_ctx.vrefint_12bits] in unsigned 32-bit arithmetic. *)
Definition scaled_input_mv (raw_12bits ratio : Z) : M Z :=
  c <- get_ctx ;;
  udiv32 (wrap32 (wrap32 (ADC_VREFINT_VOLTAGE_MV cfg * raw_12bits) * ratio))
    (vrefint_12bits c).

(** [_ADC1_compute_vusb]. *)
Definition _ADC1_compute_vusb : M ADC_status_t :=
  let* (status, slot) := _ADC1_filtered_conversion ADC_CHANNEL_VUSB (Some 0) in
  match status, slot with
  | ADC_SUCCESS, Some vusb_12bits =>
      mv <- scaled_input_mv vusb_12bits ADC_VOLTAGE_DIVIDER_RATIO_VUSB ;;
      data_store (ADC_DATA_INDEX_VUSB_MV cfg) mv ;;;
      ret ADC_SUCCESS
  | _, _ => ret status
  end.

(** [_ADC1_compute_vrs]. *)
Definition _ADC1_compute_vrs : M ADC_status_t :=
  let* (status, slot) := _ADC1_filtered_conversion ADC_CHANNEL_VRS (Some 0) in
  match status, slot with
  | ADC_SUCCESS, Some vrs_12bits =>
      mv <- scaled_input_mv vrs_12bits ADC_VOLTAGE_DIVIDER_RATIO_VRS ;;
      data_store (ADC_DATA_INDEX_VRS_MV cfg) mv ;;;
      ret ADC_SUCCESS
  | _, _ => ret status
  end.

(** ** Public functions *)

(** The loop [for (idx=0 ; idx<ADC_DATA_INDEX_LAST ; idx++)
    adc_ctx.data[idx] = 0] of [ADC1_init], with [n] iterations left. *)
Fixpoint clear_data (n idx : nat) : M unit :=
  match n with
  | O => ret tt
  | S n' => data_store idx 0 ;;; clear_data n' (S idx)
  end.

(** The condition of the calibration loop of [ADC1_init]; [&&] reads the
    status register only when [ADCAL] is still set. *)
Definition calibration_running : M bool :=
  v <- reg_read ADC1_CR ;;
  if Z.land v (Z.shiftl 1 31) =? 0 then ret false else isr_flag_clear 11.

(** The first statements of [ADC1_init]: "Init context". *)
Definition init_context : M unit :=
  c <- get_ctx ;;
  set_ctx {| vrefint_12bits := 0; data := data c;
             tmcu_degrees := tmcu_degrees c |} ;;;
  clear_data (ADC_DATA_INDEX_LAST cfg) 0 ;;;
  data_store (ADC_DATA_INDEX_VMCU_MV cfg) ADC_VMCU_DEFAULT_MV ;;;
  c <- get_ctx ;;
  set_ctx {| vrefint_12bits := vrefint_12bits c; data := data c;
             tmcu_degrees := 0 |}.

(** [ADC1_init]. *)
Definition ADC1_init : M ADC_status_t :=
  init_context ;;;
  GPIO_configure GPIO_ADC1_IN4 GPIO_MODE_ANALOG GPIO_TYPE_OPEN_DRAIN
    GPIO_SPEED_LOW GPIO_PULL_NONE ;;;
  GPIO_configure GPIO_ADC1_IN5 GPIO_MODE_ANALOG GPIO_TYPE_OPEN_DRAIN
    GPIO_SPEED_LOW GPIO_PULL_NONE ;;;
  (if HW1_1 cfg then
     GPIO_configure GPIO_MNTR_EN GPIO_MODE_OUTPUT GPIO_TYPE_PUSH_PULL
       GPIO_SPEED_LOW GPIO_PULL_NONE
   else ret tt) ;;;
  reg_or RCC_APB2ENR (Z.shiftl 1 9) ;;;
  v <- reg_read ADC1_CR ;;
  (if Z.land v (Z.shiftl 1 0) =? 0 then ret tt
   else reg_or ADC1_CR (Z.shiftl 1 1)) ;;;
  reg_or ADC1_CR (Z.shiftl 1 28) ;;;
  lptim1_status <- LPTIM1_delay_milliseconds 5 0 ;;
  match lptim1_status with
  | LPTIM_SUCCESS =>
      reg_or ADC1_CFGR2 (Z.shiftl 1 30) ;;;
      reg_or ADC1_SMPR (Z.shiftl 7 0) ;;;
      reg_or ADC1_CR (Z.shiftl 1 31) ;;;
      let* (status, _) :=
        wait_while poll_fuel calibration_running ADC_ERROR_CALIBRATION 0 in
      ret status
  | _ => ret (ADC_ERROR_BASE_LPTIM lptim1_status)
  end.

(** The statements of [ADC1_perform_measurements] that precede the label
    [errors]; the result is the value of [status] at the label. *)
Definition perform_measurements_steps : M ADC_status_t :=
  reg_or ADC1_CR (Z.shiftl 1 0) ;;;
  let* (status, _) :=
    wait_while poll_fuel (isr_flag_clear 0) ADC_ERROR_TIMEOUT 0 in
  match status with
  | ADC_SUCCESS =>
      (if HW1_1 cfg then GPIO_write GPIO_MNTR_EN 1 else ret tt) ;;;
      reg_or ADC1_CCR (Z.shiftl 3 22) ;;;
      lptim1_status <- LPTIM1_delay_milliseconds 100 0 ;;
      match lptim1_status with
      | LPTIM_SUCCESS =>
          status <- _ADC1_compute_vrefint ;;
          match status with
          | ADC_SUCCESS =>
              _ADC1_compute_vmcu ;;;
              status <- _ADC1_compute_tmcu ;;
              match status with
              | ADC_SUCCESS =>
                  status <- _ADC1_compute_vusb ;;
                  match status with
                  | ADC_SUCCESS => _ADC1_compute_vrs
                  | _ => ret status
                  end
              | _ => ret status
              end
          | _ => ret status
          end
      | _ => ret (ADC_ERROR_BASE_LPTIM lptim1_status)
      end
  | _ => ret status
  end.

(** The statements of [ADC1_perform_measurements] that follow the label
    [errors], before [return status]. *)
Definition perform_measurements_teardown : M unit :=
  reg_and ADC1_CCR (wrap32 (Z.lnot (Z.shiftl 3 22))) ;;;
  (if HW1_1 cfg then GPIO_write GPIO_MNTR_EN 0 else ret tt) ;;;
  reg_or ADC1_CR (Z.shiftl 1 1).

(** [ADC1_perform_measurements]. *)
Definition ADC1_perform_measurements : M ADC_status_t :=
  status <- perform_measurements_steps ;;
  perform_measurements_teardown ;;;
  ret status.

(** [ADC1_get_data].  [data_ptr] is the content of the location [data]
    points to, [None] for a null pointer; the function returns the status
    and the new content.  [ADC_data_index_t] has no negative enumerator,
    so the index is unsigned. *)
Definition ADC1_get_data (data_idx : nat) (data_ptr : option Z)
  : M (ADC_status_t * option Z) :=
  if (ADC_DATA_INDEX_LAST cfg <=? data_idx)%nat then
    ret (ADC_ERROR_DATA_INDEX, data_ptr)
  else
    match data_ptr with
    | None => ret (ADC_ERROR_NULL_PARAMETER, None)
    | Some _ => v <- data_load data_idx ;; ret (ADC_SUCCESS, Some v)
    end.

(** [ADC1_get_tmcu]. *)
Definition ADC1_get_tmcu (tmcu_ptr : option Z)
  : M (ADC_status_t * option Z) :=
  match tmcu_ptr with
  | None => ret (ADC_ERROR_NULL_PARAMETER, None)
  | Some _ => c <- get_ctx ;; ret (ADC_SUCCESS, Some (tmcu_degrees c))
  end.

End Driver.


(** ** A scripted device, to run the driver on concrete readings *)

(** The status register reads [isr_value] while samples are left and
    [isr_idle] afterwards, the control register always reads [cr_value];
    the data register of the 12-bit converter delivers the samples of
    [dr_samples] one after the other (then 0); the delay service answers
    with [delay_results] one after the other (then success). *)
Record script := {
  isr_value : Z;
  isr_idle : Z;
  cr_value : Z;
  dr_samples : list Z;
  delay_results : list LPTIM_status_t
}.

Definition script_read (r : reg) (h : script) : Z * script :=
  match r with
  | ADC1_ISR =>
      match dr_samples h with
      | [] => (isr_idle h, h)
      | _ :: _ => (isr_value h, h)
      end
  | ADC1_CR => (cr_value h, h)
  | ADC1_DR =>
      match dr_samples h with
      | [] => (0, h)
      | v :: l =>
          (Z.land v 0xFFF,
           {| isr_value := isr_value h; isr_idle := isr_idle h;
              cr_value := cr_value h; dr_samples := l;
              delay_results := delay_results h |})
      end
  | _ => (0, h)
  end.

Definition script_delay (delay_ms stop_mode : Z) (h : script)
  : LPTIM_status_t * script :=
  match delay_results h with
  | [] => (LPTIM_SUCCESS, h)
  | r :: l =>
      (r, {| isr_value := isr_value h; isr_idle := isr_idle h;
             cr_value := cr_value h; dr_samples := dr_samples h;
             delay_results := l |})
  end.

#[export] Instance script_device : Device script := {
  hw_read := script_read;
  hw_write := fun _ _ h => h;
  hw_gpio_configure := fun _ _ _ _ _ h => h;
  hw_gpio_write := fun _ _ h => h;
  hw_delay_milliseconds := script_delay
}.

(** The calibration values of the temperature example of the
    specification, on a board of revision HW1.1. *)
Definition board_example : ADC_config := {|
  HW1_1 := true;
  VREFINT_CAL := 1500;
  VREFINT_VCC_CALIB_MV := 3000;
  TS_CAL1 := 600;
  TS_CAL2 := 700;
  TS_CAL1_TEMP := 30;
  TS_CAL2_TEMP := 130;
  TS_VCC_CALIB_MV := 3000;
  ADC_DATA_INDEX_VMCU_MV := 2;
  ADC_DATA_INDEX_VUSB_MV := 0;
  ADC_DATA_INDEX_VRS_MV := 1;
  ADC_DATA_INDEX_LAST := 3
|}.

(** A device on which every flag is set as soon as it is polled. *)
Definition ready_device (samples : list Z) : script :=
  {| isr_value := 0xFFFFFFFF; isr_idle := 0xFFFFFFFF; cr_value := 0;
     dr_samples := samples; delay_results := [] |}.

(** A device that converts while samples are left and then never signals
    the end of a conversion again. *)
Definition stalling_device (samples : list Z) : script :=
  {| isr_value := 0xFFFFFFFF; isr_idle := 1; cr_value := 0;
     dr_samples := samples; delay_results := [] |}.

(** The readings of a nominal pass: bandgap, temperature, USB, resistor. *)
Definition nominal_samples : list Z :=
  replicate 9%nat 1500 ++ replicate 9%nat 650 ++ replicate 9%nat 1000
  ++ replicate 9%nat 2000.

(** The same with a hot temperature sensor. *)
Definition hot_samples : list Z :=
  replicate 9%nat 1500 ++ replicate 9%nat 800 ++ replicate 9%nat 1000
  ++ replicate 9%nat 2000.

Definition fresh_ctx : ADC_context_t :=
  {| vrefint_12bits := 0; data := [0; 0; 3300]; tmcu_degrees := 0 |}.

Definition boot (h : script) : world script :=
  {| hw := h; trace := []; adc_ctx := fresh_ctx |}.

(** A device on which every flag is set as soon as it is polled, but
    whose delay service fails at its first call. *)
Definition delay_failing_device : script :=
  {| isr_value := 0xFFFFFFFF; isr_idle := 0xFFFFFFFF; cr_value := 0;
     dr_samples := nominal_samples;
     delay_results := [LPTIM_ERROR_WRITE_ARR] |}.

(** A device whose converter is found enabled and whose calibration ends
    at once. *)
Definition enabled_device : script :=
  {| isr_value := 0xFFFFFFFF; isr_idle := 0xFFFFFFFF; cr_value := 1;
     dr_samples := []; delay_results := [] |}.

(** The board of the example with two more data slots that the driver
    does not compute, and a context in which they are in use. *)
Definition wide_board : ADC_config := {|
  HW1_1 := false;
  VREFINT_CAL := 1500;
  VREFINT_VCC_CALIB_MV := 3000;
  TS_CAL1 := 600;
  TS_CAL2 := 700;
  TS_CAL1_TEMP := 30;
  TS_CAL2_TEMP := 130;
  TS_VCC_CALIB_MV := 3000;
  ADC_DATA_INDEX_VMCU_MV := 2;
  ADC_DATA_INDEX_VUSB_MV := 0;
  ADC_DATA_INDEX_VRS_MV := 4;
  ADC_DATA_INDEX_LAST := 5
|}.

Definition wide_boot (h : script) : world script :=
  {| hw := h; trace := [];
     adc_ctx := {| vrefint_12bits := 7; data := [11; 22; 33; 44; 55];
                   tmcu_degrees := -3 |} |}.

(** The device has no sample left and does not signal the end of a
    conversion. *)
Definition stalled (w : world script) : Prop :=
  dr_samples (hw w) = [] /\ Z.land (wrap32 (isr_idle (hw w))) 4 = 0.

(** ** Declarative reading of the acquisition pass *)

Section Reading.

Context {HW : Type} {dev : Device HW}.
Variable cfg : ADC_config.

Local Abbreviation M := (exec HW).

(** Run the steps in order and stop at the first one whose status is not
    [ADC_SUCCESS]; the result is that status. *)
Fixpoint first_failure (steps : list (M ADC_status_t)) : M ADC_status_t :=
  match steps with
  | [] => ret ADC_SUCCESS
  | step :: rest =>
      status <- step ;;
      match status with
      | ADC_SUCCESS => first_failure rest
      | _ => ret status
      end
  end.

(** Step 1: enable the converter and wait for the ready flag. *)
Definition step_ready : M ADC_status_t :=
  reg_or ADC1_CR 1 ;;;
  let* (status, _) :=
    wait_while poll_fuel (isr_flag_clear 0) ADC_ERROR_TIMEOUT 0 in
  ret status.

(** Steps 2 and 3: power the dividers and the internal sources, then wait
    for them to settle. *)
Definition step_settle : M ADC_status_t :=
  (if HW1_1 cfg then GPIO_write GPIO_MNTR_EN 1 else ret tt) ;;;
  reg_or ADC1_CCR 0xC00000 ;;;
  lptim1_status <- LPTIM1_delay_milliseconds 100 0 ;;
  match lptim1_status with
  | LPTIM_SUCCESS => ret ADC_SUCCESS
  | _ => ret (ADC_ERROR_BASE_LPTIM lptim1_status)
  end.

(** Step 5: the supply voltage; it has no status of its own. *)
Definition step_vmcu : M ADC_status_t :=
  _ADC1_compute_vmcu cfg ;;; ret ADC_SUCCESS.

Definition acquisition_steps : list (M ADC_status_t) :=
  [ step_ready; step_settle; _ADC1_compute_vrefint; step_vmcu;
    _ADC1_compute_tmcu cfg; _ADC1_compute_vusb cfg; _ADC1_compute_vrs cfg ].

(** The common shape of [_ADC1_compute_vusb] and [_ADC1_compute_vrs]. *)
Definition compute_scaled (adc_channel ratio : Z) (idx : nat)
  : M ADC_status_t :=
  let* (status, slot) := _ADC1_filtered_conversion adc_channel (Some 0) in
  match status, slot with
  | ADC_SUCCESS, Some raw_12bits =>
      mv <- scaled_input_mv cfg raw_12bits ratio ;;
      data_store idx mv ;;;
      ret ADC_SUCCESS
  | _, _ => ret status
  end.

(** The events of the teardown, newest first: the internal sources are
    switched off, the divider enable is dropped on HW1.1, and ADDIS is
    set. *)
Definition teardown_events (ccr cr : Z) : list event :=
  EvWrite ADC1_CR (Z.lor cr 2) :: EvRead ADC1_CR cr ::
  (if HW1_1 cfg then [EvGpioWrite GPIO_MNTR_EN 0] else []) ++
  [EvWrite ADC1_CCR (Z.land ccr 0xFF3FFFFF); EvRead ADC1_CCR ccr].

(** [n] single conversions of the same channel, one after the other, each
    of which succeeds; [samples] are the values read, in order. *)
Inductive conversions (adc_channel : Z)
  : nat -> world HW -> list Z -> world HW -> Prop :=
| conversions_O w : conversions adc_channel O w [] w
| conversions_S n w slot v w1 samples w2 :
    _ADC1_single_conversion adc_channel (Some slot) w
      = Done (ADC_SUCCESS, Some v) w1 ->
    conversions adc_channel n w1 samples w2 ->
    conversions adc_channel (S n) w (v :: samples) w2.

(** Number of reads of the data register in a trace. *)
Fixpoint data_reads (l : list event) : nat :=
  match l with
  | [] => O
  | EvRead ADC1_DR _ :: l' => S (data_reads l')
  | _ :: l' => data_reads l'
  end.

(** Number of reads of the status register in a trace. *)
Fixpoint status_polls (l : list event) : nat :=
  match l with
  | [] => O
  | EvRead ADC1_ISR _ :: l' => S (status_polls l')
  | _ :: l' => status_polls l'
  end.

(** A busy-wait loop started at [w] returns; it has either observed its
    flag after at most [ADC_TIMEOUT_COUNT] iterations, or given up with
    [on_timeout] in iteration [ADC_TIMEOUT_COUNT + 1]; it has polled the
    status register at most [ADC_TIMEOUT_COUNT + 1] times. *)
Definition bounded_wait (busy : M bool) (on_timeout : ADC_status_t)
    (w : world HW) : Prop :=
  exists status n w',
    wait_while poll_fuel busy on_timeout 0 w = Done (status, n) w'
    /\ (status = ADC_SUCCESS /\ 0 <= n <= ADC_TIMEOUT_COUNT
        \/ status = on_timeout /\ n = ADC_TIMEOUT_COUNT + 1)
    /\ (status_polls (trace w')
        <= status_polls (trace w) + Z.to_nat (ADC_TIMEOUT_COUNT + 1))%nat.

(** The temperature formula of the specification, in exact integers, with
    quotients truncated toward zero. *)
Definition exact_degrees (raw supply_mv : Z) : Z :=
  TS_CAL1_TEMP cfg
  + Z.quot ((Z.quot (raw * supply_mv) (TS_VCC_CALIB_MV cfg) - TS_CAL1 cfg)
            * (TS_CAL2_TEMP cfg - TS_CAL1_TEMP cfg))
      (TS_CAL2 cfg - TS_CAL1 cfg).

(** No 32-bit intermediate result of the temperature computation wraps or
    overflows. *)
Definition tmcu_fits (raw supply_mv : Z) : bool :=
  let calib := Z.quot (raw * supply_mv) (TS_VCC_CALIB_MV cfg) - TS_CAL1 cfg in
  let scaled := calib * (TS_CAL2_TEMP cfg - TS_CAL1_TEMP cfg) in
  (0 <=? raw) && (0 <=? supply_mv) && (raw * supply_mv <? 2 ^ 32)
  && in_int32 calib && in_int32 scaled
  && in_int32 (Z.quot scaled (TS_CAL2 cfg - TS_CAL1 cfg))
  && in_int32 (exact_degrees raw supply_mv).

(** The supply-voltage formula of step 5. *)
Definition supply_formula (vrefint_raw : Z) : Z :=
  (VREFINT_CAL cfg * VREFINT_VCC_CALIB_MV cfg) / vrefint_raw.

(** The context that [ADC1_init] installs. *)
Definition reset_ctx : ADC_context_t :=
  {| vrefint_12bits := 0;
     data := <[ADC_DATA_INDEX_VMCU_MV cfg := ADC_VMCU_DEFAULT_MV]>
               (replicate (ADC_DATA_INDEX_LAST cfg) 0);
     tmcu_degrees := 0 |}.

(** [keeps R m]: the computation [m] returns from every state, and the
    state it returns in is related to the initial one by [R]. *)
Definition keeps (R : world HW -> world HW -> Prop) {A} (m : M A) : Prop :=
  forall w, exists a w', m w = Done a w' /\ R w w'.

(** The computation left [adc_ctx] as it was. *)
Definition same_ctx (w w' : world HW) : Prop := adc_ctx w' = adc_ctx w.

(** The computation left [adc_ctx] as it was and did not read the data
    register. *)
Definition quiet (w w' : world HW) : Prop :=
  adc_ctx w' = adc_ctx w /\ data_reads (trace w') = data_reads (trace w).

(** At most one poll of the status register per evaluation of the loop
    condition. *)
Definition polls_once (busy : M bool) : Prop :=
  forall w b w', busy w = Done b w' ->
    (status_polls (trace w') <= S (status_polls (trace w)))%nat.

(** What a successful filtered conversion delivers: the nine samples of
    nine successive conversions of the channel, each a value read from the
    data register, reduced to the average of the three middle-ranked
    ones. *)
Definition filtered_from (adc_channel : Z) (w : world HW) (r : Z)
    (w' : world HW) : Prop :=
  exists samples s0 s1 s2 s3 s4 s5 s6 s7 s8,
    conversions adc_channel 9 w samples w'
    /\ data_reads (trace w') = (data_reads (trace w) + 9)%nat
    /\ Forall (fun v => exists h, v = wrap32 (fst (hw_read ADC1_DR h)))
         samples
    /\ sort_ascending samples = [s0; s1; s2; s3; s4; s5; s6; s7; s8]
    /\ r = (s3 + s4 + s5) / 3.

(** The computation does not exhaust the fuel of the model. *)
Definition fuel_ok {A} (m : M A) : Prop := forall w, m w <> OutOfFuel.

(** The statuses that the steps of the pass can produce. *)
Definition pass_status (status : ADC_status_t) : Prop :=
  status = ADC_SUCCESS
  \/ status = ADC_ERROR_TIMEOUT
  \/ (exists l, l <> LPTIM_SUCCESS /\ status = ADC_ERROR_BASE_LPTIM l)
  \/ (exists m, m <> MATH_SUCCESS /\ status = ADC_ERROR_BASE_MATH m).

(** The slots that the pass may write. *)
Definition pass_frame (w w' : world HW) : Prop :=
  length (data (adc_ctx w')) = length (data (adc_ctx w))
  /\ forall j,
       j <> ADC_DATA_INDEX_VMCU_MV cfg ->
       j <> ADC_DATA_INDEX_VUSB_MV cfg ->
       j <> ADC_DATA_INDEX_VRS_MV cfg ->
       data (adc_ctx w') !! j = data (adc_ctx w) !! j.

(** A step reads the data register at most [k] times, and exactly [k]
    times when it succeeds. *)
Definition step_reads (k : nat) (step : M ADC_status_t) : Prop :=
  forall w status w',
    step w = Done status w' ->
    (data_reads (trace w') <= data_reads (trace w) + k)%nat
    /\ (status = ADC_SUCCESS ->
        data_reads (trace w') = (data_reads (trace w) + k)%nat).

(** The events of the GPIO configuration of [ADC1_init], newest first:
    the two analog inputs, then the divider enable on HW1.1. *)
Definition init_gpio_events : list event :=
  (if HW1_1 cfg then
     [EvGpioConfigure GPIO_MNTR_EN GPIO_MODE_OUTPUT GPIO_TYPE_PUSH_PULL
        GPIO_SPEED_LOW GPIO_PULL_NONE]
   else []) ++
  [EvGpioConfigure GPIO_ADC1_IN5 GPIO_MODE_ANALOG GPIO_TYPE_OPEN_DRAIN
     GPIO_SPEED_LOW GPIO_PULL_NONE;
   EvGpioConfigure GPIO_ADC1_IN4 GPIO_MODE_ANALOG GPIO_TYPE_OPEN_DRAIN
     GPIO_SPEED_LOW GPIO_PULL_NONE].

(** A read of the control register or of the status register. *)
Definition calibration_poll (e : event) : Prop :=
  exists v, e = EvRead ADC1_CR v \/ e = EvRead ADC1_ISR v.

End Reading.

(** * The NVM, EXTI and RCC drivers (src/src/peripherals/nvm.c, exti.c, rcc.c)

    The three drivers only sequence register accesses.  They are embedded
    over one abstract microcontroller: every access to a register, to the
    EEPROM or to the interrupt controller is recorded in a trace, newest
    first.  [RCC_switch_to_hsi] and [RCC_get_lsi_frequency] are left out:
    they go through [FLASH_status_check] and [TIM21_status_check], macros of
    headers that the sources do not contain. *)

(** ** Registers and collaborators *)

(** The peripherals, as in [RCC -> CSR]. *)
Inductive peripheral := RCC | EXTI | SYSCFG | FLASH.

(** The registers that the three drivers access; [EXTICR n] is
    [EXTICR[n]].  The length of that array is declared in syscfg_reg.h,
    which the sources do not contain: the model gives an access no
    special meaning for a large [n], and the properties below are stated
    for the pins 0 to 15, whose register index is at most 3. *)
Inductive field :=
| AHBENR | APB2ENR | CSR
| IMR | RTSR | FTSR | PR
| EXTICR (n : Z)
| SR | PECR | PEKEYR.

Inductive nvic_interrupt := NVIC_INTERRUPT_EXTI_0_1 | NVIC_INTERRUPT_EXTI_4_15.

(** What the drivers do to the microcontroller. *)
Inductive io :=
| IoLoad (p : peripheral) (f : field) (v : Z)
| IoStore (p : peripheral) (f : field) (v : Z)
| IoEepromLoad (address_offset v : Z)
| IoEepromStore (address_offset v : Z)
| IoNvicSetPriority (irq : nvic_interrupt) (priority : Z).

(** The microcontroller: the memory-mapped registers, the bytes of the
    EEPROM at [EEPROM_START_ADDRESS + address_offset] and
    [NVIC_set_priority].  A load may return any value and may change the
    device. *)
Class Mcu (HW : Type) := {
  mcu_load : peripheral -> field -> HW -> Z * HW;
  mcu_store : peripheral -> field -> Z -> HW -> HW;
  mcu_eeprom_load : Z -> HW -> Z * HW;
  mcu_eeprom_store : Z -> Z -> HW -> HW;
  mcu_nvic_set_priority : nvic_interrupt -> Z -> HW -> HW
}.

(** A shift count that is negative or not smaller than the width of
    [int] gives the shift no meaning. *)
Inductive hazard := ShiftCount.

(** ** Status codes and types of the three drivers *)

(** [NVM_status_t]: the enumerators that nvm.c returns. *)
Inductive NVM_status_t :=
| NVM_SUCCESS
| NVM_ERROR_NULL_PARAMETER
| NVM_ERROR_ADDRESS
| NVM_ERROR_UNLOCK
| NVM_ERROR_LOCK
| NVM_ERROR_WRITE.

(** [RCC_status_t]: the enumerators that the modelled functions of rcc.c
    return. *)
Inductive RCC_status_t :=
| RCC_SUCCESS
| RCC_ERROR_LSI_READY
| RCC_ERROR_LSE_READY.

(** [EXTI_trigger_t]: the three enumerators that [_EXTI_set_trigger]
    names, and every other value of the type, which takes the [default]
    branch. *)
Inductive EXTI_trigger_t :=
| EXTI_TRIGGER_RISING_EDGE
| EXTI_TRIGGER_FALLING_EDGE
| EXTI_TRIGGER_ANY_EDGE
| EXTI_TRIGGER_unlisted.

(** The fields of [GPIO_pin_t] that exti.c reads. *)
Record GPIO_pin_t := {
  port_index : Z;
  pin_index : Z
}.

Definition NVM_TIMEOUT_COUNT : Z := 1000000.
Definition RCC_TIMEOUT_COUNT : Z := 1000000.
Definition RCC_MSI_RESET_FREQUENCY_KHZ : Z := 2100.
Definition EXTI_RTSR_FTSR_RESERVED_INDEX : Z := 18.
Definition EXTI_RTSR_FTSR_MAX_INDEX : Z := 22.

(** ** State and executions *)

Section Machine.

Context {HW : Type} {mcu : Mcu HW}.

(** The device, the trace of what was done to it (newest first) and the
    static variable [rcc_sysclk_khz] of rcc.c. *)
Record machine := {
  mcu_hw : HW;
  io_trace : list io;
  rcc_sysclk_khz : Z
}.

Inductive result (A : Type) :=
| Returns (a : A) (m : machine)
| Stuck (h : hazard)
| Unfinished.
#[local] Arguments Returns {A} a m.
#[local] Arguments Stuck {A} h.
#[local] Arguments Unfinished {A}.

Definition step (A : Type) : Type := machine -> result A.

Definition pure {A} (a : A) : step A := fun m => Returns a m.

Definition and_then {A B} (c : step A) (k : A -> step B) : step B :=
  fun m =>
    match c m with
    | Returns a m' => k a m'
    | Stuck h => Stuck h
    | Unfinished => Unfinished
    end.

Definition stuck {A} (h : hazard) : step A := fun _ => Stuck h.

Definition record (e : io) (h : HW) (m : machine) : machine :=
  {| mcu_hw := h; io_trace := e :: io_trace m;
     rcc_sysclk_khz := rcc_sysclk_khz m |}.

(** Read and write of a volatile 32-bit register. *)
Definition load (p : peripheral) (f : field) : step Z :=
  fun m =>
    let '(v, h) := mcu_load p f (mcu_hw m) in
    Returns (wrap32 v) (record (IoLoad p f (wrap32 v)) h m).

Definition store (p : peripheral) (f : field) (v : Z) : step unit :=
  fun m => Returns tt (record (IoStore p f v) (mcu_store p f v (mcu_hw m)) m).

(** Read and write of a byte of the EEPROM. *)
Definition eeprom_load (address_offset : Z) : step Z :=
  fun m =>
    let '(v, h) := mcu_eeprom_load address_offset (mcu_hw m) in
    Returns (v mod 2 ^ 8)
      (record (IoEepromLoad address_offset (v mod 2 ^ 8)) h m).

Definition eeprom_store (address_offset v : Z) : step unit :=
  fun m =>
    Returns tt
      (record (IoEepromStore address_offset v)
         (mcu_eeprom_store address_offset v (mcu_hw m)) m).

Definition NVIC_set_priority (irq : nvic_interrupt) (priority : Z)
  : step unit :=
  fun m =>
    Returns tt
      (record (IoNvicSetPriority irq priority)
         (mcu_nvic_set_priority irq priority (mcu_hw m)) m).

End Machine.

Arguments machine HW : clear implicits.
Arguments result HW A : clear implicits.
Arguments step HW A : clear implicits.
Arguments Returns {HW A} a m.
Arguments Stuck {HW A} h.
Arguments Unfinished {HW A}.

Declare Scope step_scope.
Delimit Scope step_scope with step.
Notation "x <- c ;; k" := (and_then c (fun x => k))
  (at level 100, c at next level, right associativity) : step_scope.
Notation "c ;;; k" := (and_then c (fun _ => k))
  (at level 100, right associativity) : step_scope.

Section Drivers.

Context {HW : Type} {mcu : Mcu HW}.

(** [EEPROM_SIZE_BYTES] of flash_reg.h, which the sources do not
    contain. *)
Variable EEPROM_SIZE_BYTES : Z.

Local Abbreviation P := (step HW).
Local Open Scope step_scope.

(** [REG |= mask] and [REG &= mask]. *)
Definition set_bits (p : peripheral) (f : field) (mask : Z) : P unit :=
  v <- load p f ;; store p f (Z.lor v mask).

Definition keep_bits (p : peripheral) (f : field) (mask : Z) : P unit :=
  v <- load p f ;; store p f (Z.land v mask).

(** [0b1 << n] in type [int].  The count must be non-negative and smaller
    than 32; as in adc.c, [0b1 << 31] is the bit 31. *)
Definition shift_one (n : Z) : P Z :=
  if (0 <=? n) && (n <? 32) then pure (Z.shiftl 1 n) else stuck ShiftCount.

(** [~x] of an [int], converted to the [uint32_t] of the register it is
    combined with. *)
Definition complement (x : Z) : Z := wrap32 (Z.lnot x).

(** [while (busy) { loop_count++; if (loop_count > timeout_count)
    { ...; leave } }], where [busy] polls a register.  The result tells
    whether the loop was left by the timeout.  [fuel] bounds the number of
    polls of the model only; it is not in the code. *)
Fixpoint busy_wait (fuel : nat) (busy : P bool) (timeout_count : Z)
    (loop_count : Z) : P bool :=
  match fuel with
  | O => fun _ => Unfinished
  | S fuel' =>
      b <- busy ;;
      if b : bool then
        let loop_count := wrap32 (loop_count + 1) in
        if loop_count >? timeout_count then pure true
        else busy_wait fuel' busy timeout_count loop_count
      else pure false
  end.

Definition wait_fuel : nat := S (Z.to_nat 1000000).

(** [((p -> f) & mask) != 0] and [((p -> f) & mask) == 0]. *)
Definition bits_set (p : peripheral) (f : field) (mask : Z) : P bool :=
  v <- load p f ;; pure (negb (Z.land v mask =? 0)).

Definition bits_clear (p : peripheral) (f : field) (mask : Z) : P bool :=
  v <- load p f ;; pure (Z.land v mask =? 0).

(** ** nvm.c *)

(** [_NVM_unlock]. *)
Definition _NVM_unlock : P NVM_status_t :=
  timed_out <- busy_wait wait_fuel (bits_set FLASH SR (Z.shiftl 1 0))
                 NVM_TIMEOUT_COUNT 0 ;;
  if timed_out : bool then pure NVM_ERROR_UNLOCK
  else
    v <- load FLASH PECR ;;
    (if Z.land v (Z.shiftl 1 0) =? 0 then pure tt
     else store FLASH PEKEYR 0x89ABCDEF ;;; store FLASH PEKEYR 0x02030405) ;;;
    pure NVM_SUCCESS.

(** [_NVM_lock]. *)
Definition _NVM_lock : P NVM_status_t :=
  timed_out <- busy_wait wait_fuel (bits_set FLASH SR (Z.shiftl 1 0))
                 NVM_TIMEOUT_COUNT 0 ;;
  if timed_out : bool then pure NVM_ERROR_LOCK
  else set_bits FLASH PECR (Z.shiftl 1 0) ;;; pure NVM_SUCCESS.

(** [NVM_init]. *)
Definition NVM_init : P unit := set_bits RCC AHBENR (Z.shiftl 1 8).

(** [NVM_read_byte].  [data] is the content of the pointed location,
    [None] for a null pointer; the function returns the status and the new
    content. *)
Definition NVM_read_byte (address_offset : Z) (data : option Z)
  : P (NVM_status_t * option Z) :=
  if EEPROM_SIZE_BYTES <=? address_offset then pure (NVM_ERROR_ADDRESS, data)
  else
    match data with
    | None => pure (NVM_ERROR_NULL_PARAMETER, None)
    | Some _ =>
        status <- _NVM_unlock ;;
        match status with
        | NVM_SUCCESS =>
            v <- eeprom_load address_offset ;;
            status <- _NVM_lock ;;
            pure (status, Some v)
        | _ => pure (status, data)
        end
    end.

(** [NVM_write_byte]. *)
Definition NVM_write_byte (address_offset data : Z) : P NVM_status_t :=
  if EEPROM_SIZE_BYTES <=? address_offset then pure NVM_ERROR_ADDRESS
  else
    status <- _NVM_unlock ;;
    match status with
    | NVM_SUCCESS =>
        eeprom_store address_offset data ;;;
        timed_out <- busy_wait wait_fuel (bits_set FLASH SR (Z.shiftl 1 0))
                       NVM_TIMEOUT_COUNT 0 ;;
        if timed_out : bool then pure NVM_ERROR_WRITE else _NVM_lock
    | _ => pure status
    end.

(** ** exti.c *)

(** [_EXTI_set_trigger].  [line_idx] is a [uint8_t]. *)
Definition _EXTI_set_trigger (trigger : EXTI_trigger_t) (line_idx : Z)
  : P unit :=
  match trigger with
  | EXTI_TRIGGER_RISING_EDGE =>
      bit <- shift_one line_idx ;;
      set_bits EXTI RTSR bit ;;;
      bit <- shift_one line_idx ;;
      keep_bits EXTI FTSR (complement bit)
  | EXTI_TRIGGER_FALLING_EDGE =>
      bit <- shift_one line_idx ;;
      keep_bits EXTI RTSR (complement bit) ;;;
      bit <- shift_one line_idx ;;
      set_bits EXTI FTSR bit
  | EXTI_TRIGGER_ANY_EDGE =>
      bit <- shift_one line_idx ;;
      set_bits EXTI RTSR bit ;;;
      bit <- shift_one line_idx ;;
      set_bits EXTI FTSR bit
  | EXTI_TRIGGER_unlisted => pure tt
  end ;;;
  bit <- shift_one line_idx ;;
  set_bits EXTI PR bit.

(** [EXTI_clear_all_flags]. *)
Definition EXTI_clear_all_flags : P unit := set_bits EXTI PR 0x007BFFFF.

(** [EXTI_init]. *)
Definition EXTI_init : P unit :=
  set_bits RCC APB2ENR (Z.shiftl 1 0) ;;;
  store EXTI IMR 0 ;;;
  EXTI_clear_all_flags ;;;
  NVIC_set_priority NVIC_INTERRUPT_EXTI_0_1 3 ;;;
  NVIC_set_priority NVIC_INTERRUPT_EXTI_4_15 0.

(** [EXTI_configure_gpio].  The pin index is not negative; the shift
    counts [4 * (pin_index % 4)] are at most 12. *)
Definition EXTI_configure_gpio (gpio : GPIO_pin_t) (trigger : EXTI_trigger_t)
  : P unit :=
  keep_bits SYSCFG (EXTICR (pin_index gpio / 4))
    (complement (Z.shiftl 0xF (4 * (pin_index gpio mod 4)))) ;;;
  set_bits SYSCFG (EXTICR (pin_index gpio / 4))
    (wrap32 (Z.shiftl (port_index gpio) (4 * (pin_index gpio mod 4)))) ;;;
  bit <- shift_one (pin_index gpio) ;;
  set_bits EXTI IMR bit ;;;
  _EXTI_set_trigger trigger (pin_index gpio).

(** [EXTI_configure_line].  The line is converted to the [uint8_t]
    parameter of [_EXTI_set_trigger]. *)
Definition EXTI_configure_line (line : Z) (trigger : EXTI_trigger_t)
  : P unit :=
  bit <- shift_one line ;;
  set_bits EXTI IMR bit ;;;
  if negb (line =? EXTI_RTSR_FTSR_RESERVED_INDEX)
     || (line <=? EXTI_RTSR_FTSR_MAX_INDEX)
  then _EXTI_set_trigger trigger (line mod 2 ^ 8)
  else pure tt.

(** ** rcc.c *)

(** [RCC_init]. *)
Definition RCC_init : P unit :=
  fun m =>
    Returns tt {| mcu_hw := mcu_hw m; io_trace := io_trace m;
                  rcc_sysclk_khz := RCC_MSI_RESET_FREQUENCY_KHZ |}.

(** [RCC_get_sysclk_khz]. *)
Definition RCC_get_sysclk_khz : P Z := fun m => Returns (rcc_sysclk_khz m) m.

(** [RCC_enable_lsi]. *)
Definition RCC_enable_lsi : P RCC_status_t :=
  set_bits RCC CSR (Z.shiftl 1 0) ;;;
  timed_out <- busy_wait wait_fuel (bits_clear RCC CSR (Z.shiftl 1 1))
                 RCC_TIMEOUT_COUNT 0 ;;
  if timed_out : bool then pure RCC_ERROR_LSI_READY else pure RCC_SUCCESS.

(** [RCC_enable_lse].  The statements of the timeout branch of the loop
    are those that follow a wait left by the timeout. *)
Definition RCC_enable_lse : P RCC_status_t :=
  set_bits RCC CSR (Z.shiftl 1 8) ;;;
  timed_out <- busy_wait wait_fuel (bits_clear RCC CSR (Z.shiftl 1 9))
                 RCC_TIMEOUT_COUNT 0 ;;
  if timed_out : bool then
    keep_bits RCC CSR (complement (Z.shiftl 1 8)) ;;;
    pure RCC_ERROR_LSE_READY
  else pure RCC_SUCCESS.

End Drivers.

(** ** Reading the traces of the three drivers *)

(** The polls of a busy-wait loop on the register [p -> f], newest first.
    [waiting v] tells that the value [v] keeps the loop waiting.  A loop
    left by the timeout has polled [timeout_count + 1] times and seen the
    loop condition hold each time; a loop left otherwise has seen the
    condition fail at its last poll, after at most [timeout_count] polls
    that kept it waiting. *)
Definition waited (p : peripheral) (f : field) (waiting : Z -> bool)
    (timeout_count : Z) (timed_out : bool) (polls : list io) : Prop :=
  exists vs,
    polls = map (IoLoad p f) vs
    /\ if timed_out then
         Forall (fun v => waiting v = true) vs
         /\ Z.of_nat (length vs) = timeout_count + 1
       else
         exists v vs',
           vs = v :: vs' /\ waiting v = false
           /\ Forall (fun v => waiting v = true) vs'
           /\ Z.of_nat (length vs') <= timeout_count.

(** BSY of [FLASH -> SR] is set. *)
Definition flash_busy (v : Z) : bool := negb (Z.land v 1 =? 0).

(** The accesses of [_NVM_unlock] after its wait, newest first: PECR is
    read, and the two keys are written when PELOCK was read as set. *)
Definition unlock_events (pecr : Z) : list io :=
  (if Z.land pecr 1 =? 0 then []
   else [IoStore FLASH PEKEYR 0x02030405; IoStore FLASH PEKEYR 0x89ABCDEF])
  ++ [IoLoad FLASH PECR pecr].

(** The accesses of [_NVM_lock] after its wait: PELOCK is set. *)
Definition lock_events (pecr : Z) : list io :=
  [IoStore FLASH PECR (Z.lor pecr 1); IoLoad FLASH PECR pecr].

(** The read-modify-write of one edge-selection register by
    [_EXTI_set_trigger], newest first. *)
Definition edge_events (f : field) (enable : bool) (line_idx old : Z)
  : list io :=
  [IoStore EXTI f
     (if enable then Z.lor old (Z.shiftl 1 line_idx)
      else Z.land old (complement (Z.shiftl 1 line_idx)));
   IoLoad EXTI f old].

(** The accesses of [_EXTI_set_trigger] to the edge-selection registers,
    newest first: the rising edge in RTSR, then the falling edge in FTSR;
    none for a trigger that the function does not list. *)
Definition trigger_edges (trigger : EXTI_trigger_t) (line_idx : Z)
    (edges : list io) : Prop :=
  match trigger with
  | EXTI_TRIGGER_RISING_EDGE =>
      exists rtsr ftsr,
        edges = edge_events FTSR false line_idx ftsr
                ++ edge_events RTSR true line_idx rtsr
  | EXTI_TRIGGER_FALLING_EDGE =>
      exists rtsr ftsr,
        edges = edge_events FTSR true line_idx ftsr
                ++ edge_events RTSR false line_idx rtsr
  | EXTI_TRIGGER_ANY_EDGE =>
      exists rtsr ftsr,
        edges = edge_events FTSR true line_idx ftsr
                ++ edge_events RTSR true line_idx rtsr
  | EXTI_TRIGGER_unlisted => edges = []
  end.

(** Bit [i] belongs to the 4-bit field that starts at bit [shift]. *)
Definition in_field (shift i : Z) : bool := (shift <=? i) && (i <? shift + 4).

(** The ready flag of an oscillator, bit [bit] of [RCC -> CSR], is not
    set. *)
Definition not_ready (bit : Z) (v : Z) : bool :=
  Z.land v (Z.shiftl 1 bit) =? 0.

(** The loop condition polls the register [p -> f] once. *)
Definition polls_register {HW : Type} (busy : step HW bool)
    (p : peripheral) (f : field) (waiting : Z -> bool) : Prop :=
  forall m : machine HW,
    exists v m1,
      busy m = Returns (waiting v) m1
      /\ io_trace m1 = IoLoad p f v :: io_trace m
      /\ rcc_sysclk_khz m1 = rcc_sysclk_khz m.

(** A microcontroller whose registers and EEPROM read as 0. *)
#[export] Instance idle_mcu : Mcu unit := {
  mcu_load := fun _ _ h => (0, h);
  mcu_store := fun _ _ _ h => h;
  mcu_eeprom_load := fun _ h => (0, h);
  mcu_eeprom_store := fun _ _ h => h;
  mcu_nvic_set_priority := fun _ _ h => h
}.

Definition idle_machine : machine unit :=
  {| mcu_hw := tt; io_trace := []; rcc_sysclk_khz := 0 |}.



(** ** Properties of the machine integers *)

Ltac pow_const :=
  change (2 ^ 32) with 4294967296 in *;
  change (2 ^ 31) with 2147483648 in *;
  change (2 ^ 8) with 256 in *;
  change (2 ^ 7) with 128 in *.

Lemma wrap32_small x : 0 <= x < 2 ^ 32 -> wrap32 x = x.
Proof. intros Hx. unfold wrap32. apply Z.mod_small. exact Hx. Qed.

Lemma wrap32_range x : 0 <= wrap32 x < 2 ^ 32.
Proof. unfold wrap32. apply Z.mod_pos_bound. lia. Qed.

Lemma to_int32_small x : - 2 ^ 31 <= x < 2 ^ 31 -> to_int32 x = x.
Proof.
  intros Hx. unfold to_int32. pow_const.
  destruct (Z.neg_nonneg_cases x) as [Hneg | Hpos].
  - replace (x mod 4294967296) with (x + 4294967296).
    + destruct (x + 4294967296 <? 2147483648) eqn:Hlt; lia.
    + apply Z.mod_unique with (q := -1); lia.
  - rewrite Z.mod_small by lia.
    destruct (x <? 2147483648) eqn:Hlt; lia.
Qed.

Lemma to_int8_small x : - 128 <= x <= 127 -> to_int8 x = x.
Proof.
  intros Hx. unfold to_int8. pow_const.
  destruct (Z.neg_nonneg_cases x) as [Hneg | Hpos].
  - replace (x mod 256) with (x + 256).
    + destruct (x + 256 <? 128) eqn:Hlt; lia.
    + apply Z.mod_unique with (q := -1); lia.
  - rewrite Z.mod_small by lia.
    destruct (x <? 128) eqn:Hlt; lia.
Qed.

Lemma to_int8_range x : - 128 <= to_int8 x <= 127.
Proof.
  unfold to_int8. pow_const.
  pose proof (Z.mod_pos_bound x 256 ltac:(lia)) as Hm.
  destruct (x mod 256 <? 128) eqn:Hlt; lia.
Qed.

(** The conversion of one factor to [int32_t] does not change an unsigned
    32-bit product. *)
Lemma wrap32_to_int32_mul x y : wrap32 (to_int32 x * y) = wrap32 (x * y).
Proof.
  unfold wrap32, to_int32.
  destruct (x mod 2 ^ 32 <? 2 ^ 31).
  - apply Z.mul_mod_idemp_l. lia.
  - replace ((x mod 2 ^ 32 - 2 ^ 32) * y)
      with (x mod 2 ^ 32 * y + (- y) * 2 ^ 32) by lia.
    rewrite Z.mod_add by lia. apply Z.mul_mod_idemp_l. lia.
Qed.

Lemma in_int32_true x : in_int32 x = true -> - 2 ^ 31 <= x < 2 ^ 31.
Proof. unfold in_int32. pow_const. lia. Qed.

(** ** Properties of the median filter *)

Lemma insert_sorted_perm x l : Permutation (insert_sorted x l) (x :: l).
Proof.
  induction l as [|y l IH]; cbn.
  - reflexivity.
  - destruct (x <=? y).
    + reflexivity.
    + rewrite IH. apply perm_swap.
Qed.

Lemma sort_ascending_perm l : Permutation (sort_ascending l) l.
Proof.
  induction l as [|x l IH]; cbn.
  - reflexivity.
  - rewrite insert_sorted_perm. apply perm_skip, IH.
Qed.

Lemma insert_sorted_hd x y l :
  y <= x -> HdRel Z.le y l -> HdRel Z.le y (insert_sorted x l).
Proof.
  intros Hyx Hl. destruct l as [|z l]; cbn.
  - constructor. exact Hyx.
  - destruct (x <=? z); constructor; [exact Hyx |].
    inversion Hl; assumption.
Qed.

Lemma insert_sorted_sorted x l :
  Sorted Z.le l -> Sorted Z.le (insert_sorted x l).
Proof.
  induction 1 as [|y l Hs IH Hhd]; cbn.
  - repeat constructor.
  - destruct (x <=? y) eqn:Hxy.
    + constructor; [constructor; assumption |]. constructor. lia.
    + constructor; [exact IH |]. apply insert_sorted_hd; [lia | exact Hhd].
Qed.

Lemma sort_ascending_sorted l : Sorted Z.le (sort_ascending l).
Proof.
  induction l as [|x l IH]; cbn.
  - constructor.
  - apply insert_sorted_sorted, IH.
Qed.

(** The filter on nine samples with a window of three: the average of the
    samples of rank 3, 4 and 5. *)
Lemma median_filter_9_3 samples result :
  length samples = 9%nat ->
  exists s0 s1 s2 s3 s4 s5 s6 s7 s8,
    sort_ascending samples = [s0; s1; s2; s3; s4; s5; s6; s7; s8]
    /\ MATH_median_filter_u32 samples ADC_MEDIAN_FILTER_SIZE
         ADC_CENTER_AVERAGE_SIZE result
       = (MATH_SUCCESS, Some ((s3 + s4 + s5) / 3)).
Proof.
  intros Hlen.
  assert (Hs : length (sort_ascending samples) = 9%nat).
  { rewrite (Permutation_length (sort_ascending_perm samples)). exact Hlen. }
  unfold MATH_median_filter_u32. rewrite Hlen. cbn -[sort_ascending Z.div].
  destruct (sort_ascending samples)
    as [|s0 [|s1 [|s2 [|s3 [|s4 [|s5 [|s6 [|s7 [|s8 [|s9 l]]]]]]]]]];
    try discriminate.
  exists s0, s1, s2, s3, s4, s5, s6, s7, s8. split; [reflexivity |].
  cbn -[Z.div]. do 3 f_equal. lia.
Qed.

(** ** Properties *)

Section Properties.

Context {HW : Type} {dev : Device HW}.
Variable cfg : ADC_config.

Local Abbreviation M := (exec HW).
Local Abbreviation same_ctx := (@same_ctx HW).
Local Abbreviation quiet := (@quiet HW).
Local Abbreviation fuel_ok := (@fuel_ok HW).

(** *** Executions *)

Lemma bind_done_inv {A B} (m : M A) (k : A -> M B) w b w' :
  bind m k w = Done b w' ->
  exists a w1, m w = Done a w1 /\ k a w1 = Done b w'.
Proof.
  unfold bind. destruct (m w) as [a w1| |] eqn:E; try discriminate.
  intros Hk. exists a, w1. split; [reflexivity | exact Hk].
Qed.

Lemma bind_done_l {A B} (m : M A) (k : A -> M B) w a w1 :
  m w = Done a w1 -> bind m k w = k a w1.
Proof. intros E. unfold bind. rewrite E. reflexivity. Qed.




#[local] Instance same_ctx_preorder : PreOrder same_ctx.
Proof.
  split; [intros w; reflexivity |].
  intros w1 w2 w3 H12 H23. unfold same_ctx in *. congruence.
Qed.

#[local] Instance quiet_preorder : PreOrder quiet.
Proof.
  split; [intros w; split; reflexivity |].
  intros w1 w2 w3 [C12 D12] [C23 D23]. split; congruence.
Qed.

Lemma quiet_same_ctx w w' : quiet w w' -> same_ctx w w'.
Proof. intros [C _]. exact C. Qed.

Lemma keeps_weaken (R R' : world HW -> world HW -> Prop) {A} (m : M A) :
  (forall w w', R w w' -> R' w w') -> keeps R m -> keeps R' m.
Proof.
  intros HR Hm w. destruct (Hm w) as (a & w' & E & Hw).
  exists a, w'. split; [exact E | apply HR, Hw].
Qed.

Section Keeps.

Variable R : world HW -> world HW -> Prop.
Context {R_preorder : PreOrder R}.

Lemma keeps_ret {A} (a : A) : keeps R (ret a).
Proof. intros w. exists a, w. split; reflexivity. Qed.

Lemma keeps_bind {A B} (m : M A) (k : A -> M B) :
  keeps R m -> (forall a, keeps R (k a)) -> keeps R (bind m k).
Proof.
  intros Hm Hk w.
  destruct (Hm w) as (a & w1 & E1 & R1).
  destruct (Hk a w1) as (b & w2 & E2 & R2).
  exists b, w2. split.
  - rewrite (bind_done_l _ _ _ _ _ E1). exact E2.
  - etransitivity; eassumption.
Qed.

End Keeps.

Lemma quiet_reg_read r : r <> ADC1_DR -> keeps quiet (reg_read r).
Proof.
  intros Hr w. unfold reg_read. destruct (hw_read r (hw w)) as [v h].
  eexists _, _. split; [reflexivity |]. split; [reflexivity |].
  cbn. destruct r; congruence.
Qed.

Lemma quiet_reg_write r v : keeps quiet (reg_write r v).
Proof. intros w. eexists _, _. split; [reflexivity | split; reflexivity]. Qed.

Lemma quiet_reg_or r mask : r <> ADC1_DR -> keeps quiet (reg_or r mask).
Proof.
  intros Hr. apply keeps_bind; [typeclasses eauto | |].
  - apply quiet_reg_read, Hr.
  - intros v. apply quiet_reg_write.
Qed.

Lemma quiet_reg_and r mask : r <> ADC1_DR -> keeps quiet (reg_and r mask).
Proof.
  intros Hr. apply keeps_bind; [typeclasses eauto | |].
  - apply quiet_reg_read, Hr.
  - intros v. apply quiet_reg_write.
Qed.

Lemma quiet_GPIO_write p level : keeps quiet (GPIO_write p level).
Proof. intros w. eexists _, _. split; [reflexivity | split; reflexivity]. Qed.

Lemma quiet_GPIO_configure p m t s u :
  keeps quiet (GPIO_configure p m t s u).
Proof. intros w. eexists _, _. split; [reflexivity | split; reflexivity]. Qed.

Lemma quiet_delay ms sm : keeps quiet (LPTIM1_delay_milliseconds ms sm).
Proof.
  intros w. unfold LPTIM1_delay_milliseconds.
  destruct (hw_delay_milliseconds ms sm (hw w)) as [r h].
  eexists _, _. split; [reflexivity | split; reflexivity].
Qed.

Lemma quiet_isr_flag_clear bit : keeps quiet (isr_flag_clear bit).
Proof.
  apply keeps_bind; [typeclasses eauto | |].
  - apply quiet_reg_read. discriminate.
  - intros v. apply keeps_ret. typeclasses eauto.
Qed.

Lemma quiet_calibration_running : keeps quiet calibration_running.
Proof.
  apply keeps_bind; [typeclasses eauto | |].
  - apply quiet_reg_read. discriminate.
  - intros v. destruct (Z.land v (Z.shiftl 1 31) =? 0).
    + apply keeps_ret. typeclasses eauto.
    + apply quiet_isr_flag_clear.
Qed.

Lemma same_ctx_reg_read r : keeps same_ctx (reg_read r).
Proof.
  intros w. unfold reg_read. destruct (hw_read r (hw w)) as [v h].
  eexists _, _. split; reflexivity.
Qed.

(** *** Busy-wait loops *)

(** With fuel for the polls that the counter still allows, the loop
    returns: either the flag was observed after at most
    [ADC_TIMEOUT_COUNT] iterations, or iteration [ADC_TIMEOUT_COUNT + 1]
    gave up with the timeout status. *)
Lemma wait_while_returns (R : world HW -> world HW -> Prop)
    {R_preorder : PreOrder R} (busy : M bool) on_timeout :
  keeps R busy ->
  forall fuel loop_count w,
    0 <= loop_count <= ADC_TIMEOUT_COUNT ->
    (Z.to_nat (ADC_TIMEOUT_COUNT + 1 - loop_count) <= fuel)%nat ->
    exists status n w',
      wait_while fuel busy on_timeout loop_count w = Done (status, n) w'
      /\ R w w'
      /\ loop_count <= n
      /\ (status = ADC_SUCCESS /\ n <= ADC_TIMEOUT_COUNT
          \/ status = on_timeout /\ n = ADC_TIMEOUT_COUNT + 1).
Proof.
  intros Hbusy. unfold ADC_TIMEOUT_COUNT.
  induction fuel as [|fuel IH]; intros lc w Hlc Hfuel.
  - lia.
  - cbn [wait_while]. destruct (Hbusy w) as (b & w1 & E1 & C1).
    rewrite (bind_done_l _ _ _ _ _ E1).
    destruct b.
    + rewrite wrap32_small by lia.
      destruct (lc + 1 >? ADC_TIMEOUT_COUNT) eqn:Hgt;
        unfold ADC_TIMEOUT_COUNT in Hgt.
      * exists on_timeout, (lc + 1), w1.
        repeat split; [exact C1 | lia |]. right. split; [reflexivity | lia].
      * destruct (IH (lc + 1) w1) as (st & n & w' & E & C & Hn & Hst);
          [lia | lia |].
        exists st, n, w'.
        repeat split; [exact E | etransitivity; eassumption | lia | exact Hst].
    + exists ADC_SUCCESS, lc, w1.
      repeat split; [exact C1 | lia |]. left. split; [reflexivity | lia].
Qed.

Lemma poll_fuel_enough :
  (Z.to_nat (ADC_TIMEOUT_COUNT + 1 - 0) <= poll_fuel)%nat.
Proof. unfold poll_fuel, ADC_TIMEOUT_COUNT. lia. Qed.

Lemma keeps_wait_while (R : world HW -> world HW -> Prop)
    {R_preorder : PreOrder R} (busy : M bool) on_timeout :
  keeps R busy -> keeps R (wait_while poll_fuel busy on_timeout 0).
Proof.
  intros Hbusy w.
  destruct (wait_while_returns R busy on_timeout Hbusy poll_fuel 0 w)
    as (st & n & w' & E & C & _); [unfold ADC_TIMEOUT_COUNT; lia | |].
  - apply poll_fuel_enough.
  - exists (st, n), w'. split; assumption.
Qed.

(** If the flag is never observed, the loop gives up in iteration
    [ADC_TIMEOUT_COUNT + 1]. *)
Lemma wait_while_times_out (P : world HW -> Prop) (busy : M bool)
    on_timeout :
  (forall w, P w -> exists w', busy w = Done true w' /\ P w') ->
  forall fuel loop_count w,
    0 <= loop_count <= ADC_TIMEOUT_COUNT ->
    (Z.to_nat (ADC_TIMEOUT_COUNT + 1 - loop_count) <= fuel)%nat ->
    P w ->
    exists w',
      wait_while fuel busy on_timeout loop_count w
      = Done (on_timeout, ADC_TIMEOUT_COUNT + 1) w'
      /\ P w'.
Proof.
  intros Hbusy. unfold ADC_TIMEOUT_COUNT.
  induction fuel as [|fuel IH]; intros lc w Hlc Hfuel HP.
  - lia.
  - cbn [wait_while]. destruct (Hbusy w HP) as (w1 & E1 & HP1).
    rewrite (bind_done_l _ _ _ _ _ E1).
    rewrite wrap32_small by (pow_const; lia).
    destruct (lc + 1 >? ADC_TIMEOUT_COUNT) eqn:Hgt;
      unfold ADC_TIMEOUT_COUNT in Hgt.
    + exists w1. split; [| exact HP1].
      replace (lc + 1) with (1000000 + 1) by lia. reflexivity.
    + apply IH; [lia | lia | exact HP1].
Qed.


Lemma polls_once_isr_flag_clear bit : polls_once (isr_flag_clear bit).
Proof.
  intros w b w' E. unfold isr_flag_clear, bind, reg_read, ret in E.
  destruct (hw_read ADC1_ISR (hw w)) as [v h]. inversion E; subst.
  cbn. lia.
Qed.

Lemma polls_once_calibration_running : polls_once calibration_running.
Proof.
  intros w b w' E. unfold calibration_running in E.
  apply bind_done_inv in E. destruct E as (v & w1 & E1 & E2).
  assert (Hw1 : status_polls (trace w1) = status_polls (trace w)).
  { unfold reg_read in E1. destruct (hw_read ADC1_CR (hw w)) as [x h].
    inversion E1; subst. reflexivity. }
  destruct (Z.land v (Z.shiftl 1 31) =? 0).
  - inversion E2; subst. lia.
  - apply polls_once_isr_flag_clear in E2. lia.
Qed.

Lemma wait_while_polls (busy : M bool) on_timeout :
  polls_once busy ->
  forall fuel loop_count w status n w',
    0 <= loop_count <= ADC_TIMEOUT_COUNT ->
    wait_while fuel busy on_timeout loop_count w = Done (status, n) w' ->
    (status_polls (trace w')
     <= status_polls (trace w)
        + Z.to_nat (ADC_TIMEOUT_COUNT + 1 - loop_count))%nat.
Proof.
  intros Hbusy. unfold ADC_TIMEOUT_COUNT.
  induction fuel as [|fuel IH]; intros lc w st n w' Hlc E.
  - discriminate.
  - cbn [wait_while] in E. apply bind_done_inv in E.
    destruct E as (b & w1 & E1 & E2). apply Hbusy in E1.
    destruct b.
    + rewrite wrap32_small in E2 by lia.
      destruct (lc + 1 >? ADC_TIMEOUT_COUNT) eqn:Hgt;
        unfold ADC_TIMEOUT_COUNT in Hgt.
      * inversion E2; subst. lia.
      * apply IH in E2; [lia | lia].
    + inversion E2; subst. lia.
Qed.

(** *** Conversions *)

(** Run the first computation of a sequence with a lemma of the form
    [keeps R m]. *)
Ltac run_with H :=
  match goal with
  | |- context [bind ?m ?k ?w] =>
      let a := fresh "a" in
      let w1 := fresh "w" in
      let E := fresh "E" in
      let Q := fresh "Q" in
      destruct (H w) as (a & w1 & E & Q);
      rewrite (bind_done_l m k w a w1 E)
  end.

(** A single conversion returns; if it succeeds it has read the data
    register exactly once and delivers that value, otherwise it has not
    read it and leaves the output location as it was. *)
Lemma single_conversion_returns adc_channel slot w :
  exists status r w',
    _ADC1_single_conversion adc_channel slot w = Done (status, r) w'
    /\ same_ctx w w'
    /\ (status = ADC_SUCCESS
        /\ (exists h, r = Some (wrap32 (fst (hw_read ADC1_DR h))))
        /\ data_reads (trace w') = S (data_reads (trace w))
        \/ status <> ADC_SUCCESS /\ r = slot
           /\ data_reads (trace w') = data_reads (trace w)).
Proof.
  unfold _ADC1_single_conversion.
  destruct (ADC_CHANNEL_LAST <=? adc_channel).
  { exists ADC_ERROR_CHANNEL, slot, w.
    split; [reflexivity | split; [reflexivity |]].
    right. repeat split. discriminate. }
  destruct slot as [old|].
  2:{ exists ADC_ERROR_NULL_PARAMETER, None, w.
      split; [reflexivity | split; [reflexivity |]].
      right. repeat split. discriminate. }
  run_with (quiet_reg_and ADC1_CHSELR 0xFFF80000 ltac:(discriminate)).
  run_with (quiet_reg_or ADC1_CHSELR (Z.shiftl 1 adc_channel)
              ltac:(discriminate)).
  run_with (quiet_reg_or ADC1_ISR 0x0000089F ltac:(discriminate)).
  run_with (quiet_reg_or ADC1_CR (Z.shiftl 1 2) ltac:(discriminate)).
  run_with (keeps_wait_while quiet (isr_flag_clear 2) ADC_ERROR_TIMEOUT
              (quiet_isr_flag_clear 2)).
  assert (Hq : quiet w w4).
  { repeat (etransitivity; [eassumption |]). reflexivity. }
  destruct Hq as [Hc Hd]. destruct a3 as [status n].
  destruct status;
    try solve [ eexists _, (Some old), w4;
                split; [reflexivity | split; [exact Hc |]];
                right; repeat split; [discriminate | exact Hd] ].
  unfold bind, reg_read, ret.
  destruct (hw_read ADC1_DR (hw w4)) as [v h] eqn:Ev.
  eexists ADC_SUCCESS, (Some (wrap32 v)), _.
  split; [reflexivity | split; [exact Hc |]].
  left. split; [reflexivity | split].
  - exists (hw w4). rewrite Ev. reflexivity.
  - cbn. rewrite Hd. reflexivity.
Qed.

(** The sampling loop returns; when every conversion succeeds, it has made
    exactly [n] of them and stored the samples at [idx], [idx + 1], ... *)
Lemma sample_loop_returns adc_channel :
  forall n idx buf w,
    (idx + n <= length buf)%nat ->
    exists status buf' w',
      sample_loop n idx adc_channel buf w = Done (status, buf') w'
      /\ same_ctx w w'
      /\ (data_reads (trace w') <= data_reads (trace w) + n)%nat
      /\ (status = ADC_SUCCESS ->
          exists samples,
            conversions adc_channel n w samples w'
            /\ length samples = n
            /\ buf' = take idx buf ++ samples ++ drop (idx + n) buf
            /\ data_reads (trace w') = (data_reads (trace w) + n)%nat
            /\ Forall (fun v => exists h,
                         v = wrap32 (fst (hw_read ADC1_DR h))) samples).
Proof.
  induction n as [|n IH]; intros idx buf w Hlen.
  - exists ADC_SUCCESS, buf, w. cbn [sample_loop].
    split; [reflexivity | split; [reflexivity | split; [lia |]]].
    intros _. exists []. repeat split.
    + constructor.
    + cbn. rewrite Nat.add_0_r, take_drop. reflexivity.
    + lia.
    + constructor.
  - cbn [sample_loop].
    destruct (lookup_lt_is_Some_2 buf idx ltac:(lia)) as [x Hx]. rewrite Hx.
    destruct (single_conversion_returns adc_channel (Some x) w)
      as (st & r & w1 & E1 & C1 & Hcase).
    rewrite (bind_done_l _ _ _ _ _ E1).
    destruct Hcase as [(-> & [h ->] & Hd) | (Hst & -> & Hd)].
    + set (v := wrap32 (fst (hw_read ADC1_DR h))).
      destruct (IH (S idx) (<[idx := v]> buf) w1)
        as (st' & buf' & w' & E & C & Hle & Hok).
      { rewrite length_insert. lia. }
      exists st', buf', w'. split; [exact E |].
      split; [etransitivity; eassumption |]. split; [lia |].
      intros Hst'. destruct (Hok Hst') as (samples & Hc & Hl & Hb & Hn & Hf).
      exists (v :: samples). repeat split.
      * econstructor; eassumption.
      * cbn. rewrite Hl. reflexivity.
      * rewrite Hb.
        rewrite (take_S_r _ idx v)
          by (apply list_lookup_insert_eq; lia).
        rewrite take_insert_ge by lia.
        rewrite drop_insert_lt by lia.
        rewrite <- app_assoc. cbn.
        replace (S (idx + n)) with (idx + S n)%nat by lia. reflexivity.
      * lia.
      * constructor; [exists h; reflexivity | exact Hf].
    + exists st, (<[idx := x]> buf), w1.
      split; [destruct st; try reflexivity; congruence |].
      split; [exact C1 | split; [lia |]].
      intros ->. congruence.
Qed.


Lemma filtered_conversion_returns adc_channel slot w :
  exists status r w',
    _ADC1_filtered_conversion adc_channel slot w = Done (status, r) w'
    /\ same_ctx w w'
    /\ (data_reads (trace w') <= data_reads (trace w) + 9)%nat
    /\ (status = ADC_SUCCESS ->
        exists v, r = Some v /\ filtered_from adc_channel w v w')
    /\ (status <> ADC_SUCCESS -> r = slot).
Proof.
  unfold _ADC1_filtered_conversion.
  destruct (ADC_CHANNEL_LAST <=? adc_channel).
  { exists ADC_ERROR_CHANNEL, slot, w.
    repeat split; [lia | discriminate]. }
  destruct slot as [old|].
  2:{ exists ADC_ERROR_NULL_PARAMETER, None, w.
      repeat split; [lia | discriminate]. }
  destruct (sample_loop_returns adc_channel ADC_MEDIAN_FILTER_SIZE 0
              (replicate ADC_MEDIAN_FILTER_SIZE 0) w)
    as (st & buf & w' & E & C & Hle & Hok).
  { rewrite length_replicate. lia. }
  rewrite (bind_done_l _ _ _ _ _ E). cbn beta iota.
  destruct st;
    try solve [ eexists _, (Some old), w';
                repeat split; [exact C | exact Hle | discriminate] ].
  destruct (Hok eq_refl) as (samples & Hc & Hl & Hb & Hn & Hf).
  rewrite take_0 in Hb.
  rewrite drop_ge in Hb by (rewrite length_replicate; lia).
  cbn [app] in Hb. rewrite app_nil_r in Hb. subst buf.
  destruct (median_filter_9_3 samples (Some old) Hl)
    as (s0 & s1 & s2 & s3 & s4 & s5 & s6 & s7 & s8 & Hs & Hm).
  rewrite Hm.
  exists ADC_SUCCESS, (Some ((s3 + s4 + s5) / 3)), w'.
  split; [reflexivity | split; [exact C | split; [exact Hle |]]].
  split; [| congruence].
  intros _. eexists. split; [reflexivity |].
  exists samples, s0, s1, s2, s3, s4, s5, s6, s7, s8.
  repeat split; assumption.
Qed.

(** The three middle-ranked samples are samples. *)
Lemma middle_three_bounds (P : Z -> Prop) samples s0 s1 s2 s3 s4 s5 s6 s7 s8 :
  Forall P samples ->
  sort_ascending samples = [s0; s1; s2; s3; s4; s5; s6; s7; s8] ->
  P s3 /\ P s4 /\ P s5.
Proof.
  intros Hf Hs.
  assert (Hsorted : Forall P (sort_ascending samples)).
  { rewrite (sort_ascending_perm samples). exact Hf. }
  rewrite Hs in Hsorted.
  repeat match goal with
         | H : Forall _ (_ :: _) |- _ => inversion H; clear H; subst
         end.
  repeat split; assumption.
Qed.

(** On a 12-bit converter the filtered value is a 12-bit value. *)
Lemma filtered_from_12bits adc_channel w r w' :
  (forall h, wrap32 (fst (hw_read ADC1_DR h)) <= 4095) ->
  filtered_from adc_channel w r w' -> 0 <= r <= 4095.
Proof.
  intros Hdr (samples & s0 & s1 & s2 & s3 & s4 & s5 & s6 & s7 & s8
              & _ & _ & Hf & Hs & ->).
  assert (Hf' : Forall (fun v => 0 <= v <= 4095) samples).
  { eapply Forall_impl; [exact Hf |]. cbn. intros v [h ->].
    split; [apply wrap32_range | apply Hdr]. }
  destruct (middle_three_bounds _ _ _ _ _ _ _ _ _ _ _ Hf' Hs)
    as (H3 & H4 & H5).
  split.
  - apply Z.div_pos; lia.
  - apply Z.div_le_upper_bound; lia.
Qed.

(** A successful conversion does not depend on the old content of its
    output location. *)
Lemma single_conversion_success_slot adc_channel a b w v w1 :
  _ADC1_single_conversion adc_channel (Some a) w
    = Done (ADC_SUCCESS, Some v) w1 ->
  _ADC1_single_conversion adc_channel (Some b) w
    = Done (ADC_SUCCESS, Some v) w1.
Proof.
  unfold _ADC1_single_conversion.
  destruct (ADC_CHANNEL_LAST <=? adc_channel); [discriminate |].
  intros E.
  apply bind_done_inv in E. destruct E as (u1 & x1 & E1 & E).
  apply bind_done_inv in E. destruct E as (u2 & x2 & E2 & E).
  apply bind_done_inv in E. destruct E as (u3 & x3 & E3 & E).
  apply bind_done_inv in E. destruct E as (u4 & x4 & E4 & E).
  apply bind_done_inv in E. destruct E as ([st n] & x5 & E5 & E).
  rewrite (bind_done_l _ _ _ _ _ E1), (bind_done_l _ _ _ _ _ E2),
    (bind_done_l _ _ _ _ _ E3), (bind_done_l _ _ _ _ _ E4),
    (bind_done_l _ _ _ _ _ E5).
  destruct st; try discriminate E. exact E.
Qed.

(** Successive successful conversions deliver values read from the data
    register, one read each. *)
Lemma conversions_samples adc_channel n w samples w' :
  conversions adc_channel n w samples w' ->
  length samples = n
  /\ Forall (fun v => exists h, v = wrap32 (fst (hw_read ADC1_DR h))) samples
  /\ data_reads (trace w') = (data_reads (trace w) + n)%nat.
Proof.
  induction 1 as [w | n w slot v w1 samples w2 E _ (IHl & IHf & IHr)].
  - split; [reflexivity |]. split; [constructor | lia].
  - destruct (single_conversion_returns adc_channel (Some slot) w)
      as (st & r & x & E' & _ & Hcase).
    rewrite E in E'. inversion E'; subst st r x.
    destruct Hcase as [(_ & (h & Hv) & Hr) | (Hst & _)]; [| congruence].
    inversion Hv; subst v.
    split; [cbn; rewrite IHl; reflexivity |].
    split; [constructor; [exists h; reflexivity | exact IHf] | lia].
Qed.

(** When its conversions succeed one after the other, the sampling loop
    makes exactly these conversions and stores their samples. *)
Lemma sample_loop_conversions adc_channel n :
  forall idx buf w samples w',
    (idx + n <= length buf)%nat ->
    conversions adc_channel n w samples w' ->
    sample_loop n idx adc_channel buf w
    = Done (ADC_SUCCESS, take idx buf ++ samples ++ drop (idx + n) buf) w'.
Proof.
  induction n as [| n IH]; intros idx buf w samples w' Hlen Hc;
    inversion Hc; subst.
  - cbn [sample_loop app]. rewrite Nat.add_0_r, take_drop. reflexivity.
  - cbn [sample_loop].
    destruct (lookup_lt_is_Some_2 buf idx ltac:(lia)) as [x Hx]. rewrite Hx.
    match goal with
    | H : _ADC1_single_conversion _ (Some ?slot) _ = _ |- _ =>
        rewrite (bind_done_l _ _ _ _ _
                   (single_conversion_success_slot _ slot x _ _ _ H))
    end.
    cbn beta iota.
    erewrite IH; [| rewrite length_insert; lia | eassumption].
    do 2 f_equal.
    rewrite (take_S_r _ idx v) by (apply list_lookup_insert_eq; lia).
    rewrite take_insert_ge by lia.
    rewrite drop_insert_lt by lia.
    rewrite <- app_assoc. cbn.
    replace (S (idx + n)) with (idx + S n)%nat by lia. reflexivity.
Qed.

(** C5: for every valid channel, on a converter that delivers 12-bit
    samples.  Whenever nine single conversions of the channel succeed one
    after the other, a filtered conversion makes exactly these nine
    conversions, nothing else, and succeeds with the average of the three
    middle-ranked samples of the nine, a value between 0 and 4095.  A
    filtered conversion always returns, after at most nine reads of the
    data register, and it succeeds in no other case: a success has made
    nine successful single conversions of the channel and delivers that
    average. *)
Theorem filtered_conversion_nine_samples adc_channel old w :
  0 <= adc_channel < ADC_CHANNEL_LAST ->
  (forall h, wrap32 (fst (hw_read ADC1_DR h)) <= 4095) ->
  (forall samples w9,
     conversions adc_channel 9 w samples w9 ->
     exists s0 s1 s2 s3 s4 s5 s6 s7 s8,
       _ADC1_filtered_conversion adc_channel (Some old) w
         = Done (ADC_SUCCESS, Some ((s3 + s4 + s5) / 3)) w9
       /\ data_reads (trace w9) = (data_reads (trace w) + 9)%nat
       /\ Permutation [s0; s1; s2; s3; s4; s5; s6; s7; s8] samples
       /\ Sorted Z.le [s0; s1; s2; s3; s4; s5; s6; s7; s8]
       /\ 0 <= (s3 + s4 + s5) / 3 <= 4095)
  /\ exists status r w',
       _ADC1_filtered_conversion adc_channel (Some old) w
         = Done (status, r) w'
       /\ (data_reads (trace w') <= data_reads (trace w) + 9)%nat
       /\ (status = ADC_SUCCESS ->
           exists samples s0 s1 s2 s3 s4 s5 s6 s7 s8,
             conversions adc_channel 9 w samples w'
             /\ data_reads (trace w') = (data_reads (trace w) + 9)%nat
             /\ Permutation [s0; s1; s2; s3; s4; s5; s6; s7; s8] samples
             /\ Sorted Z.le [s0; s1; s2; s3; s4; s5; s6; s7; s8]
             /\ r = Some ((s3 + s4 + s5) / 3)
             /\ 0 <= (s3 + s4 + s5) / 3 <= 4095).
Proof.
  intros Hch Hdr. split.
  - intros samples w9 Hc.
    destruct (conversions_samples _ _ _ _ _ Hc) as (Hl & Hf & Hr).
    destruct (median_filter_9_3 samples (Some old) Hl)
      as (s0 & s1 & s2 & s3 & s4 & s5 & s6 & s7 & s8 & Hs & Hm).
    exists s0, s1, s2, s3, s4, s5, s6, s7, s8.
    split.
    + unfold _ADC1_filtered_conversion.
      replace (ADC_CHANNEL_LAST <=? adc_channel) with false by lia.
      rewrite (bind_done_l _ _ _ _ _
                 (sample_loop_conversions adc_channel
                    ADC_MEDIAN_FILTER_SIZE 0
                    (replicate ADC_MEDIAN_FILTER_SIZE 0) w samples w9
                    ltac:(rewrite length_replicate; lia) Hc)).
      cbn beta iota. rewrite take_0.
      rewrite drop_ge by (rewrite length_replicate; lia).
      cbn [app]. rewrite app_nil_r, Hm. reflexivity.
    + split; [exact Hr |].
      split; [rewrite <- Hs; apply sort_ascending_perm |].
      split; [rewrite <- Hs; apply sort_ascending_sorted |].
      assert (Hf' : Forall (fun v => 0 <= v <= 4095) samples).
      { eapply Forall_impl; [exact Hf |]. cbn. intros v [h ->].
        split; [apply wrap32_range | apply Hdr]. }
      destruct (middle_three_bounds _ _ _ _ _ _ _ _ _ _ _ Hf' Hs)
        as (H3 & H4 & H5).
      split; [apply Z.div_pos; lia | apply Z.div_le_upper_bound; lia].
  - destruct (filtered_conversion_returns adc_channel (Some old) w)
      as (st & r & w' & E & _ & Hle & Hok & _).
    exists st, r, w'. split; [exact E | split; [exact Hle |]].
    intros Hst. destruct (Hok Hst) as (v & -> & Hfrom).
    pose proof (filtered_from_12bits _ _ _ _ Hdr Hfrom) as Hrange.
    destruct Hfrom as (samples & s0 & s1 & s2 & s3 & s4 & s5 & s6 & s7 & s8
                       & Hc & Hn & Hf & Hs & ->).
    exists samples, s0, s1, s2, s3, s4, s5, s6, s7, s8.
    split; [exact Hc | split; [exact Hn |]].
    split; [rewrite <- Hs; apply sort_ascending_perm |].
    split; [rewrite <- Hs; apply sort_ascending_sorted |].
    split; [reflexivity | exact Hrange].
Qed.

(** *** Steps of the acquisition pass *)

Lemma keeps_done (R : world HW -> world HW -> Prop) {A} (m : M A) w a w' :
  keeps R m -> m w = Done a w' -> R w w'.
Proof.
  intros Hm E. destruct (Hm w) as (a1 & w1 & E1 & HR).
  rewrite E in E1. inversion E1; subst. exact HR.
Qed.

Lemma same_ctx_filtered_conversion adc_channel slot :
  keeps same_ctx (_ADC1_filtered_conversion adc_channel slot).
Proof.
  intros w.
  destruct (filtered_conversion_returns adc_channel slot w)
    as (st & r & w' & E & C & _).
  exists (st, r), w'. split; assumption.
Qed.

Lemma same_ctx_step_ready : keeps same_ctx step_ready.
Proof.
  unfold step_ready.
  apply keeps_bind; [typeclasses eauto | |].
  - eapply keeps_weaken; [apply quiet_same_ctx |].
    apply quiet_reg_or. discriminate.
  - intros _. apply keeps_bind; [typeclasses eauto | |].
    + eapply keeps_weaken; [apply quiet_same_ctx |].
      apply keeps_wait_while; [typeclasses eauto |].
      apply quiet_isr_flag_clear.
    + intros [st n]. apply keeps_ret. typeclasses eauto.
Qed.

Lemma same_ctx_step_settle : keeps same_ctx (step_settle cfg).
Proof.
  unfold step_settle.
  eapply keeps_weaken; [apply quiet_same_ctx |].
  apply keeps_bind; [typeclasses eauto | |].
  - destruct (HW1_1 cfg); [apply quiet_GPIO_write |].
    apply keeps_ret. typeclasses eauto.
  - intros _. apply keeps_bind; [typeclasses eauto | |].
    + apply quiet_reg_or. discriminate.
    + intros _. apply keeps_bind; [typeclasses eauto | |].
      * apply quiet_delay.
      * intros l. destruct l; apply keeps_ret; typeclasses eauto.
Qed.

(** The bandgap step returns; it changes [vrefint_12bits] only, and only
    when it succeeds, to the filtered reading. *)
Lemma compute_vrefint_returns w :
  exists status w',
    _ADC1_compute_vrefint w = Done status w'
    /\ data (adc_ctx w') = data (adc_ctx w)
    /\ tmcu_degrees (adc_ctx w') = tmcu_degrees (adc_ctx w)
    /\ (status = ADC_SUCCESS ->
        exists w1, filtered_from ADC_CHANNEL_VREFINT w
                     (vrefint_12bits (adc_ctx w')) w1)
    /\ (status <> ADC_SUCCESS -> adc_ctx w' = adc_ctx w).
Proof.
  unfold _ADC1_compute_vrefint, get_ctx. unfold bind at 1.
  destruct (filtered_conversion_returns ADC_CHANNEL_VREFINT
              (Some (vrefint_12bits (adc_ctx w))) w)
    as (st & r & w1 & E & C & _ & Hok & Hko).
  rewrite (bind_done_l _ _ _ _ _ E). cbn beta iota.
  destruct (ADC_status_t_eq_dec st ADC_SUCCESS) as [-> | Hst].
  - destruct (Hok eq_refl) as (v & -> & Hfrom).
    eexists ADC_SUCCESS, _. split; [reflexivity |]. cbn.
    repeat split; [| congruence]. intros _. exists w1. exact Hfrom.
  - rewrite (Hko Hst).
    eexists st, _. split; [reflexivity |]. cbn.
    repeat split; [congruence | intros _]. rewrite <- C.
    destruct (adc_ctx w1); reflexivity.
Qed.

(** Unfold the sequencing of the computations that do no input or
    output. *)
Ltac unfold_exec :=
  cbv [bind get_ctx set_ctx with_ctx udiv32 smul32 sadd32 sdiv32 data_store
       data_load ret undefined].

(** The supply-voltage step: it is defined exactly when the bandgap
    reading is not zero (and the slot exists); it then stores the quotient
    and does nothing else. *)
Lemma compute_vmcu_done (w : world HW) u (w' : world HW) :
  _ADC1_compute_vmcu cfg w = Done u w' ->
  vrefint_12bits (adc_ctx w) <> 0
  /\ hw w' = hw w /\ trace w' = trace w
  /\ vrefint_12bits (adc_ctx w') = vrefint_12bits (adc_ctx w)
  /\ tmcu_degrees (adc_ctx w') = tmcu_degrees (adc_ctx w)
  /\ (ADC_DATA_INDEX_VMCU_MV cfg < length (data (adc_ctx w)))%nat
  /\ data (adc_ctx w')
     = <[ADC_DATA_INDEX_VMCU_MV cfg :=
           (wrap32 (VREFINT_CAL cfg * VREFINT_VCC_CALIB_MV cfg)
            / vrefint_12bits (adc_ctx w))%Z]> (data (adc_ctx w)).
Proof.
  unfold _ADC1_compute_vmcu. unfold_exec.
  destruct (vrefint_12bits (adc_ctx w) =? 0) eqn:Hz; [discriminate |].
  destruct (ADC_DATA_INDEX_VMCU_MV cfg <? length (data (adc_ctx w)))%nat
    eqn:Hi; [| discriminate].
  intros E. inversion E; subst. cbn.
  apply Z.eqb_neq in Hz. apply Nat.ltb_lt in Hi. repeat split; assumption.
Qed.

Lemma compute_vmcu_zero (w : world HW) :
  vrefint_12bits (adc_ctx w) = 0 ->
  _ADC1_compute_vmcu cfg w = Undefined DivisionByZero.
Proof.
  intros Hz. unfold _ADC1_compute_vmcu. unfold_exec.
  rewrite Hz. reflexivity.
Qed.

Lemma compute_vmcu_defined (w : world HW) :
  vrefint_12bits (adc_ctx w) <> 0 ->
  (ADC_DATA_INDEX_VMCU_MV cfg < length (data (adc_ctx w)))%nat ->
  exists w', _ADC1_compute_vmcu cfg w = Done tt w'.
Proof.
  intros Hz Hi.
  unfold _ADC1_compute_vmcu. unfold_exec.
  apply Z.eqb_neq in Hz. apply Nat.ltb_lt in Hi. rewrite Hz, Hi.
  eexists. reflexivity.
Qed.

(** The factory calibration product fits the 32-bit arithmetic. *)
Lemma calib_product_range :
  calib_ok cfg = true ->
  0 <= VREFINT_CAL cfg * VREFINT_VCC_CALIB_MV cfg < 2 ^ 31.
Proof.
  unfold calib_ok. intros Hc.
  repeat (apply andb_prop in Hc; destruct Hc as [Hc ?]).
  nia.
Qed.

(** Case analysis on every test of a computation that is given as a
    hypothesis. *)
Ltac split_tests E :=
  repeat match type of E with
         | context [if ?c then _ else _] => destruct c eqn:?
         | context [match ?x with _ => _ end] => destruct x eqn:?
         end.

(** The temperature step changes [tmcu_degrees] only, and only when it
    succeeds. *)
Lemma compute_tmcu_done (w : world HW) status (w' : world HW) :
  _ADC1_compute_tmcu cfg w = Done status w' ->
  vrefint_12bits (adc_ctx w') = vrefint_12bits (adc_ctx w)
  /\ data (adc_ctx w') = data (adc_ctx w)
  /\ (status <> ADC_SUCCESS -> adc_ctx w' = adc_ctx w).
Proof.
  unfold _ADC1_compute_tmcu.
  destruct (filtered_conversion_returns ADC_CHANNEL_TMCU (Some 0) w)
    as (st & r & w1 & E & C & _ & Hok & Hko).
  rewrite (bind_done_l _ _ _ _ _ E). cbn beta iota.
  unfold same_ctx in C.
  destruct (ADC_status_t_eq_dec st ADC_SUCCESS) as [-> | Hst].
  - destruct (Hok eq_refl) as (v & -> & _).
    unfold_exec. intros E'.
    destruct (data (adc_ctx w1) !! ADC_DATA_INDEX_VMCU_MV cfg);
      [| discriminate].
    split_tests E'; try discriminate.
    inversion E'; subst. cbn. rewrite C.
    repeat split. congruence.
  - intros E'.
    assert (E'' : Done st w1 = Done status w').
    { destruct st, r; try exact E'; congruence. }
    inversion E''; subst. rewrite C. repeat split.
Qed.

Lemma data_load_done idx v (w : world HW) :
  data (adc_ctx w) !! idx = Some v -> data_load idx w = Done v w.
Proof. intros Hv. unfold_exec. rewrite Hv. reflexivity. Qed.

Lemma udiv32_done a b (w : world HW) :
  b <> 0 -> udiv32 a b w = Done (a / b) w.
Proof.
  intros Hb. unfold udiv32. apply Z.eqb_neq in Hb. rewrite Hb. reflexivity.
Qed.

Lemma smul32_done a b (w : world HW) :
  - 2 ^ 31 <= a * b < 2 ^ 31 -> smul32 a b w = Done (a * b) w.
Proof.
  intros Hr. unfold smul32, in_int32.
  replace ((- 2 ^ 31 <=? a * b) && (a * b <? 2 ^ 31)) with true by lia.
  reflexivity.
Qed.

Lemma sadd32_done a b (w : world HW) :
  - 2 ^ 31 <= a + b < 2 ^ 31 -> sadd32 a b w = Done (a + b) w.
Proof.
  intros Hr. unfold sadd32, in_int32.
  replace ((- 2 ^ 31 <=? a + b) && (a + b <? 2 ^ 31)) with true by lia.
  reflexivity.
Qed.

Lemma sdiv32_done a b (w : world HW) :
  b <> 0 -> - 2 ^ 31 <= Z.quot a b < 2 ^ 31 ->
  sdiv32 a b w = Done (Z.quot a b) w.
Proof.
  intros Hb Hr. unfold sdiv32, in_int32. apply Z.eqb_neq in Hb. rewrite Hb.
  replace ((- 2 ^ 31 <=? Z.quot a b) && (Z.quot a b <? 2 ^ 31)) with true
    by lia.
  reflexivity.
Qed.

(** The temperature step in exact integers: when no 32-bit intermediate
    result wraps or overflows, the stored value is the value of the
    formula of the specification, converted to [int8_t]. *)
Lemma compute_tmcu_exact (w : world HW) raw (w1 : world HW) supply_mv :
  calib_ok cfg = true ->
  _ADC1_filtered_conversion ADC_CHANNEL_TMCU (Some 0) w
    = Done (ADC_SUCCESS, Some raw) w1 ->
  data (adc_ctx w) !! ADC_DATA_INDEX_VMCU_MV cfg = Some supply_mv ->
  tmcu_fits cfg raw supply_mv = true ->
  exists w',
    _ADC1_compute_tmcu cfg w = Done ADC_SUCCESS w'
    /\ tmcu_degrees (adc_ctx w') = to_int8 (exact_degrees cfg raw supply_mv).
Proof.
  intros Hc E Hv Hfits.
  pose proof (keeps_done _ _ _ _ _
                (same_ctx_filtered_conversion _ _) E) as C.
  unfold same_ctx in C.
  unfold _ADC1_compute_tmcu. rewrite (bind_done_l _ _ _ _ _ E).
  cbn beta iota.
  rewrite <- C in Hv. rewrite (bind_done_l _ _ _ _ _ (data_load_done _ _ _ Hv)).
  unfold calib_ok in Hc.
  repeat (apply andb_prop in Hc; destruct Hc as [Hc ?]).
  unfold tmcu_fits in Hfits.
  repeat (apply andb_prop in Hfits; destruct Hfits as [Hfits ?]).
  repeat match goal with
         | H : in_int32 _ = true |- _ => apply in_int32_true in H
         end.
  assert (Hprod : 0 <= raw * supply_mv < 2 ^ 32) by lia.
  rewrite wrap32_to_int32_mul, (wrap32_small (raw * supply_mv)) by exact Hprod.
  rewrite (wrap32_small (TS_VCC_CALIB_MV cfg)),
    (wrap32_small (TS_CAL1 cfg)) by (pow_const; lia).
  erewrite bind_done_l by (apply udiv32_done; lia).
  rewrite <- (Z.quot_div_nonneg (raw * supply_mv) (TS_VCC_CALIB_MV cfg))
    by lia.
  rewrite !to_int32_small by (pow_const; lia).
  erewrite bind_done_l by (apply smul32_done; assumption).
  erewrite bind_done_l by (apply sdiv32_done; [lia | assumption]).
  assert (Hsum :
    Z.quot ((Z.quot (raw * supply_mv) (TS_VCC_CALIB_MV cfg) - TS_CAL1 cfg)
            * (TS_CAL2_TEMP cfg - TS_CAL1_TEMP cfg))
      (TS_CAL2 cfg - TS_CAL1 cfg) + TS_CAL1_TEMP cfg
    = exact_degrees cfg raw supply_mv).
  { unfold exact_degrees. lia. }
  erewrite bind_done_l by (apply sadd32_done; rewrite Hsum; assumption).
  rewrite Hsum. unfold_exec.
  eexists. split; reflexivity.
Qed.

Lemma compute_vusb_scaled :
  _ADC1_compute_vusb cfg
  = compute_scaled cfg ADC_CHANNEL_VUSB ADC_VOLTAGE_DIVIDER_RATIO_VUSB
      (ADC_DATA_INDEX_VUSB_MV cfg).
Proof. reflexivity. Qed.

Lemma compute_vrs_scaled :
  _ADC1_compute_vrs cfg
  = compute_scaled cfg ADC_CHANNEL_VRS ADC_VOLTAGE_DIVIDER_RATIO_VRS
      (ADC_DATA_INDEX_VRS_MV cfg).
Proof. reflexivity. Qed.

(** A scaled-input step changes its own slot only, and only when it
    succeeds: the slot then holds the quotient, computed on unsigned 32-bit
    integers, of [ADC_VREFINT_VOLTAGE_MV * raw * ratio] by the stored
    bandgap reading, which is not zero. *)
Lemma compute_scaled_done adc_channel ratio idx (w : world HW) status
    (w' : world HW) :
  compute_scaled cfg adc_channel ratio idx w = Done status w' ->
  vrefint_12bits (adc_ctx w') = vrefint_12bits (adc_ctx w)
  /\ tmcu_degrees (adc_ctx w') = tmcu_degrees (adc_ctx w)
  /\ (status <> ADC_SUCCESS -> adc_ctx w' = adc_ctx w)
  /\ (status = ADC_SUCCESS ->
      exists raw w1,
        filtered_from adc_channel w raw w1
        /\ vrefint_12bits (adc_ctx w) <> 0
        /\ (idx < length (data (adc_ctx w)))%nat
        /\ data (adc_ctx w')
           = <[idx := (wrap32 (wrap32 (ADC_VREFINT_VOLTAGE_MV cfg * raw)
                               * ratio)
                       / vrefint_12bits (adc_ctx w))%Z]> (data (adc_ctx w))).
Proof.
  unfold compute_scaled.
  destruct (filtered_conversion_returns adc_channel (Some 0) w)
    as (st & r & w1 & E & C & _ & Hok & Hko).
  rewrite (bind_done_l _ _ _ _ _ E). cbn beta iota.
  unfold same_ctx in C.
  destruct (ADC_status_t_eq_dec st ADC_SUCCESS) as [-> | Hst].
  - destruct (Hok eq_refl) as (v & -> & Hfrom).
    unfold scaled_input_mv. unfold_exec. rewrite C. intros E'.
    destruct (vrefint_12bits (adc_ctx w) =? 0) eqn:Hz; [discriminate E' |].
    rewrite ?C in E'.
    destruct (idx <? length (data (adc_ctx w)))%nat eqn:Hi;
      [| discriminate E'].
    inversion E'; subst. cbn. rewrite ?C.
    apply Z.eqb_neq in Hz. apply Nat.ltb_lt in Hi.
    repeat split; [congruence |]. intros _. exists v, w1.
    repeat split; assumption.
  - intros E'.
    assert (E'' : Done st w1 = Done status w').
    { destruct st, r; try exact E'; congruence. }
    inversion E''; subst. rewrite C. repeat split. congruence.
Qed.

(** *** The acquisition pass as a sequence of steps *)

Lemma bind_assoc {A B C} (m : M A) (f : A -> M B) (g : B -> M C) w :
  bind (bind m f) g w = bind m (fun x => bind (f x) g) w.
Proof. unfold bind. destruct (m w); reflexivity. Qed.

Lemma bind_ret_l {A B} (a : A) (k : A -> M B) w : bind (ret a) k w = k a w.
Proof. reflexivity. Qed.

Lemma bind_ext {A B} (m : M A) (k1 k2 : A -> M B) w :
  (forall a w', k1 a w' = k2 a w') -> bind m k1 w = bind m k2 w.
Proof. intros Hk. unfold bind. destruct (m w); [apply Hk | |]; reflexivity. Qed.

Lemma bind_status_eta (m : M ADC_status_t) w :
  bind m (fun status =>
            match status with
            | ADC_SUCCESS => ret ADC_SUCCESS
            | _ => ret status
            end) w = m w.
Proof.
  unfold bind. destruct (m w) as [st w'| |]; [destruct st |..]; reflexivity.
Qed.

Lemma perform_steps_first_failure (w : world HW) :
  perform_measurements_steps cfg w = first_failure (acquisition_steps cfg) w.
Proof.
  unfold perform_measurements_steps, acquisition_steps, first_failure,
    step_ready, step_settle, step_vmcu.
  change (Z.shiftl 1 0) with 1. change (Z.shiftl 3 22) with 0xC00000.
  rewrite (bind_status_eta (_ADC1_compute_vrs cfg)) || idtac.
  repeat (cbn beta iota;
          first [ reflexivity
                | rewrite bind_status_eta
                | rewrite bind_ret_l
                | rewrite bind_assoc
                | match goal with
                  | |- context [match ?x with _ => _ end] =>
                      is_var x; destruct x
                  end
                | apply bind_ext; intros ? ? ]).
Qed.

(** The teardown returns, with exactly its events added to the trace, and
    leaves [adc_ctx] as it was. *)
Lemma teardown_done (w : world HW) :
  exists w' ccr cr,
    perform_measurements_teardown cfg w = Done tt w'
    /\ trace w' = teardown_events cfg ccr cr ++ trace w
    /\ adc_ctx w' = adc_ctx w.
Proof.
  unfold perform_measurements_teardown, teardown_events, reg_and, reg_or,
    GPIO_write, reg_read, reg_write, bind, ret.
  change (wrap32 (Z.lnot (Z.shiftl 3 22))) with 0xFF3FFFFF.
  change (Z.shiftl 1 1) with 2.
  destruct (hw_read ADC1_CCR (hw w)) as [ccr h1]. cbn.
  destruct (HW1_1 cfg); cbn;
    match goal with
    | |- context [hw_read ADC1_CR ?h] =>
        destruct (hw_read ADC1_CR h) as [cr h2]
    end;
    eexists _, (wrap32 ccr), (wrap32 cr);
    (split; [reflexivity | split; reflexivity]).
Qed.

(** *** No step runs out of fuel *)


Lemma fuel_ok_keeps (R : world HW -> world HW -> Prop) {A} (m : M A) :
  keeps R m -> fuel_ok m.
Proof. intros Hm w. destruct (Hm w) as (a & w' & E & _). congruence. Qed.

Lemma fuel_ok_bind {A B} (m : M A) (k : A -> M B) :
  fuel_ok m -> (forall a, fuel_ok (k a)) -> fuel_ok (bind m k).
Proof.
  intros Hm Hk w. unfold bind. specialize (Hm w).
  destruct (m w) as [a w'| |]; [apply Hk | discriminate | congruence].
Qed.

(** Case analysis on every test of a computation, innermost first. *)
Ltac split_goal_tests :=
  repeat match goal with
         | |- context [match ?x with _ => _ end] =>
             lazymatch x with
             | context [match _ with _ => _ end] => fail
             | _ => destruct x
             end
         end.

Lemma fuel_ok_compute_vmcu : fuel_ok (_ADC1_compute_vmcu cfg).
Proof.
  intros w. unfold _ADC1_compute_vmcu. unfold_exec.
  split_goal_tests; discriminate.
Qed.

Lemma fuel_ok_compute_tmcu : fuel_ok (_ADC1_compute_tmcu cfg).
Proof.
  intros w. unfold _ADC1_compute_tmcu.
  destruct (filtered_conversion_returns ADC_CHANNEL_TMCU (Some 0) w)
    as (st & r & w1 & E & _).
  rewrite (bind_done_l _ _ _ _ _ E). cbn beta iota.
  destruct st, r; try discriminate.
  unfold_exec. split_goal_tests; discriminate.
Qed.

Lemma fuel_ok_compute_scaled adc_channel ratio idx :
  fuel_ok (compute_scaled cfg adc_channel ratio idx).
Proof.
  intros w. unfold compute_scaled.
  destruct (filtered_conversion_returns adc_channel (Some 0) w)
    as (st & r & w1 & E & _).
  rewrite (bind_done_l _ _ _ _ _ E). cbn beta iota.
  destruct st, r; try discriminate.
  unfold scaled_input_mv. unfold_exec. split_goal_tests; discriminate.
Qed.

Lemma fuel_ok_first_failure steps :
  Forall fuel_ok steps -> fuel_ok (first_failure steps).
Proof.
  induction 1 as [|step rest Hstep _ IH]; cbn [first_failure].
  - intros w. discriminate.
  - apply fuel_ok_bind; [exact Hstep |].
    intros st. destruct st; try (intros w; discriminate). exact IH.
Qed.

Lemma fuel_ok_acquisition_steps : Forall fuel_ok (acquisition_steps cfg).
Proof.
  unfold acquisition_steps. repeat constructor.
  - apply (fuel_ok_keeps _ _ same_ctx_step_ready).
  - apply (fuel_ok_keeps _ _ same_ctx_step_settle).
  - intros w. destruct (compute_vrefint_returns w) as (st & w' & E & _).
    congruence.
  - unfold step_vmcu. apply fuel_ok_bind; [apply fuel_ok_compute_vmcu |].
    intros _ w. discriminate.
  - apply fuel_ok_compute_tmcu.
  - rewrite compute_vusb_scaled. apply fuel_ok_compute_scaled.
  - rewrite compute_vrs_scaled. apply fuel_ok_compute_scaled.
Qed.

Lemma perform_measurements_unfold (w : world HW) :
  ADC1_perform_measurements cfg w
  = match first_failure (acquisition_steps cfg) w with
    | Done status w1 =>
        bind (perform_measurements_teardown cfg) (fun _ => ret status) w1
    | Undefined f => Undefined f
    | OutOfFuel => OutOfFuel
    end.
Proof.
  unfold ADC1_perform_measurements. unfold bind at 1.
  rewrite perform_steps_first_failure. reflexivity.
Qed.

Lemma fuel_ok_ret {A} (a : A) : fuel_ok (ret a).
Proof. intros w. discriminate. Qed.

Lemma fuel_ok_get_ctx : fuel_ok get_ctx.
Proof. intros w. discriminate. Qed.

Lemma fuel_ok_set_ctx c : fuel_ok (set_ctx c).
Proof. intros w. discriminate. Qed.

Lemma fuel_ok_data_store idx v : fuel_ok (data_store idx v).
Proof. intros w. unfold_exec. split_goal_tests; discriminate. Qed.

Lemma fuel_ok_data_load idx : fuel_ok (data_load idx).
Proof. intros w. unfold_exec. split_goal_tests; discriminate. Qed.

Lemma fuel_ok_clear_data n : forall idx, fuel_ok (clear_data n idx).
Proof.
  induction n as [|n IH]; intros idx; cbn [clear_data].
  - apply fuel_ok_ret.
  - apply fuel_ok_bind; [apply fuel_ok_data_store | intros _; apply IH].
Qed.

Lemma fuel_ok_quiet {A} (m : M A) : keeps quiet m -> fuel_ok m.
Proof. apply fuel_ok_keeps. Qed.

Create HintDb fuel.
#[local] Hint Resolve fuel_ok_ret fuel_ok_get_ctx fuel_ok_set_ctx
  fuel_ok_data_store fuel_ok_data_load fuel_ok_clear_data : fuel.
#[local] Hint Resolve quiet_reg_or quiet_reg_and quiet_reg_read
  quiet_reg_write quiet_GPIO_write quiet_GPIO_configure quiet_delay
  quiet_isr_flag_clear quiet_calibration_running keeps_wait_while
  quiet_preorder : fuel.

Ltac fuel_tac :=
  repeat (intros;
          first [ match goal with
                  | |- fuel_ok (bind _ _) => apply fuel_ok_bind
                  end
                | match goal with
                  | |- fuel_ok (match ?x with _ => _ end) => destruct x
                  end
                | solve [eauto with fuel]
                | solve [apply fuel_ok_quiet; eauto with fuel]
                | solve [apply fuel_ok_quiet; apply quiet_reg_or;
                         discriminate]
                | solve [apply fuel_ok_quiet; apply quiet_reg_read;
                         discriminate] ]).

Lemma fuel_ok_init : fuel_ok (ADC1_init cfg).
Proof. unfold ADC1_init, init_context. fuel_tac. Qed.

Lemma fuel_ok_perform_measurements : fuel_ok (ADC1_perform_measurements cfg).
Proof.
  intros w. rewrite perform_measurements_unfold.
  pose proof (fuel_ok_first_failure _ fuel_ok_acquisition_steps w) as Hfuel.
  destruct (first_failure (acquisition_steps cfg) w) as [st w1| f |];
    [| discriminate | congruence].
  destruct (teardown_done w1) as (w' & ccr & cr & E & _).
  rewrite (bind_done_l _ _ _ _ _ E). discriminate.
Qed.

Lemma fuel_ok_get_data idx ptr : fuel_ok (ADC1_get_data cfg idx ptr).
Proof. unfold ADC1_get_data. fuel_tac. Qed.

Lemma fuel_ok_get_tmcu ptr : fuel_ok (ADC1_get_tmcu ptr).
Proof. unfold ADC1_get_tmcu. fuel_tac. Qed.

Lemma bounded_wait_holds (busy : M bool) on_timeout w :
  keeps quiet busy -> polls_once busy -> bounded_wait busy on_timeout w.
Proof.
  intros Hq Hp.
  destruct (wait_while_returns quiet busy on_timeout Hq poll_fuel 0 w)
    as (st & n & w' & E & _ & Hn & Hst).
  { unfold ADC_TIMEOUT_COUNT. lia. }
  { apply poll_fuel_enough. }
  exists st, n, w'. split; [exact E |]. split.
  - destruct Hst as [[-> Hle] | [-> ->]]; [left | right]; repeat split; lia.
  - pose proof (wait_while_polls busy on_timeout Hp poll_fuel 0 w st n w'
                  ltac:(unfold ADC_TIMEOUT_COUNT; lia) E) as Hpolls.
    rewrite Z.sub_0_r in Hpolls. exact Hpolls.
Qed.

(** C9: each of the three busy-wait loops (end of conversion, ready,
    calibration) returns after at most [ADC_TIMEOUT_COUNT] = 1,000,000
    iterations with its flag observed, or gives up with its timeout status
    in the iteration that follows, after at most 1,000,001 polls of the
    status register; hence no public function runs forever, whatever the
    registers read. *)
Theorem busy_waits_bounded (w : world HW) :
  bounded_wait (isr_flag_clear 2) ADC_ERROR_TIMEOUT w
  /\ bounded_wait (isr_flag_clear 0) ADC_ERROR_TIMEOUT w
  /\ bounded_wait calibration_running ADC_ERROR_CALIBRATION w
  /\ ADC_TIMEOUT_COUNT = 1000000
  /\ ADC1_init cfg w <> OutOfFuel
  /\ ADC1_perform_measurements cfg w <> OutOfFuel
  /\ (forall data_idx data_ptr,
        ADC1_get_data cfg data_idx data_ptr w <> OutOfFuel)
  /\ (forall tmcu_ptr, ADC1_get_tmcu tmcu_ptr w <> OutOfFuel).
Proof.
  split; [apply bounded_wait_holds;
          [apply quiet_isr_flag_clear | apply polls_once_isr_flag_clear] |].
  split; [apply bounded_wait_holds;
          [apply quiet_isr_flag_clear | apply polls_once_isr_flag_clear] |].
  split; [apply bounded_wait_holds;
          [apply quiet_calibration_running
          | apply polls_once_calibration_running] |].
  split; [reflexivity |].
  split; [apply fuel_ok_init |].
  split; [apply fuel_ok_perform_measurements |].
  split; [intros; apply fuel_ok_get_data | intros; apply fuel_ok_get_tmcu].
Qed.

(** *** The teardown guarantee *)



(** What the teardown writes: TSEN (bit 23) and VREFEN (bit 22) are
    cleared in CCR, and ADDIS (bit 1) is set in CR. *)
Lemma teardown_values ccr cr :
  Z.testbit (Z.land ccr 0xFF3FFFFF) 22 = false
  /\ Z.testbit (Z.land ccr 0xFF3FFFFF) 23 = false
  /\ Z.testbit (Z.lor cr 2) 1 = true.
Proof.
  rewrite !Z.land_spec, Z.lor_spec.
  change (Z.testbit 0xFF3FFFFF 22) with false.
  change (Z.testbit 0xFF3FFFFF 23) with false.
  change (Z.testbit 2 1) with true.
  rewrite !andb_false_r, orb_true_r. repeat split.
Qed.

(** *** Reading the stored data *)

(** C7: on a context whose array has [ADC_DATA_INDEX_LAST] slots,
    [ADC1_get_data] returns without changing anything; its status is
    [ADC_ERROR_DATA_INDEX] exactly when the index is [ADC_DATA_INDEX_LAST]
    or more, and for a smaller index and a provided output location it
    succeeds with the stored value of that slot.  It never reads outside
    the array (that would be [Undefined OutOfBounds]). *)
Theorem get_data_index_check (w : world HW) data_idx data_ptr :
  ctx_wf cfg (adc_ctx w) ->
  exists status r,
    ADC1_get_data cfg data_idx data_ptr w = Done (status, r) w
    /\ (status = ADC_ERROR_DATA_INDEX
        <-> (ADC_DATA_INDEX_LAST cfg <= data_idx)%nat)
    /\ ((ADC_DATA_INDEX_LAST cfg <= data_idx)%nat -> r = data_ptr)
    /\ ((data_idx < ADC_DATA_INDEX_LAST cfg)%nat ->
        forall old, data_ptr = Some old ->
          status = ADC_SUCCESS
          /\ exists v, data (adc_ctx w) !! data_idx = Some v /\ r = Some v).
Proof.
  intros Hwf. unfold ctx_wf in Hwf. unfold ADC1_get_data.
  destruct (ADC_DATA_INDEX_LAST cfg <=? data_idx)%nat eqn:Hle.
  - apply Nat.leb_le in Hle.
    exists ADC_ERROR_DATA_INDEX, data_ptr.
    split; [reflexivity |]. split; [tauto |]. split; [reflexivity | lia].
  - apply Nat.leb_gt in Hle. destruct data_ptr as [old|].
    + destruct (lookup_lt_is_Some_2 (data (adc_ctx w)) data_idx
                  ltac:(lia)) as [v Hv].
      exists ADC_SUCCESS, (Some v).
      rewrite (bind_done_l _ _ _ _ _ (data_load_done _ _ _ Hv)).
      split; [reflexivity |].
      split; [split; [discriminate | lia] |]. split; [lia |].
      intros _ old' _. split; [reflexivity |]. exists v. split; [exact Hv |].
      reflexivity.
    + exists ADC_ERROR_NULL_PARAMETER, None.
      split; [reflexivity |].
      split; [split; [discriminate | lia] |]. split; [lia |].
      intros _ old Hold. discriminate.
Qed.

(** *** Initialisation *)

Lemma data_store_done idx v (w : world HW) :
  (idx < length (data (adc_ctx w)))%nat ->
  data_store idx v w
  = Done tt
      (with_ctx
         {| vrefint_12bits := vrefint_12bits (adc_ctx w);
            data := <[idx := v]> (data (adc_ctx w));
            tmcu_degrees := tmcu_degrees (adc_ctx w) |} w).
Proof.
  intros Hi. apply Nat.ltb_lt in Hi. unfold_exec. rewrite Hi. reflexivity.
Qed.

Lemma clear_data_done n :
  forall idx (w : world HW),
    (idx + n <= length (data (adc_ctx w)))%nat ->
    clear_data n idx w
    = Done tt
        (with_ctx
           {| vrefint_12bits := vrefint_12bits (adc_ctx w);
              data := take idx (data (adc_ctx w)) ++ replicate n 0
                      ++ drop (idx + n) (data (adc_ctx w));
              tmcu_degrees := tmcu_degrees (adc_ctx w) |} w).
Proof.
  induction n as [|n IH]; intros idx w Hlen; cbn [clear_data].
  - cbn [replicate app]. rewrite Nat.add_0_r, take_drop.
    destruct w as [h t [v d g]]. reflexivity.
  - erewrite bind_done_l by (apply data_store_done; lia).
    rewrite IH by (cbn; rewrite length_insert; lia).
    unfold with_ctx. cbn. do 3 f_equal.
    rewrite take_insert_lt by lia.
    destruct (lookup_lt_is_Some_2 (data (adc_ctx w)) idx ltac:(lia))
      as [x Hx].
    rewrite (take_S_r _ _ _ Hx).
    rewrite insert_app_r_alt by (rewrite length_take; lia).
    rewrite length_take, Nat.min_l by lia. rewrite Nat.sub_diag. cbn.
    rewrite drop_insert_lt by lia.
    rewrite <- app_assoc. cbn.
    replace (S (idx + n)) with (idx + S n)%nat by lia. reflexivity.
Qed.

(** The first statements of [ADC1_init] install [reset_ctx] and do
    nothing else. *)
Lemma init_context_done (w : world HW) :
  ctx_wf cfg (adc_ctx w) ->
  (ADC_DATA_INDEX_VMCU_MV cfg < ADC_DATA_INDEX_LAST cfg)%nat ->
  init_context cfg w = Done tt (with_ctx (reset_ctx cfg) w).
Proof.
  intros Hwf Hi. unfold ctx_wf in Hwf. unfold init_context.
  erewrite bind_done_l by reflexivity.
  erewrite bind_done_l by reflexivity.
  erewrite bind_done_l by (apply clear_data_done; cbn; lia).
  erewrite bind_done_l
    by (apply data_store_done; cbn [adc_ctx with_ctx data];
        rewrite !length_app, length_take, length_replicate, length_drop;
        lia).
  erewrite bind_done_l by reflexivity.
  unfold set_ctx, with_ctx, reset_ctx. cbn.
  rewrite take_0, drop_ge, app_nil_r by lia. reflexivity.
Qed.

Ltac quiet_tac :=
  repeat (intros;
          first [ match goal with
                  | |- keeps quiet (bind _ _) =>
                      apply keeps_bind; [typeclasses eauto | |]
                  end
                | match goal with
                  | |- keeps quiet (match ?x with _ => _ end) => destruct x
                  end
                | apply keeps_ret; typeclasses eauto
                | apply quiet_reg_or; discriminate
                | apply quiet_reg_read; discriminate
                | apply quiet_GPIO_configure
                | apply quiet_delay
                | apply keeps_wait_while;
                  [typeclasses eauto | apply quiet_calibration_running] ]).

Lemma layout_ok_true :
  layout_ok cfg = true ->
  (ADC_DATA_INDEX_VMCU_MV cfg < ADC_DATA_INDEX_LAST cfg)%nat
  /\ (ADC_DATA_INDEX_VUSB_MV cfg < ADC_DATA_INDEX_LAST cfg)%nat
  /\ (ADC_DATA_INDEX_VRS_MV cfg < ADC_DATA_INDEX_LAST cfg)%nat
  /\ ADC_DATA_INDEX_VMCU_MV cfg <> ADC_DATA_INDEX_VUSB_MV cfg
  /\ ADC_DATA_INDEX_VMCU_MV cfg <> ADC_DATA_INDEX_VRS_MV cfg
  /\ ADC_DATA_INDEX_VUSB_MV cfg <> ADC_DATA_INDEX_VRS_MV cfg.
Proof.
  unfold layout_ok. intros Hl.
  repeat (apply andb_prop in Hl; destruct Hl as [Hl ?]).
  repeat match goal with
         | H : negb _ = true |- _ => apply negb_true_iff, Nat.eqb_neq in H
         | H : (_ <? _)%nat = true |- _ => apply Nat.ltb_lt in H
         end.
  repeat split; assumption.
Qed.


Lemma init_done (w : world HW) :
  ctx_wf cfg (adc_ctx w) ->
  (ADC_DATA_INDEX_VMCU_MV cfg < ADC_DATA_INDEX_LAST cfg)%nat ->
  exists status w',
    ADC1_init cfg w = Done status w' /\ adc_ctx w' = reset_ctx cfg.
Proof.
  intros Hwf Hi. unfold ADC1_init.
  rewrite (bind_done_l _ _ _ _ _ (init_context_done w Hwf Hi)).
  lazymatch goal with
  | |- exists _ _, ?rest ?w1 = _ /\ _ =>
      assert (Hq : keeps quiet rest) by quiet_tac;
      destruct (Hq w1) as (st & w' & E & C & _);
      exists st, w'; split; [exact E |]; rewrite C; reflexivity
  end.
Qed.


(** *** Walking through the steps *)

Lemma first_failure_cons_inv (step : M ADC_status_t) rest w status w' :
  first_failure (step :: rest) w = Done status w' ->
  exists st1 w1,
    step w = Done st1 w1
    /\ (st1 = ADC_SUCCESS /\ first_failure rest w1 = Done status w'
        \/ st1 <> ADC_SUCCESS /\ status = st1 /\ w' = w1).
Proof.
  cbn [first_failure]. intros E. apply bind_done_inv in E.
  destruct E as (st1 & w1 & E1 & E2). exists st1, w1. split; [exact E1 |].
  destruct (ADC_status_t_eq_dec st1 ADC_SUCCESS) as [-> | Hst].
  - left. split; [reflexivity | exact E2].
  - right. split; [exact Hst |].
    destruct st1; try congruence; inversion E2; split; reflexivity.
Qed.

Lemma first_failure_single (step : M ADC_status_t) w :
  first_failure [step] w = step w.
Proof. cbn [first_failure]. apply bind_status_eta. Qed.

Lemma first_failure_app (l1 l2 : list (M ADC_status_t)) :
  forall w w1,
    first_failure l1 w = Done ADC_SUCCESS w1 ->
    first_failure (l1 ++ l2) w = first_failure l2 w1.
Proof.
  induction l1 as [|step l1 IH]; intros w w1 E.
  - inversion E; subst. reflexivity.
  - apply first_failure_cons_inv in E.
    destruct E as (st1 & w0 & E1 & [[-> E2] | [Hst [<- _]]]);
      [| congruence].
    cbn [app first_failure]. rewrite (bind_done_l _ _ _ _ _ E1).
    apply IH, E2.
Qed.

(** A scaled-input step leaves the bandgap reading, the temperature and
    the other slots as they were. *)
Lemma compute_scaled_effect adc_channel ratio idx (w : world HW) status
    (w' : world HW) :
  compute_scaled cfg adc_channel ratio idx w = Done status w' ->
  vrefint_12bits (adc_ctx w') = vrefint_12bits (adc_ctx w)
  /\ tmcu_degrees (adc_ctx w') = tmcu_degrees (adc_ctx w)
  /\ (forall j, j <> idx ->
        data (adc_ctx w') !! j = data (adc_ctx w) !! j).
Proof.
  intros E. apply compute_scaled_done in E.
  destruct E as (Hv & Ht & Hko & Hok).
  split; [exact Hv | split; [exact Ht |]].
  intros j Hj.
  destruct (ADC_status_t_eq_dec status ADC_SUCCESS) as [Hst | Hst].
  - destruct (Hok Hst) as (raw & w1 & _ & _ & _ & ->).
    apply list_lookup_insert_ne. congruence.
  - rewrite (Hko Hst). reflexivity.
Qed.

(** The steps that precede the supply-voltage step leave the slots and
    the temperature as they were. *)
Lemma bandgap_prefix_effect (w wb : world HW) :
  first_failure [step_ready; step_settle cfg; _ADC1_compute_vrefint] w
    = Done ADC_SUCCESS wb ->
  data (adc_ctx wb) = data (adc_ctx w)
  /\ tmcu_degrees (adc_ctx wb) = tmcu_degrees (adc_ctx w).
Proof.
  intros E.
  apply first_failure_cons_inv in E.
  destruct E as (st1 & w1 & E1 & [[-> E] | [Hst [<- _]]]); [| congruence].
  apply (keeps_done _ _ _ _ _ same_ctx_step_ready) in E1.
  apply first_failure_cons_inv in E.
  destruct E as (st2 & w2 & E2 & [[-> E] | [Hst [<- _]]]); [| congruence].
  apply (keeps_done _ _ _ _ _ same_ctx_step_settle) in E2.
  rewrite first_failure_single in E.
  destruct (compute_vrefint_returns w2) as (st & w' & E' & Hd & Ht & _).
  rewrite E in E'. inversion E'; subst.
  unfold same_ctx in *. split; congruence.
Qed.

(** The steps that follow the supply-voltage step leave the bandgap
    reading and the supply-voltage slot as they were. *)
Lemma after_supply_effect (wc : world HW) status (w1 : world HW) :
  layout_ok cfg = true ->
  first_failure [_ADC1_compute_tmcu cfg; _ADC1_compute_vusb cfg;
                 _ADC1_compute_vrs cfg] wc = Done status w1 ->
  vrefint_12bits (adc_ctx w1) = vrefint_12bits (adc_ctx wc)
  /\ data (adc_ctx w1) !! ADC_DATA_INDEX_VMCU_MV cfg
     = data (adc_ctx wc) !! ADC_DATA_INDEX_VMCU_MV cfg.
Proof.
  intros Hl E. apply layout_ok_true in Hl.
  destruct Hl as (_ & _ & _ & Hmu & Hmr & _).
  apply first_failure_cons_inv in E.
  destruct E as (st1 & wt & E1 & Hcase).
  apply compute_tmcu_done in E1. destruct E1 as (Hv1 & Hd1 & _).
  destruct Hcase as [[-> E] | [_ [_ ->]]]; [| split; congruence].
  apply first_failure_cons_inv in E.
  destruct E as (st2 & wu & E2 & Hcase).
  rewrite compute_vusb_scaled in E2. apply compute_scaled_effect in E2.
  destruct E2 as (Hv2 & _ & Hd2).
  specialize (Hd2 (ADC_DATA_INDEX_VMCU_MV cfg) Hmu).
  destruct Hcase as [[-> E] | [_ [_ ->]]]; [| split; congruence].
  rewrite first_failure_single, compute_vrs_scaled in E.
  apply compute_scaled_effect in E. destruct E as (Hv3 & _ & Hd3).
  specialize (Hd3 (ADC_DATA_INDEX_VMCU_MV cfg) Hmr).
  split; congruence.
Qed.

(** When [ADC1_perform_measurements] returns, the steps have reached the
    label [errors] with the returned status, and the teardown has left the
    context as the steps left it. *)
Lemma perform_measurements_done (w : world HW) status (w' : world HW) :
  ADC1_perform_measurements cfg w = Done status w' ->
  exists w1,
    first_failure (acquisition_steps cfg) w = Done status w1
    /\ adc_ctx w' = adc_ctx w1.
Proof.
  rewrite perform_measurements_unfold.
  destruct (first_failure (acquisition_steps cfg) w) as [st w1| |];
    try discriminate.
  destruct (teardown_done w1) as (w2 & ccr & cr & E & _ & C).
  rewrite (bind_done_l _ _ _ _ _ E). intros E'. inversion E'; subst.
  exists w1. split; [reflexivity | exact C].
Qed.

Lemma first_failure_app_inv (l1 l2 : list (M ADC_status_t)) :
  forall w w',
    first_failure (l1 ++ l2) w = Done ADC_SUCCESS w' ->
    exists w1,
      first_failure l1 w = Done ADC_SUCCESS w1
      /\ first_failure l2 w1 = Done ADC_SUCCESS w'.
Proof.
  induction l1 as [|step l1 IH]; intros w w' E.
  - exists w. split; [reflexivity | exact E].
  - cbn [app] in E. apply first_failure_cons_inv in E.
    destruct E as (st1 & w0 & E1 & [[-> E2] | [Hst [<- _]]]);
      [| congruence].
    destruct (IH _ _ E2) as (w1 & Ea & Eb).
    exists w1. split; [| exact Eb].
    cbn [first_failure]. rewrite (bind_done_l _ _ _ _ _ E1). exact Ea.
Qed.

(** The state in which the temperature step starts: the bandgap reading
    is not zero, the supply-voltage slot holds the quotient of step 5, and
    the other slots and the temperature are those of the beginning of the
    call. *)
Lemma before_temperature (w wt : world HW) :
  layout_ok cfg = true ->
  calib_ok cfg = true ->
  first_failure [step_ready; step_settle cfg; _ADC1_compute_vrefint;
                 step_vmcu cfg] w = Done ADC_SUCCESS wt ->
  vrefint_12bits (adc_ctx wt) <> 0
  /\ data (adc_ctx wt) !! ADC_DATA_INDEX_VMCU_MV cfg
     = Some (supply_formula cfg (vrefint_12bits (adc_ctx wt)))
  /\ data (adc_ctx wt) !! ADC_DATA_INDEX_VUSB_MV cfg
     = data (adc_ctx w) !! ADC_DATA_INDEX_VUSB_MV cfg
  /\ data (adc_ctx wt) !! ADC_DATA_INDEX_VRS_MV cfg
     = data (adc_ctx w) !! ADC_DATA_INDEX_VRS_MV cfg
  /\ tmcu_degrees (adc_ctx wt) = tmcu_degrees (adc_ctx w).
Proof.
  intros Hl Hc E. apply layout_ok_true in Hl.
  destruct Hl as (_ & _ & _ & Hmu & Hmr & _).
  change [step_ready; step_settle cfg; _ADC1_compute_vrefint; step_vmcu cfg]
    with ([step_ready; step_settle cfg; _ADC1_compute_vrefint]
          ++ [step_vmcu cfg]) in E.
  apply first_failure_app_inv in E. destruct E as (wb & Eb & Em).
  apply bandgap_prefix_effect in Eb. destruct Eb as (Hd0 & Ht0).
  rewrite first_failure_single in Em. unfold step_vmcu in Em.
  apply bind_done_inv in Em. destruct Em as ([] & wc & Ev & Er).
  inversion Er; subst.
  apply compute_vmcu_done in Ev.
  destruct Ev as (Hz & _ & _ & Hv & Ht & Hi & Hd).
  rewrite Hd, Hv, Ht, Hd0, Ht0.
  split; [exact Hz |]. split.
  - rewrite list_lookup_insert_eq by (rewrite <- Hd0; exact Hi).
    unfold supply_formula.
    rewrite wrap32_small
      by (pose proof (calib_product_range Hc); pow_const; lia).
    reflexivity.
  - repeat split; try reflexivity; apply list_lookup_insert_ne; assumption.
Qed.

(** C10: when the steps that precede the temperature step have succeeded
    and the temperature step fails, [ADC1_perform_measurements] returns
    that failure; in the context it leaves, the supply-voltage slot holds
    the quotient computed from the bandgap reading of this call, while the
    USB slot, the resistor slot and the temperature are those of before
    the call. *)
Theorem temperature_failure_keeps_supply (w wt : world HW) status
    (wf : world HW) :
  layout_ok cfg = true ->
  calib_ok cfg = true ->
  first_failure [step_ready; step_settle cfg; _ADC1_compute_vrefint;
                 step_vmcu cfg] w = Done ADC_SUCCESS wt ->
  _ADC1_compute_tmcu cfg wt = Done status wf ->
  status <> ADC_SUCCESS ->
  exists w',
    ADC1_perform_measurements cfg w = Done status w'
    /\ vrefint_12bits (adc_ctx w') <> 0
    /\ data (adc_ctx w') !! ADC_DATA_INDEX_VMCU_MV cfg
       = Some (supply_formula cfg (vrefint_12bits (adc_ctx w')))
    /\ data (adc_ctx w') !! ADC_DATA_INDEX_VUSB_MV cfg
       = data (adc_ctx w) !! ADC_DATA_INDEX_VUSB_MV cfg
    /\ data (adc_ctx w') !! ADC_DATA_INDEX_VRS_MV cfg
       = data (adc_ctx w) !! ADC_DATA_INDEX_VRS_MV cfg
    /\ tmcu_degrees (adc_ctx w') = tmcu_degrees (adc_ctx w).
Proof.
  intros Hl Hc Ebefore Et Hst.
  pose proof (before_temperature _ _ Hl Hc Ebefore) as Hctx.
  assert (Esteps : first_failure (acquisition_steps cfg) w = Done status wf).
  { change (acquisition_steps cfg)
      with ([step_ready; step_settle cfg; _ADC1_compute_vrefint;
             step_vmcu cfg]
            ++ [_ADC1_compute_tmcu cfg; _ADC1_compute_vusb cfg;
                _ADC1_compute_vrs cfg]).
    rewrite (first_failure_app _ _ _ _ Ebefore).
    cbn [first_failure]. rewrite (bind_done_l _ _ _ _ _ Et).
    destruct status; try reflexivity. congruence. }
  rewrite perform_measurements_unfold, Esteps.
  destruct (teardown_done wf) as (w' & ccr & cr & E & _ & C).
  rewrite (bind_done_l _ _ _ _ _ E).
  exists w'. split; [reflexivity |].
  apply compute_tmcu_done in Et. destruct Et as (_ & _ & Hko).
  rewrite C, (Hko Hst). exact Hctx.
Qed.

(** C2, as amended: in a call of [ADC1_perform_measurements] that returns,
    if the steps that precede the temperature step have succeeded, [raw]
    is the filtered reading of the temperature channel and [supply_mv] the
    supply voltage stored by step 5, and no 32-bit intermediate result
    wraps or overflows, then the stored temperature is the value of the
    formula of the specification, computed in exact integers with
    quotients truncated toward zero, converted to [int8_t]; it is that
    value itself when it lies between -128 and 127. *)
Theorem temperature_stored (w wt w1 : world HW) raw supply_mv status
    (w' : world HW) :
  calib_ok cfg = true ->
  first_failure [step_ready; step_settle cfg; _ADC1_compute_vrefint;
                 step_vmcu cfg] w = Done ADC_SUCCESS wt ->
  _ADC1_filtered_conversion ADC_CHANNEL_TMCU (Some 0) wt
    = Done (ADC_SUCCESS, Some raw) w1 ->
  data (adc_ctx wt) !! ADC_DATA_INDEX_VMCU_MV cfg = Some supply_mv ->
  tmcu_fits cfg raw supply_mv = true ->
  ADC1_perform_measurements cfg w = Done status w' ->
  tmcu_degrees (adc_ctx w') = to_int8 (exact_degrees cfg raw supply_mv)
  /\ (- 128 <= exact_degrees cfg raw supply_mv <= 127 ->
      tmcu_degrees (adc_ctx w') = exact_degrees cfg raw supply_mv).
Proof.
  intros Hc Ebefore Eraw Hsupply Hfits Hp.
  assert (Hstored :
    tmcu_degrees (adc_ctx w') = to_int8 (exact_degrees cfg raw supply_mv)).
  { apply perform_measurements_done in Hp. destruct Hp as (wl & E & C).
    change (acquisition_steps cfg)
      with ([step_ready; step_settle cfg; _ADC1_compute_vrefint;
             step_vmcu cfg]
            ++ [_ADC1_compute_tmcu cfg; _ADC1_compute_vusb cfg;
                _ADC1_compute_vrs cfg]) in E.
    rewrite (first_failure_app _ _ _ _ Ebefore) in E.
    destruct (compute_tmcu_exact _ _ _ _ Hc Eraw Hsupply Hfits)
      as (w2 & Et & Hdeg).
    cbn [first_failure] in E. rewrite (bind_done_l _ _ _ _ _ Et) in E.
    apply bind_done_inv in E. destruct E as (st2 & wu & E2 & E).
    rewrite compute_vusb_scaled in E2. apply compute_scaled_effect in E2.
    destruct E2 as (_ & Ht2 & _).
    assert (Hlast : tmcu_degrees (adc_ctx wl) = tmcu_degrees (adc_ctx wu)).
    { destruct (ADC_status_t_eq_dec st2 ADC_SUCCESS) as [-> | Hst2].
      - rewrite bind_status_eta, compute_vrs_scaled in E.
        apply compute_scaled_effect in E. destruct E as (_ & Ht3 & _).
        exact Ht3.
      - destruct st2; try congruence; inversion E; reflexivity. }
    congruence. }
  split; [exact Hstored |].
  intros Hrange. rewrite Hstored. apply to_int8_small. exact Hrange.
Qed.

(** *** The scaled inputs *)

Lemma vrefint_voltage_range :
  calib_ok cfg = true ->
  ADC_VREFINT_VOLTAGE_MV cfg
  = (VREFINT_CAL cfg * VREFINT_VCC_CALIB_MV cfg) / 4095
  /\ 0 <= ADC_VREFINT_VOLTAGE_MV cfg <= 524392.
Proof.
  intros Hc. pose proof (calib_product_range Hc) as Hp.
  unfold ADC_VREFINT_VOLTAGE_MV, ADC_FULL_SCALE_12BITS.
  rewrite Z.quot_div_nonneg by lia. split; [reflexivity |].
  unfold calib_ok in Hc.
  repeat (apply andb_prop in Hc; destruct Hc as [Hc ?]).
  split.
  - apply Z.div_pos; lia.
  - apply Z.lt_succ_r. apply Z.div_lt_upper_bound; nia.
Qed.

(** On a 12-bit reading the unsigned 32-bit product does not wrap. *)
Lemma scaled_product_exact raw :
  calib_ok cfg = true ->
  0 <= raw <= 4095 ->
  wrap32 (wrap32 (ADC_VREFINT_VOLTAGE_MV cfg * raw) * 2)
  = ADC_VREFINT_VOLTAGE_MV cfg * raw * 2.
Proof.
  intros Hc Hraw. destruct (vrefint_voltage_range Hc) as (_ & Hv).
  rewrite (wrap32_small (ADC_VREFINT_VOLTAGE_MV cfg * raw))
    by (pow_const; nia).
  apply wrap32_small. pow_const. nia.
Qed.

Lemma compute_scaled_exact adc_channel idx (w : world HW) (w' : world HW) :
  calib_ok cfg = true ->
  (forall h, wrap32 (fst (hw_read ADC1_DR h)) <= 4095) ->
  compute_scaled cfg adc_channel 2 idx w = Done ADC_SUCCESS w' ->
  exists raw w1,
    filtered_from adc_channel w raw w1
    /\ vrefint_12bits (adc_ctx w) <> 0
    /\ data (adc_ctx w') !! idx
       = Some ((ADC_VREFINT_VOLTAGE_MV cfg * raw * 2)
               / vrefint_12bits (adc_ctx w)).
Proof.
  intros Hc Hdr E. apply compute_scaled_done in E.
  destruct E as (_ & _ & _ & Hok).
  destruct (Hok eq_refl) as (raw & w1 & Hfrom & Hz & Hi & Hd).
  exists raw, w1. split; [exact Hfrom | split; [exact Hz |]].
  rewrite Hd, list_lookup_insert_eq by exact Hi.
  rewrite scaled_product_exact
    by (try exact Hc; eapply filtered_from_12bits; eassumption).
  reflexivity.
Qed.

(** The bandgap reading that the first steps leave is a filtered reading
    of the bandgap channel. *)
Lemma bandgap_reading (w wb : world HW) :
  first_failure [step_ready; step_settle cfg; _ADC1_compute_vrefint] w
    = Done ADC_SUCCESS wb ->
  exists wa w1,
    filtered_from ADC_CHANNEL_VREFINT wa (vrefint_12bits (adc_ctx wb)) w1.
Proof.
  intros E.
  apply first_failure_cons_inv in E.
  destruct E as (st1 & w1 & E1 & [[-> E] | [Hst [<- _]]]); [| congruence].
  apply first_failure_cons_inv in E.
  destruct E as (st2 & w2 & E2 & [[-> E] | [Hst [<- _]]]); [| congruence].
  rewrite first_failure_single in E.
  destruct (compute_vrefint_returns w2) as (st & w' & E' & _ & _ & Hok & _).
  rewrite E in E'. inversion E'; subst.
  destruct (Hok eq_refl) as (w3 & Hfrom). exists w2, w3. exact Hfrom.
Qed.

End Properties.

(** ** The scripted device *)

(** The converter of the scripted device delivers 12-bit samples. *)
Lemma script_12bits (h : script) : wrap32 (fst (hw_read ADC1_DR h)) <= 4095.
Proof.
  cbn. unfold script_read. destruct (dr_samples h) as [|v l]; cbn.
  - vm_compute. discriminate.
  - assert (Hv : 0 <= Z.land v 4095 <= 4095).
    { split; [apply Z.land_nonneg; lia |].
      change 4095 with (Z.ones 12) at 1. rewrite Z.land_ones by lia.
      pose proof (Z.mod_pos_bound v (2 ^ 12) ltac:(lia)). lia. }
    rewrite wrap32_small by (pow_const; lia). lia.
Qed.


Lemma stalled_same_hw (w w' : world script) :
  hw w' = hw w -> stalled w -> stalled w'.
Proof. unfold stalled. intros ->. tauto. Qed.

Lemma stalled_reg_or r mask (w : world script) :
  r <> ADC1_DR ->
  exists w', reg_or r mask w = Done tt w' /\ hw w' = hw w.
Proof.
  intros Hr. unfold reg_or, bind, reg_read, reg_write. cbn.
  destruct r; try congruence; cbn;
    try (eexists; split; reflexivity).
  unfold script_read. destruct (dr_samples (hw w));
    eexists; split; reflexivity.
Qed.

Lemma stalled_reg_and r mask (w : world script) :
  r <> ADC1_DR ->
  exists w', reg_and r mask w = Done tt w' /\ hw w' = hw w.
Proof.
  intros Hr. unfold reg_and, bind, reg_read, reg_write. cbn.
  destruct r; try congruence; cbn;
    try (eexists; split; reflexivity).
  unfold script_read. destruct (dr_samples (hw w));
    eexists; split; reflexivity.
Qed.

Lemma stalled_poll (w : world script) :
  stalled w -> exists w', isr_flag_clear 2 w = Done true w' /\ stalled w'.
Proof.
  intros [Hs Hf]. unfold isr_flag_clear, bind, reg_read, ret. cbn.
  unfold script_read. rewrite Hs.
  change (Z.shiftl 1 2) with 4. rewrite Hf.
  eexists. split; [reflexivity |]. split; assumption.
Qed.

(** On a stalled device a single conversion ends with the timeout. *)
Lemma stalled_single_conversion adc_channel old (w : world script) :
  adc_channel < ADC_CHANNEL_LAST ->
  stalled w ->
  exists w',
    _ADC1_single_conversion adc_channel (Some old) w
    = Done (ADC_ERROR_TIMEOUT, Some old) w'
    /\ stalled w'.
Proof.
  intros Hch Hs. unfold _ADC1_single_conversion.
  replace (ADC_CHANNEL_LAST <=? adc_channel) with false by lia.
  destruct (stalled_reg_and ADC1_CHSELR 0xFFF80000 w ltac:(discriminate))
    as (w1 & E1 & H1).
  rewrite (bind_done_l _ _ _ _ _ E1).
  destruct (stalled_reg_or ADC1_CHSELR (Z.shiftl 1 adc_channel) w1
              ltac:(discriminate)) as (w2 & E2 & H2).
  rewrite (bind_done_l _ _ _ _ _ E2).
  destruct (stalled_reg_or ADC1_ISR 0x0000089F w2 ltac:(discriminate))
    as (w3 & E3 & H3).
  rewrite (bind_done_l _ _ _ _ _ E3).
  destruct (stalled_reg_or ADC1_CR (Z.shiftl 1 2) w3 ltac:(discriminate))
    as (w4 & E4 & H4).
  rewrite (bind_done_l _ _ _ _ _ E4).
  assert (Hs4 : stalled w4).
  { apply (stalled_same_hw w); [congruence | exact Hs]. }
  destruct (wait_while_times_out stalled (isr_flag_clear 2)
              ADC_ERROR_TIMEOUT stalled_poll poll_fuel 0 w4)
    as (w5 & E5 & Hs5);
    [unfold ADC_TIMEOUT_COUNT; lia | apply poll_fuel_enough | exact Hs4 |].
  rewrite (bind_done_l _ _ _ _ _ E5).
  exists w5. split; [reflexivity | exact Hs5].
Qed.

(** On a stalled device the temperature step fails with the timeout. *)
Lemma stalled_compute_tmcu cfg (w : world script) :
  stalled w ->
  exists w', _ADC1_compute_tmcu cfg w = Done ADC_ERROR_TIMEOUT w'.
Proof.
  intros Hs. unfold _ADC1_compute_tmcu, _ADC1_filtered_conversion.
  change (ADC_CHANNEL_LAST <=? ADC_CHANNEL_TMCU) with false. cbn match.
  change ADC_MEDIAN_FILTER_SIZE with 9%nat.
  cbn [sample_loop replicate]. cbn [lookup list_lookup].
  destruct (stalled_single_conversion ADC_CHANNEL_TMCU 0 w
              ltac:(reflexivity) Hs) as (w1 & E1 & _).
  rewrite bind_assoc, bind_assoc.
  rewrite (bind_done_l _ _ _ _ _ E1).
  exists w1. reflexivity.
Qed.

(** On a stalled device a scaled-input step fails with the timeout. *)
Lemma stalled_compute_scaled cfg adc_channel ratio idx (w : world script) :
  adc_channel < ADC_CHANNEL_LAST ->
  stalled w ->
  exists w',
    compute_scaled cfg adc_channel ratio idx w = Done ADC_ERROR_TIMEOUT w'.
Proof.
  intros Hch Hs. unfold compute_scaled, _ADC1_filtered_conversion.
  replace (ADC_CHANNEL_LAST <=? adc_channel) with false by lia. cbn match.
  change ADC_MEDIAN_FILTER_SIZE with 9%nat.
  cbn [sample_loop replicate]. cbn [lookup list_lookup].
  destruct (stalled_single_conversion adc_channel 0 w Hch Hs)
    as (w1 & E1 & _).
  rewrite bind_assoc, bind_assoc.
  rewrite (bind_done_l _ _ _ _ _ E1).
  exists w1. reflexivity.
Qed.

(** ** Concrete executions *)

(** C6: the division by the bandgap reading is not guarded.  On a
    converter whose data register reads 0 for the nine bandgap samples,
    the bandgap acquisition succeeds with the reading 0 and
    [_ADC1_compute_vmcu] divides by it. *)
Theorem bandgap_zero_division :
  exists wb,
    first_failure
      [step_ready; step_settle board_example; _ADC1_compute_vrefint]
      (boot (ready_device [])) = Done ADC_SUCCESS wb
    /\ vrefint_12bits (adc_ctx wb) = 0
    /\ _ADC1_compute_vmcu board_example wb = Undefined DivisionByZero
    /\ ADC1_perform_measurements board_example (boot (ready_device []))
       = Undefined DivisionByZero.
Proof.
  eexists. split; [vm_compute; reflexivity |].
  split; [reflexivity |]. split; vm_compute; reflexivity.
Qed.

(** C2 as stated fails: with the calibration values of the example of the
    specification, a bandgap reading of 1500 (supply voltage 3000 mV) and
    a filtered temperature reading of 800, the formula gives 230 degrees
    and the stored temperature is -26. *)
Lemma temperature_exact_formula_fails :
  exists wt w1 w',
    first_failure
      [step_ready; step_settle board_example; _ADC1_compute_vrefint;
       step_vmcu board_example]
      (boot (ready_device hot_samples)) = Done ADC_SUCCESS wt
    /\ _ADC1_filtered_conversion ADC_CHANNEL_TMCU (Some 0) wt
       = Done (ADC_SUCCESS, Some 800) w1
    /\ data (adc_ctx wt) !! ADC_DATA_INDEX_VMCU_MV board_example = Some 3000
    /\ ADC1_perform_measurements board_example
         (boot (ready_device hot_samples)) = Done ADC_SUCCESS w'
    /\ exact_degrees board_example 800 3000 = 230
    /\ tmcu_degrees (adc_ctx w') = -26
    /\ tmcu_degrees (adc_ctx w') <> exact_degrees board_example 800 3000.
Proof.
  eexists _, _, _.
  split; [vm_compute; reflexivity |].
  split; [vm_compute; reflexivity |].
  split; [reflexivity |].
  split; [vm_compute; reflexivity |].
  split; [reflexivity |]. split; [reflexivity |].
  vm_compute. discriminate.
Qed.

(** C4 as stated fails: with a bandgap reading of 1500 and a filtered USB
    reading of 1000, taking for [vref_voltage_mV] the quotient of step 5 at
    the bandgap reading (3000) gives 4000 mV; the stored value is 1464,
    computed with [ADC_VREFINT_VOLTAGE_MV] = 4500000 / 4095 = 1098. *)
Lemma scaled_input_claimed_formula_fails :
  exists wt w1 w',
    first_failure
      [step_ready; step_settle board_example; _ADC1_compute_vrefint;
       step_vmcu board_example; _ADC1_compute_tmcu board_example]
      (boot (ready_device nominal_samples)) = Done ADC_SUCCESS wt
    /\ _ADC1_filtered_conversion ADC_CHANNEL_VUSB (Some 0) wt
       = Done (ADC_SUCCESS, Some 1000) w1
    /\ ADC1_perform_measurements board_example
         (boot (ready_device nominal_samples)) = Done ADC_SUCCESS w'
    /\ vrefint_12bits (adc_ctx w') = 1500
    /\ supply_formula board_example 1500 = 3000
    /\ ADC_VREFINT_VOLTAGE_MV board_example = 1098
    /\ data (adc_ctx w') !! ADC_DATA_INDEX_VUSB_MV board_example = Some 1464
    /\ data (adc_ctx w') !! ADC_DATA_INDEX_VUSB_MV board_example
       <> Some ((supply_formula board_example
                   (vrefint_12bits (adc_ctx w')) * 1000
                 * ADC_VOLTAGE_DIVIDER_RATIO_VUSB)
                / vrefint_12bits (adc_ctx w')).
Proof.
  eexists _, _, _.
  split; [vm_compute; reflexivity |].
  split; [vm_compute; reflexivity |].
  split; [vm_compute; reflexivity |].
  split; [reflexivity |]. split; [reflexivity |]. split; [reflexivity |].
  split; [reflexivity |].
  vm_compute. discriminate.
Qed.

(** ** The theorems on the scripted device *)

Lemma filtered_conversion_nine_samples_witness :
  0 <= ADC_CHANNEL_VREFINT < ADC_CHANNEL_LAST
  /\ (forall h : script, wrap32 (fst (hw_read ADC1_DR h)) <= 4095)
  /\ exists samples w9,
       conversions ADC_CHANNEL_VREFINT 9
         (boot (ready_device nominal_samples)) samples w9
       /\ exists s0 s1 s2 s3 s4 s5 s6 s7 s8,
            _ADC1_filtered_conversion ADC_CHANNEL_VREFINT (Some 0)
              (boot (ready_device nominal_samples))
              = Done (ADC_SUCCESS, Some ((s3 + s4 + s5) / 3)) w9
            /\ data_reads (trace w9)
               = (data_reads (trace (boot (ready_device nominal_samples)))
                  + 9)%nat
            /\ Permutation [s0; s1; s2; s3; s4; s5; s6; s7; s8] samples
            /\ Sorted Z.le [s0; s1; s2; s3; s4; s5; s6; s7; s8]
            /\ 0 <= (s3 + s4 + s5) / 3 <= 4095.
Proof.
  assert (Hch : 0 <= ADC_CHANNEL_VREFINT < ADC_CHANNEL_LAST)
    by (unfold ADC_CHANNEL_VREFINT, ADC_CHANNEL_LAST; lia).
  split; [exact Hch |]. split; [exact script_12bits |].
  destruct (filtered_conversion_nine_samples ADC_CHANNEL_VREFINT 0
              (boot (ready_device nominal_samples)) Hch script_12bits)
    as (Hall & status & r & w' & E & _ & Hok).
  assert (Hst : status = ADC_SUCCESS).
  { assert (E' : exists r0 w0,
      _ADC1_filtered_conversion ADC_CHANNEL_VREFINT (Some 0)
        (boot (ready_device nominal_samples)) = Done (ADC_SUCCESS, r0) w0)
      by (eexists _, _; vm_compute; reflexivity).
    destruct E' as (r0 & w0 & E'). rewrite E in E'.
    inversion E'. reflexivity. }
  destruct (Hok Hst) as (samples & _ & _ & _ & _ & _ & _ & _ & _ & _
                         & Hc & _).
  exists samples, w'. split; [exact Hc |].
  exact (Hall samples w' Hc).
Defined.

Lemma get_data_index_check_witness :
  ctx_wf board_example (adc_ctx (boot (ready_device [])))
  /\ exists status r,
       ADC1_get_data board_example 2 (Some 0) (boot (ready_device []))
       = Done (status, r) (boot (ready_device []))
       /\ (status = ADC_ERROR_DATA_INDEX
           <-> (ADC_DATA_INDEX_LAST board_example <= 2)%nat)
       /\ ((ADC_DATA_INDEX_LAST board_example <= 2)%nat -> r = Some 0)
       /\ ((2 < ADC_DATA_INDEX_LAST board_example)%nat ->
           forall old, Some 0 = Some old ->
             status = ADC_SUCCESS
             /\ exists v,
                  data (adc_ctx (boot (ready_device []))) !! 2%nat = Some v
                  /\ r = Some v).
Proof.
  split; [reflexivity |].
  apply (get_data_index_check board_example (boot (ready_device [])) 2
           (Some 0)).
  reflexivity.
Defined.


Lemma temperature_stored_witness :
  exists wt w1 status w',
    calib_ok board_example = true
    /\ first_failure
         [step_ready; step_settle board_example; _ADC1_compute_vrefint;
          step_vmcu board_example]
         (boot (ready_device nominal_samples)) = Done ADC_SUCCESS wt
    /\ _ADC1_filtered_conversion ADC_CHANNEL_TMCU (Some 0) wt
       = Done (ADC_SUCCESS, Some 650) w1
    /\ data (adc_ctx wt) !! ADC_DATA_INDEX_VMCU_MV board_example = Some 3000
    /\ tmcu_fits board_example 650 3000 = true
    /\ ADC1_perform_measurements board_example
         (boot (ready_device nominal_samples)) = Done status w'
    /\ tmcu_degrees (adc_ctx w')
       = to_int8 (exact_degrees board_example 650 3000)
    /\ (- 128 <= exact_degrees board_example 650 3000 <= 127 ->
        tmcu_degrees (adc_ctx w') = exact_degrees board_example 650 3000).
Proof.
  eexists _, _, _, _.
  split; [reflexivity |].
  split; [vm_compute; reflexivity |].
  split; [vm_compute; reflexivity |].
  split; [reflexivity |]. split; [reflexivity |].
  split; [vm_compute; reflexivity |].
  eapply (temperature_stored board_example
            (boot (ready_device nominal_samples)));
    [reflexivity | vm_compute; reflexivity | vm_compute; reflexivity
    | reflexivity | reflexivity | vm_compute; reflexivity].
Defined.

Lemma temperature_failure_keeps_supply_witness :
  exists wt wf,
    layout_ok board_example = true
    /\ calib_ok board_example = true
    /\ first_failure
         [step_ready; step_settle board_example; _ADC1_compute_vrefint;
          step_vmcu board_example]
         (boot (stalling_device (replicate 9%nat 1500)))
       = Done ADC_SUCCESS wt
    /\ _ADC1_compute_tmcu board_example wt = Done ADC_ERROR_TIMEOUT wf
    /\ ADC_ERROR_TIMEOUT <> ADC_SUCCESS
    /\ exists w',
         ADC1_perform_measurements board_example
           (boot (stalling_device (replicate 9%nat 1500)))
         = Done ADC_ERROR_TIMEOUT w'
         /\ vrefint_12bits (adc_ctx w') <> 0
         /\ data (adc_ctx w') !! ADC_DATA_INDEX_VMCU_MV board_example
            = Some (supply_formula board_example
                      (vrefint_12bits (adc_ctx w')))
         /\ data (adc_ctx w') !! ADC_DATA_INDEX_VUSB_MV board_example
            = data (adc_ctx (boot (stalling_device (replicate 9%nat 1500))))
              !! ADC_DATA_INDEX_VUSB_MV board_example
         /\ data (adc_ctx w') !! ADC_DATA_INDEX_VRS_MV board_example
            = data (adc_ctx (boot (stalling_device (replicate 9%nat 1500))))
              !! ADC_DATA_INDEX_VRS_MV board_example
         /\ tmcu_degrees (adc_ctx w')
            = tmcu_degrees
                (adc_ctx (boot (stalling_device (replicate 9%nat 1500)))).
Proof.
  assert (Hbefore :
    exists wt,
      first_failure
        [step_ready; step_settle board_example; _ADC1_compute_vrefint;
         step_vmcu board_example]
        (boot (stalling_device (replicate 9%nat 1500)))
      = Done ADC_SUCCESS wt
      /\ stalled wt).
  { eexists. split; [vm_compute; reflexivity |]. split; reflexivity. }
  destruct Hbefore as (wt & Ebefore & Hstalled).
  destruct (stalled_compute_tmcu board_example wt Hstalled) as (wf & Et).
  exists wt, wf.
  split; [reflexivity |]. split; [reflexivity |].
  split; [exact Ebefore |]. split; [exact Et |].
  split; [discriminate |].
  apply (temperature_failure_keeps_supply board_example
           (boot (stalling_device (replicate 9%nat 1500))) wt
           ADC_ERROR_TIMEOUT wf);
    [reflexivity | reflexivity | exact Ebefore | exact Et | discriminate].
Defined.

(** ** Further properties of the conversions *)

Section Protocol.

Context {HW : Type} {dev : Device HW}.

Local Abbreviation M := (exec HW).

(** [REG |= mask] and [REG &= mask] read the register once and write it
    once, in that order. *)
Lemma reg_or_trace r mask (w : world HW) :
  exists v w',
    reg_or r mask w = Done tt w'
    /\ trace w' = EvWrite r (Z.lor v mask) :: EvRead r v :: trace w
    /\ adc_ctx w' = adc_ctx w
    /\ 0 <= v < 2 ^ 32.
Proof.
  unfold reg_or, bind, reg_read, reg_write.
  destruct (hw_read r (hw w)) as [v h].
  eexists (wrap32 v), _. split; [reflexivity |].
  split; [reflexivity | split; [reflexivity | apply wrap32_range]].
Qed.

Lemma reg_and_trace r mask (w : world HW) :
  exists v w',
    reg_and r mask w = Done tt w'
    /\ trace w' = EvWrite r (Z.land v mask) :: EvRead r v :: trace w
    /\ adc_ctx w' = adc_ctx w
    /\ 0 <= v < 2 ^ 32.
Proof.
  unfold reg_and, bind, reg_read, reg_write.
  destruct (hw_read r (hw w)) as [v h].
  eexists (wrap32 v), _. split; [reflexivity |].
  split; [reflexivity | split; [reflexivity | apply wrap32_range]].
Qed.

(** A wait on a flag of the status register only reads that register. *)
Lemma wait_while_isr_trace bit on_timeout :
  forall fuel loop_count (w : world HW) status n w',
    wait_while fuel (isr_flag_clear bit) on_timeout loop_count w
      = Done (status, n) w' ->
    exists polls,
      trace w' = polls ++ trace w
      /\ Forall (fun e => exists v, e = EvRead ADC1_ISR v) polls
      /\ polls <> [].
Proof.
  induction fuel as [|fuel IH]; intros lc w st n w' E.
  - discriminate.
  - cbn [wait_while] in E. apply bind_done_inv in E.
    destruct E as (b & w1 & E1 & E2).
    assert (H1 : exists v, trace w1 = EvRead ADC1_ISR v :: trace w).
    { unfold isr_flag_clear, bind, reg_read, ret in E1.
      destruct (hw_read ADC1_ISR (hw w)) as [v h]. inversion E1; subst.
      eexists. reflexivity. }
    destruct H1 as (v & Hv).
    assert (Hbase :
      exists polls,
        trace w1 = polls ++ trace w
        /\ Forall (fun e => exists v, e = EvRead ADC1_ISR v) polls
        /\ polls <> []).
    { exists [EvRead ADC1_ISR v]. split; [exact Hv |].
      split; [| discriminate]. constructor; [eexists; reflexivity |].
      constructor. }
    destruct b.
    + destruct (wrap32 (lc + 1) >? ADC_TIMEOUT_COUNT).
      * inversion E2; subst. exact Hbase.
      * apply IH in E2. destruct E2 as (polls & Ht & Hf & _).
        exists (polls ++ [EvRead ADC1_ISR v]).
        rewrite Ht, Hv, <- app_assoc. split; [reflexivity |].
        split; [| destruct polls; discriminate].
        apply Forall_app. split; [exact Hf |].
        constructor; [eexists; reflexivity | constructor].
    + inversion E2; subst. exact Hbase.
Qed.

(** Selecting a channel in a register whose channel bits were cleared
    leaves exactly that channel selected among the 19 channels. *)
Lemma channel_select_exclusive c0 adc_channel i :
  0 <= adc_channel ->
  0 <= i < ADC_CHANNEL_LAST ->
  Z.testbit (Z.lor (Z.land c0 0xFFF80000) (Z.shiftl 1 adc_channel)) i
  = (i =? adc_channel).
Proof.
  intros Hch Hi. unfold ADC_CHANNEL_LAST in Hi.
  rewrite Z.lor_spec, Z.land_spec.
  assert (Hmask : Z.testbit 0xFFF80000 i = false).
  { assert (Hcases :
      i = 0 \/ i = 1 \/ i = 2 \/ i = 3 \/ i = 4 \/ i = 5 \/ i = 6 \/ i = 7
      \/ i = 8 \/ i = 9 \/ i = 10 \/ i = 11 \/ i = 12 \/ i = 13 \/ i = 14
      \/ i = 15 \/ i = 16 \/ i = 17 \/ i = 18) by lia.
    repeat (destruct Hcases as [-> | Hcases]; [reflexivity |]).
    subst i. reflexivity. }
  rewrite Hmask, andb_false_r, orb_false_l.
  rewrite Z.shiftl_1_l, Z.pow2_bits_eqb by exact Hch.
  apply Z.eqb_sym.
Qed.

(** X1: The register protocol of a single conversion with valid parameters:
    the channel bits of CHSELR are cleared, the channel bit is set, the
    flags are cleared, ADSTART is set, the status register is polled, and
    the data register is read once if and only if the end of conversion
    was observed.  No other register is accessed, and the output location
    changes only on success. *)
Theorem single_conversion_protocol adc_channel old (w : world HW) :
  0 <= adc_channel < ADC_CHANNEL_LAST ->
  exists status r w' c0 c1 isr cr polls tail,
    _ADC1_single_conversion adc_channel (Some old) w = Done (status, r) w'
    /\ adc_ctx w' = adc_ctx w
    /\ trace w'
       = tail ++ polls
         ++ [ EvWrite ADC1_CR (Z.lor cr 4); EvRead ADC1_CR cr;
              EvWrite ADC1_ISR (Z.lor isr 0x89F); EvRead ADC1_ISR isr;
              EvWrite ADC1_CHSELR (Z.lor c1 (Z.shiftl 1 adc_channel));
              EvRead ADC1_CHSELR c1;
              EvWrite ADC1_CHSELR (Z.land c0 0xFFF80000);
              EvRead ADC1_CHSELR c0 ]
         ++ trace w
    /\ Forall (fun e => exists v, e = EvRead ADC1_ISR v) polls
    /\ polls <> []
    /\ (status = ADC_SUCCESS
        /\ (exists v, tail = [EvRead ADC1_DR v] /\ r = Some v)
        \/ status = ADC_ERROR_TIMEOUT /\ tail = [] /\ r = Some old)
    /\ (c1 = Z.land c0 0xFFF80000 ->
        forall i, 0 <= i < ADC_CHANNEL_LAST ->
          Z.testbit (Z.lor c1 (Z.shiftl 1 adc_channel)) i
          = (i =? adc_channel)).
Proof.
  intros Hch. unfold _ADC1_single_conversion.
  replace (ADC_CHANNEL_LAST <=? adc_channel) with false by lia.
  destruct (reg_and_trace ADC1_CHSELR 0xFFF80000 w)
    as (c0 & w1 & E1 & T1 & C1 & _).
  rewrite (bind_done_l _ _ _ _ _ E1).
  destruct (reg_or_trace ADC1_CHSELR (Z.shiftl 1 adc_channel) w1)
    as (c1 & w2 & E2 & T2 & C2 & _).
  rewrite (bind_done_l _ _ _ _ _ E2).
  destruct (reg_or_trace ADC1_ISR 0x0000089F w2)
    as (isr & w3 & E3 & T3 & C3 & _).
  rewrite (bind_done_l _ _ _ _ _ E3).
  destruct (reg_or_trace ADC1_CR (Z.shiftl 1 2) w3)
    as (cr & w4 & E4 & T4 & C4 & _).
  rewrite (bind_done_l _ _ _ _ _ E4).
  destruct (wait_while_returns (fun w w' : world HW => adc_ctx w' = adc_ctx w)
              (isr_flag_clear 2) ADC_ERROR_TIMEOUT
              (R_preorder := same_ctx_preorder)
              (keeps_weaken _ _ _ quiet_same_ctx (quiet_isr_flag_clear 2))
              poll_fuel 0 w4)
    as (st & n & w5 & E5 & C5 & _ & Hst);
    [unfold ADC_TIMEOUT_COUNT; lia | apply poll_fuel_enough |].
  rewrite (bind_done_l _ _ _ _ _ E5). cbn beta iota.
  destruct (wait_while_isr_trace _ _ _ _ _ _ _ _ E5)
    as (polls & T5 & Hpolls & Hne).
  assert (Htrace :
    trace w5
    = polls
      ++ [ EvWrite ADC1_CR (Z.lor cr 4); EvRead ADC1_CR cr;
           EvWrite ADC1_ISR (Z.lor isr 0x89F); EvRead ADC1_ISR isr;
           EvWrite ADC1_CHSELR (Z.lor c1 (Z.shiftl 1 adc_channel));
           EvRead ADC1_CHSELR c1;
           EvWrite ADC1_CHSELR (Z.land c0 0xFFF80000);
           EvRead ADC1_CHSELR c0 ]
      ++ trace w).
  { rewrite T5, T4, T3, T2, T1. reflexivity. }
  assert (Hctx : adc_ctx w5 = adc_ctx w) by congruence.
  assert (Hsel :
    c1 = Z.land c0 0xFFF80000 ->
    forall i, 0 <= i < ADC_CHANNEL_LAST ->
      Z.testbit (Z.lor c1 (Z.shiftl 1 adc_channel)) i = (i =? adc_channel)).
  { intros -> i Hi. apply channel_select_exclusive; [lia | exact Hi]. }
  destruct Hst as [[-> _] | [-> _]].
  - unfold bind, reg_read, ret.
    destruct (hw_read ADC1_DR (hw w5)) as [v h].
    eexists ADC_SUCCESS, (Some (wrap32 v)), _, c0, c1, isr, cr, polls,
      [EvRead ADC1_DR (wrap32 v)].
    split; [reflexivity |]. split; [exact Hctx |].
    split; [cbn; rewrite Htrace; reflexivity |].
    split; [exact Hpolls |]. split; [exact Hne |].
    split; [| exact Hsel].
    left. split; [reflexivity |]. eexists. split; reflexivity.
  - exists ADC_ERROR_TIMEOUT, (Some old), w5, c0, c1, isr, cr, polls, [].
    split; [reflexivity |]. split; [exact Hctx |].
    split; [exact Htrace |].
    split; [exact Hpolls |]. split; [exact Hne |].
    split; [| exact Hsel].
    right. repeat split.
Qed.

End Protocol.

(** ** Further properties of the acquisition pass *)

Section Pass.

Context {HW : Type} {dev : Device HW}.
Variable cfg : ADC_config.

Local Abbreviation M := (exec HW).
Local Abbreviation same_ctx := (@same_ctx HW).
Local Abbreviation quiet := (@quiet HW).

Local Abbreviation pass_frame := (@pass_frame HW cfg).
Local Abbreviation step_reads := (@step_reads HW).

#[local] Existing Instance same_ctx_preorder.
#[local] Existing Instance quiet_preorder.

Ltac unfold_pure :=
  cbv [bind get_ctx set_ctx with_ctx udiv32 smul32 sadd32 sdiv32 data_store
       data_load ret undefined].

Ltac unfold_pure_in E :=
  cbv [bind get_ctx set_ctx with_ctx udiv32 smul32 sadd32 sdiv32 data_store
       data_load ret undefined] in E.

Ltac split_hyp_tests E :=
  repeat match type of E with
         | context [if ?c then _ else _] => destruct c eqn:?
         | context [match ?x with _ => _ end] => destruct x eqn:?
         end.

(** With valid parameters a single conversion either succeeds or times
    out. *)
Lemma single_conversion_status adc_channel old (w : world HW) status r w' :
  adc_channel < ADC_CHANNEL_LAST ->
  _ADC1_single_conversion adc_channel (Some old) w = Done (status, r) w' ->
  status = ADC_SUCCESS \/ status = ADC_ERROR_TIMEOUT.
Proof.
  intros Hch. unfold _ADC1_single_conversion.
  replace (ADC_CHANNEL_LAST <=? adc_channel) with false by lia.
  intros E.
  apply bind_done_inv in E. destruct E as (u1 & w1 & _ & E).
  apply bind_done_inv in E. destruct E as (u2 & w2 & _ & E).
  apply bind_done_inv in E. destruct E as (u3 & w3 & _ & E).
  apply bind_done_inv in E. destruct E as (u4 & w4 & _ & E).
  apply bind_done_inv in E. destruct E as ([st n] & w5 & E5 & E).
  destruct (wait_while_returns quiet (isr_flag_clear 2) ADC_ERROR_TIMEOUT
              (quiet_isr_flag_clear 2) poll_fuel 0 w4)
    as (st' & n' & w5' & E5' & _ & _ & Hst);
    [unfold ADC_TIMEOUT_COUNT; lia | apply poll_fuel_enough |].
  rewrite E5 in E5'. inversion E5'; subst st' n' w5'.
  destruct Hst as [[-> _] | [-> _]].
  - apply bind_done_inv in E. destruct E as (v & w6 & _ & E).
    inversion E; subst. left. reflexivity.
  - inversion E; subst. right. reflexivity.
Qed.

(** When the sampling loop fails, it is with a timeout, before the last
    sample was read. *)
Lemma sample_loop_failure adc_channel :
  adc_channel < ADC_CHANNEL_LAST ->
  forall n idx buf (w : world HW) status buf' w',
    (idx + n <= length buf)%nat ->
    sample_loop n idx adc_channel buf w = Done (status, buf') w' ->
    status <> ADC_SUCCESS ->
    status = ADC_ERROR_TIMEOUT
    /\ (data_reads (trace w') < data_reads (trace w) + n)%nat.
Proof.
  intros Hch. induction n as [|n IH]; intros idx buf w st buf' w' Hlen E Hst.
  - cbn [sample_loop] in E. inversion E; subst. congruence.
  - cbn [sample_loop] in E.
    destruct (lookup_lt_is_Some_2 buf idx ltac:(lia)) as [x Hx].
    rewrite Hx in E.
    destruct (single_conversion_returns adc_channel (Some x) w)
      as (st1 & r1 & w1 & E1 & _ & Hcase).
    pose proof (single_conversion_status _ _ _ _ _ _ Hch E1) as Hst1.
    rewrite (bind_done_l _ _ _ _ _ E1) in E. cbn beta iota in E.
    destruct Hcase as [(-> & [h ->] & Hd) | (Hne & -> & Hd)].
    + apply IH in E; [| rewrite length_insert; lia | exact Hst].
      destruct E as (-> & Hlt). split; [reflexivity | lia].
    + destruct Hst1 as [-> | ->]; [congruence |].
      inversion E; subst. split; [reflexivity | lia].
Qed.

(** X2: The outcome of a filtered conversion.  A parameter error is reported
    before the device is touched, the channel being checked first.  With
    valid parameters the function fails only with the timeout of one of
    its conversions (or with an error of the median filter); after a
    timeout fewer than nine samples were read.  In every case the driver
    context is left as it was, and the output location changes only on
    success, after exactly nine reads of the data register. *)
Theorem filtered_conversion_outcome adc_channel slot (w : world HW) :
  exists status r w',
    _ADC1_filtered_conversion adc_channel slot w = Done (status, r) w'
    /\ adc_ctx w' = adc_ctx w
    /\ (status <> ADC_SUCCESS -> r = slot)
    /\ (status = ADC_SUCCESS ->
        adc_channel < ADC_CHANNEL_LAST /\ slot <> None
        /\ data_reads (trace w') = (data_reads (trace w) + 9)%nat)
    /\ (ADC_CHANNEL_LAST <= adc_channel ->
        status = ADC_ERROR_CHANNEL /\ w' = w)
    /\ (adc_channel < ADC_CHANNEL_LAST -> slot = None ->
        status = ADC_ERROR_NULL_PARAMETER /\ w' = w)
    /\ (adc_channel < ADC_CHANNEL_LAST -> slot <> None ->
        status = ADC_SUCCESS
        \/ status = ADC_ERROR_TIMEOUT
           /\ (data_reads (trace w') < data_reads (trace w) + 9)%nat
        \/ exists m, m <> MATH_SUCCESS /\ status = ADC_ERROR_BASE_MATH m).
Proof.
  destruct (filtered_conversion_returns adc_channel slot w)
    as (st & r & w' & E & C & _ & Hok & Hko).
  exists st, r, w'. split; [exact E |]. split; [exact C |].
  split; [exact Hko |].
  unfold _ADC1_filtered_conversion in E.
  destruct (ADC_CHANNEL_LAST <=? adc_channel) eqn:Hch.
  { apply Z.leb_le in Hch. inversion E; subst.
    split; [discriminate |]. split; [split; reflexivity |].
    split; intros; lia. }
  apply Z.leb_gt in Hch.
  destruct slot as [old|].
  2:{ inversion E; subst.
      split; [discriminate |]. split; [lia |].
      split; [split; reflexivity | congruence]. }
  split.
  { intros Hst. destruct (Hok Hst) as (v & _ & Hfrom).
    destruct Hfrom as (samples & s0 & s1 & s2 & s3 & s4 & s5 & s6 & s7 & s8
                       & _ & Hn & _).
    split; [exact Hch |]. split; [discriminate | exact Hn]. }
  split; [lia |]. split; [discriminate |].
  intros _ _.
  apply bind_done_inv in E. destruct E as ([st0 buf] & w1 & Eloop & E).
  destruct (ADC_status_t_eq_dec st0 ADC_SUCCESS) as [-> | Hst0].
  - destruct (MATH_median_filter_u32 buf ADC_MEDIAN_FILTER_SIZE
                ADC_CENTER_AVERAGE_SIZE (Some old)) as [m res].
    destruct m; inversion E; subst.
    + left. reflexivity.
    + right. right. eexists. split; [| reflexivity]. discriminate.
  - assert (E' : Done (st0, Some old) w1 = Done (st, r) w').
    { destruct st0; try exact E; congruence. }
    destruct (sample_loop_failure adc_channel Hch ADC_MEDIAN_FILTER_SIZE
                0%nat (replicate ADC_MEDIAN_FILTER_SIZE 0) w st0 buf w1
                ltac:(rewrite length_replicate; lia) Eloop Hst0)
      as (Hto & Hlt).
    inversion E'; subst.
    right. left. split; [reflexivity | exact Hlt].
Qed.

(** *** Statuses, data reads and slots of the pass *)

Lemma filtered_conversion_status adc_channel old (w : world HW) status r w' :
  adc_channel < ADC_CHANNEL_LAST ->
  _ADC1_filtered_conversion adc_channel (Some old) w = Done (status, r) w' ->
  pass_status status.
Proof.
  intros Hch E. unfold _ADC1_filtered_conversion in E.
  replace (ADC_CHANNEL_LAST <=? adc_channel) with false in E by lia.
  apply bind_done_inv in E. destruct E as ([st0 buf] & w1 & Eloop & E).
  destruct (ADC_status_t_eq_dec st0 ADC_SUCCESS) as [-> | Hst0].
  - destruct (MATH_median_filter_u32 buf ADC_MEDIAN_FILTER_SIZE
                ADC_CENTER_AVERAGE_SIZE (Some old)) as [m res].
    destruct m; inversion E; subst.
    + left. reflexivity.
    + right. right. right. eexists. split; [| reflexivity]. discriminate.
  - assert (E' : Done (st0, Some old) w1 = Done (status, r) w').
    { destruct st0; try exact E; congruence. }
    destruct (sample_loop_failure adc_channel Hch ADC_MEDIAN_FILTER_SIZE
                0%nat (replicate ADC_MEDIAN_FILTER_SIZE 0) w st0 buf w1
                ltac:(rewrite length_replicate; lia) Eloop Hst0)
      as (Hto & _).
    inversion E'; subst. right. left. reflexivity.
Qed.

Lemma filtered_conversion_reads adc_channel slot (w : world HW) status r w' :
  _ADC1_filtered_conversion adc_channel slot w = Done (status, r) w' ->
  (data_reads (trace w') <= data_reads (trace w) + 9)%nat
  /\ (status = ADC_SUCCESS ->
      data_reads (trace w') = (data_reads (trace w) + 9)%nat).
Proof.
  intros E.
  destruct (filtered_conversion_returns adc_channel slot w)
    as (st & r0 & w0 & E0 & _ & Hle & Hok & _).
  rewrite E in E0. inversion E0; subst.
  split; [exact Hle |]. intros Hst.
  destruct (Hok Hst) as (v & _ & Hfrom).
  destruct Hfrom as (samples & s0 & s1 & s2 & s3 & s4 & s5 & s6 & s7 & s8
                     & _ & Hn & _).
  exact Hn.
Qed.

(** Each computing step is a filtered conversion followed by statements
    that do no input or output and keep its status. *)
Lemma compute_vrefint_factor (w : world HW) status w' :
  _ADC1_compute_vrefint w = Done status w' ->
  exists r w1,
    _ADC1_filtered_conversion ADC_CHANNEL_VREFINT
      (Some (vrefint_12bits (adc_ctx w))) w = Done (status, r) w1
    /\ trace w' = trace w1.
Proof.
  unfold _ADC1_compute_vrefint, get_ctx. unfold bind at 1.
  destruct (filtered_conversion_returns ADC_CHANNEL_VREFINT
              (Some (vrefint_12bits (adc_ctx w))) w)
    as (st & r & w1 & E & _).
  rewrite (bind_done_l _ _ _ _ _ E). cbn beta iota.
  intros E'. exists r, w1.
  destruct r as [v|]; unfold_pure_in E'; inversion E'; subst;
    (split; [exact E | reflexivity]).
Qed.

Lemma compute_tmcu_factor (w : world HW) status w' :
  _ADC1_compute_tmcu cfg w = Done status w' ->
  exists r w1,
    _ADC1_filtered_conversion ADC_CHANNEL_TMCU (Some 0) w
      = Done (status, r) w1
    /\ trace w' = trace w1.
Proof.
  unfold _ADC1_compute_tmcu.
  destruct (filtered_conversion_returns ADC_CHANNEL_TMCU (Some 0) w)
    as (st & r & w1 & E & _ & _ & Hok & _).
  rewrite (bind_done_l _ _ _ _ _ E). cbn beta iota.
  intros H. exists r, w1.
  destruct (ADC_status_t_eq_dec st ADC_SUCCESS) as [-> | Hst].
  - destruct (Hok eq_refl) as (v & -> & _).
    unfold_pure_in H.
    destruct (data (adc_ctx w1) !! ADC_DATA_INDEX_VMCU_MV cfg);
      [| discriminate].
    split_hyp_tests H; try discriminate.
    inversion H; subst. split; [exact E | reflexivity].
  - assert (E'' : Done st w1 = Done status w').
    { destruct st, r; try exact H; congruence. }
    inversion E''; subst. split; [exact E | reflexivity].
Qed.

Lemma compute_scaled_factor adc_channel ratio idx (w : world HW) status w' :
  compute_scaled cfg adc_channel ratio idx w = Done status w' ->
  exists r w1,
    _ADC1_filtered_conversion adc_channel (Some 0) w = Done (status, r) w1
    /\ trace w' = trace w1.
Proof.
  unfold compute_scaled.
  destruct (filtered_conversion_returns adc_channel (Some 0) w)
    as (st & r & w1 & E & _ & _ & Hok & _).
  rewrite (bind_done_l _ _ _ _ _ E). cbn beta iota.
  intros H. exists r, w1.
  destruct (ADC_status_t_eq_dec st ADC_SUCCESS) as [-> | Hst].
  - destruct (Hok eq_refl) as (v & -> & _).
    unfold scaled_input_mv in H. unfold_pure_in H.
    split_hyp_tests H; try discriminate.
    inversion H; subst. split; [exact E | reflexivity].
  - assert (E'' : Done st w1 = Done status w').
    { destruct st, r; try exact H; congruence. }
    inversion E''; subst. split; [exact E | reflexivity].
Qed.

(** *** The pass as a whole *)

Lemma first_failure_status (P : ADC_status_t -> Prop)
    (steps : list (M ADC_status_t)) :
  P ADC_SUCCESS ->
  Forall (fun step : M ADC_status_t =>
            forall w status w', step w = Done status w' -> P status) steps ->
  forall w status w', first_failure steps w = Done status w' -> P status.
Proof.
  intros H0 Hs. induction Hs as [| step rest Hstep _ IH]; intros w status w' E.
  - inversion E; subst. exact H0.
  - apply first_failure_cons_inv in E.
    destruct E as (st1 & w1 & E1 & [(-> & E) | (Hne & -> & ->)]).
    + eapply IH, E.
    + eapply Hstep, E1.
Qed.

Lemma first_failure_rel (R : world HW -> world HW -> Prop)
    {R_preorder : PreOrder R} (steps : list (M ADC_status_t)) :
  Forall (fun step : M ADC_status_t =>
            forall w status w', step w = Done status w' -> R w w') steps ->
  forall w status w', first_failure steps w = Done status w' -> R w w'.
Proof.
  intros Hs. induction Hs as [| step rest Hstep _ IH]; intros w status w' E.
  - inversion E; subst. reflexivity.
  - apply first_failure_cons_inv in E.
    destruct E as (st1 & w1 & E1 & [(-> & E) | (Hne & -> & ->)]).
    + etransitivity; [eapply Hstep, E1 | eapply IH, E].
    + eapply Hstep, E1.
Qed.

Lemma first_failure_reads ks (steps : list (M ADC_status_t)) :
  Forall2 step_reads ks steps ->
  step_reads (list_sum ks) (first_failure steps).
Proof.
  intros Hs. induction Hs as [| k step ks rest Hstep _ IH];
    intros w status w' E.
  - inversion E; subst. cbn. split; [lia | intros _; lia].
  - apply first_failure_cons_inv in E.
    destruct E as (st1 & w1 & E1 & [(-> & E) | (Hne & -> & ->)]).
    + destruct (Hstep _ _ _ E1) as (_ & H1). specialize (H1 eq_refl).
      destruct (IH _ _ _ E) as (H2 & H3).
      change (list_sum (k :: ks)) with (k + list_sum ks)%nat.
      split; [lia | intros Hst; specialize (H3 Hst); lia].
    + destruct (Hstep _ _ _ E1) as (H1 & _).
      change (list_sum (k :: ks)) with (k + list_sum ks)%nat.
      split; [lia | intros Hst; contradiction].
Qed.

#[local] Instance pass_frame_preorder : PreOrder pass_frame.
Proof.
  split.
  - intros w. split; [reflexivity | intros; reflexivity].
  - intros w1 w2 w3 (L12 & H12) (L23 & H23). split; [congruence |].
    intros j H1 H2 H3. rewrite H23, H12 by assumption. reflexivity.
Qed.

Lemma same_ctx_pass_frame (w w' : world HW) : same_ctx w w' -> pass_frame w w'.
Proof.
  unfold same_ctx. intros C. split; [rewrite C; reflexivity |].
  intros j _ _ _. rewrite C. reflexivity.
Qed.

Lemma same_data_pass_frame (w w' : world HW) :
  data (adc_ctx w') = data (adc_ctx w) -> pass_frame w w'.
Proof.
  intros C. split; [rewrite C; reflexivity |].
  intros j _ _ _. rewrite C. reflexivity.
Qed.

Lemma quiet_step_ready : keeps quiet step_ready.
Proof.
  unfold step_ready.
  apply keeps_bind; [typeclasses eauto | |].
  - apply quiet_reg_or. discriminate.
  - intros _. apply keeps_bind; [typeclasses eauto | |].
    + apply keeps_wait_while; [typeclasses eauto |].
      apply quiet_isr_flag_clear.
    + intros [st n]. apply keeps_ret. typeclasses eauto.
Qed.

Lemma quiet_step_settle : keeps quiet (step_settle cfg).
Proof.
  unfold step_settle.
  apply keeps_bind; [typeclasses eauto | |].
  - destruct (HW1_1 cfg); [apply quiet_GPIO_write |].
    apply keeps_ret. typeclasses eauto.
  - intros _. apply keeps_bind; [typeclasses eauto | |].
    + apply quiet_reg_or. discriminate.
    + intros _. apply keeps_bind; [typeclasses eauto | |].
      * apply quiet_delay.
      * intros l. destruct l; apply keeps_ret; typeclasses eauto.
Qed.

Lemma step_ready_status (w : world HW) status w' :
  step_ready w = Done status w' ->
  status = ADC_SUCCESS \/ status = ADC_ERROR_TIMEOUT.
Proof.
  unfold step_ready. intros E.
  apply bind_done_inv in E. destruct E as (u & w1 & _ & E).
  destruct (wait_while_returns quiet (isr_flag_clear 0) ADC_ERROR_TIMEOUT
              (quiet_isr_flag_clear 0) poll_fuel 0 w1)
    as (st & n & w2 & Ew & _ & _ & Hst);
    [unfold ADC_TIMEOUT_COUNT; lia | apply poll_fuel_enough |].
  rewrite (bind_done_l _ _ _ _ _ Ew) in E. inversion E; subst.
  destruct Hst as [(-> & _) | (-> & _)]; [left | right]; reflexivity.
Qed.

Lemma step_settle_status (w : world HW) status w' :
  step_settle cfg w = Done status w' ->
  status = ADC_SUCCESS
  \/ exists l, l <> LPTIM_SUCCESS /\ status = ADC_ERROR_BASE_LPTIM l.
Proof.
  unfold step_settle. intros E.
  apply bind_done_inv in E. destruct E as (u & w1 & _ & E).
  apply bind_done_inv in E. destruct E as (u2 & w2 & _ & E).
  apply bind_done_inv in E. destruct E as (l & w3 & _ & E).
  destruct l; inversion E; subst;
    [left; reflexivity
    | right; eexists; split; [| reflexivity]; discriminate ..].
Qed.

Lemma channel_vrefint_valid : ADC_CHANNEL_VREFINT < ADC_CHANNEL_LAST.
Proof. reflexivity. Qed.

Lemma channel_tmcu_valid : ADC_CHANNEL_TMCU < ADC_CHANNEL_LAST.
Proof. reflexivity. Qed.

Lemma channel_vusb_valid : ADC_CHANNEL_VUSB < ADC_CHANNEL_LAST.
Proof. reflexivity. Qed.

Lemma channel_vrs_valid : ADC_CHANNEL_VRS < ADC_CHANNEL_LAST.
Proof. reflexivity. Qed.

Lemma acquisition_status :
  Forall (fun step : M ADC_status_t =>
            forall w status w', step w = Done status w' -> pass_status status)
    (acquisition_steps cfg).
Proof.
  unfold acquisition_steps.
  repeat apply List.Forall_cons; [..| apply List.Forall_nil];
    intros w status w' E.
  - apply step_ready_status in E. destruct E as [-> | ->];
      [left | right; left]; reflexivity.
  - apply step_settle_status in E. destruct E as [-> | Hl];
      [left; reflexivity | right; right; left; exact Hl].
  - apply compute_vrefint_factor in E. destruct E as (r & w1 & E & _).
    exact (filtered_conversion_status _ _ _ _ _ _ channel_vrefint_valid E).
  - unfold step_vmcu in E. apply bind_done_inv in E.
    destruct E as (u & w1 & _ & E). inversion E. left. reflexivity.
  - apply compute_tmcu_factor in E. destruct E as (r & w1 & E & _).
    exact (filtered_conversion_status _ _ _ _ _ _ channel_tmcu_valid E).
  - rewrite compute_vusb_scaled in E.
    apply compute_scaled_factor in E. destruct E as (r & w1 & E & _).
    exact (filtered_conversion_status _ _ _ _ _ _ channel_vusb_valid E).
  - rewrite compute_vrs_scaled in E.
    apply compute_scaled_factor in E. destruct E as (r & w1 & E & _).
    exact (filtered_conversion_status _ _ _ _ _ _ channel_vrs_valid E).
Qed.

Lemma step_reads_quiet (step : M ADC_status_t) :
  keeps quiet step -> step_reads 0 step.
Proof.
  intros Hq w status w' E.
  destruct (keeps_done _ _ _ _ _ Hq E) as (_ & Hr).
  rewrite Hr. split; [lia | intros _; lia].
Qed.

Lemma step_reads_factor adc_channel slot (step : M ADC_status_t) :
  (forall w status w',
     step w = Done status w' ->
     exists r w1,
       _ADC1_filtered_conversion adc_channel (slot w) w = Done (status, r) w1
       /\ trace w' = trace w1) ->
  step_reads 9 step.
Proof.
  intros Hf w status w' E.
  destruct (Hf _ _ _ E) as (r & w1 & E1 & ->).
  exact (filtered_conversion_reads _ _ _ _ _ _ E1).
Qed.

Lemma acquisition_reads :
  Forall2 step_reads [0; 0; 9; 0; 9; 9; 9]%nat (acquisition_steps cfg).
Proof.
  unfold acquisition_steps.
  repeat apply List.Forall2_cons; [..| apply List.Forall2_nil].
  - apply step_reads_quiet, quiet_step_ready.
  - apply step_reads_quiet, quiet_step_settle.
  - apply (step_reads_factor ADC_CHANNEL_VREFINT
             (fun w => Some (vrefint_12bits (adc_ctx w)))).
    intros w status w'. apply compute_vrefint_factor.
  - intros w status w' E. unfold step_vmcu in E. apply bind_done_inv in E.
    destruct E as (u & w1 & E1 & E). inversion E; subst.
    apply compute_vmcu_done in E1. destruct E1 as (_ & _ & -> & _).
    split; [lia | intros _; lia].
  - apply (step_reads_factor ADC_CHANNEL_TMCU (fun _ => Some 0)).
    intros w status w'. apply compute_tmcu_factor.
  - apply (step_reads_factor ADC_CHANNEL_VUSB (fun _ => Some 0)).
    intros w status w'. rewrite compute_vusb_scaled.
    apply compute_scaled_factor.
  - apply (step_reads_factor ADC_CHANNEL_VRS (fun _ => Some 0)).
    intros w status w'. rewrite compute_vrs_scaled.
    apply compute_scaled_factor.
Qed.

Lemma compute_scaled_frame adc_channel ratio idx (w : world HW) status w' :
  idx = ADC_DATA_INDEX_VUSB_MV cfg \/ idx = ADC_DATA_INDEX_VRS_MV cfg ->
  compute_scaled cfg adc_channel ratio idx w = Done status w' ->
  pass_frame w w'.
Proof.
  intros Hidx E. split.
  - destruct (compute_scaled_done cfg _ _ _ _ _ _ E) as (_ & _ & Hko & Hok).
    destruct (ADC_status_t_eq_dec status ADC_SUCCESS) as [Hst | Hst].
    + destruct (Hok Hst) as (raw & w1 & _ & _ & _ & ->).
      apply length_insert.
    + rewrite (Hko Hst). reflexivity.
  - destruct (compute_scaled_effect cfg _ _ _ _ _ _ E) as (_ & _ & Hj).
    intros j H1 H2 H3. apply Hj. destruct Hidx; congruence.
Qed.

Lemma acquisition_frame :
  Forall (fun step : M ADC_status_t =>
            forall w status w', step w = Done status w' -> pass_frame w w')
    (acquisition_steps cfg).
Proof.
  unfold acquisition_steps.
  repeat apply List.Forall_cons; [..| apply List.Forall_nil];
    intros w status w' E.
  - apply same_ctx_pass_frame.
    exact (keeps_done _ _ _ _ _ same_ctx_step_ready E).
  - apply same_ctx_pass_frame.
    exact (keeps_done _ _ _ _ _ (same_ctx_step_settle cfg) E).
  - apply same_data_pass_frame.
    destruct (compute_vrefint_returns w) as (st & w1 & E1 & Hd & _).
    rewrite E in E1. inversion E1; subst. exact Hd.
  - unfold step_vmcu in E. apply bind_done_inv in E.
    destruct E as (u & w1 & E1 & E). inversion E; subst.
    apply compute_vmcu_done in E1.
    destruct E1 as (_ & _ & _ & _ & _ & _ & Hd). split.
    + rewrite Hd. apply length_insert.
    + intros j H1 _ _. rewrite Hd. apply list_lookup_insert_ne. congruence.
  - apply same_data_pass_frame.
    apply compute_tmcu_done in E. destruct E as (_ & Hd & _). exact Hd.
  - rewrite compute_vusb_scaled in E.
    eapply compute_scaled_frame; [| exact E]. left. reflexivity.
  - rewrite compute_vrs_scaled in E.
    eapply compute_scaled_frame; [| exact E]. right. reflexivity.
Qed.

Lemma teardown_events_reads ccr cr t :
  data_reads (teardown_events cfg ccr cr ++ t) = data_reads t.
Proof. unfold teardown_events. destruct (HW1_1 cfg); reflexivity. Qed.

(** What [ADC1_perform_measurements] returns is what its steps leave,
    followed by the teardown. *)
Lemma perform_measurements_split (w : world HW) status (w' : world HW) :
  ADC1_perform_measurements cfg w = Done status w' ->
  exists w1 ccr cr,
    first_failure (acquisition_steps cfg) w = Done status w1
    /\ adc_ctx w' = adc_ctx w1
    /\ trace w' = teardown_events cfg ccr cr ++ trace w1.
Proof.
  rewrite perform_measurements_unfold.
  destruct (first_failure (acquisition_steps cfg) w) as [st w1| |] eqn:E;
    try discriminate.
  destruct (teardown_done cfg w1) as (w2 & ccr & cr & Et & Htr & Hc).
  rewrite (bind_done_l _ _ _ _ _ Et). intros E'. inversion E'; subst.
  exists w1, ccr, cr. repeat split; assumption.
Qed.

(** X3: [ADC1_perform_measurements] returns [ADC_SUCCESS],
    [ADC_ERROR_TIMEOUT], the error of the delay service on the LPTIM base
    or the error of the median filter on the MATH base; it never returns a
    channel, null-parameter, calibration or data-index error. *)
Theorem perform_measurements_status (w : world HW) status (w' : world HW) :
  ADC1_perform_measurements cfg w = Done status w' ->
  pass_status status
  /\ status <> ADC_ERROR_CHANNEL
  /\ status <> ADC_ERROR_NULL_PARAMETER
  /\ status <> ADC_ERROR_CALIBRATION
  /\ status <> ADC_ERROR_DATA_INDEX
  /\ status <> ADC_ERROR_BASE_LPTIM LPTIM_SUCCESS
  /\ status <> ADC_ERROR_BASE_MATH MATH_SUCCESS.
Proof.
  intros E. apply perform_measurements_split in E.
  destruct E as (w1 & _ & _ & E & _).
  assert (Hs : pass_status status).
  { exact (first_failure_status pass_status _ (or_introl eq_refl)
             acquisition_status _ _ _ E). }
  split; [exact Hs |].
  destruct Hs as [-> | [-> | [(l & Hl & ->) | (m & Hm & ->)]]];
    repeat split; congruence.
Qed.

(** X4: A pass reads the data register at most 36 times, nine times for
    each of the four channels, and exactly 36 times when it succeeds; the
    teardown reads it never. *)
Theorem perform_measurements_data_reads (w : world HW) status
    (w' : world HW) :
  ADC1_perform_measurements cfg w = Done status w' ->
  (data_reads (trace w') <= data_reads (trace w) + 36)%nat
  /\ (status = ADC_SUCCESS ->
      data_reads (trace w') = (data_reads (trace w) + 36)%nat)
  /\ (data_reads (trace w') < data_reads (trace w) + 36 ->
      status <> ADC_SUCCESS)%nat.
Proof.
  intros E. apply perform_measurements_split in E.
  destruct E as (w1 & ccr & cr & E & _ & ->).
  rewrite teardown_events_reads.
  destruct (first_failure_reads _ _ acquisition_reads _ _ _ E) as (Hle & Heq).
  change (list_sum [0; 0; 9; 0; 9; 9; 9]%nat) with 36%nat in Hle, Heq.
  split; [exact Hle |]. split; [exact Heq |].
  intros Hlt Hst. specialize (Heq Hst). lia.
Qed.

(** X5: A pass, whatever its status, keeps the length of the data array
    and writes no slot other than those of the supply voltage, of the USB
    voltage and of the relay supply voltage. *)
Theorem perform_measurements_frame (w : world HW) status (w' : world HW) :
  ADC1_perform_measurements cfg w = Done status w' ->
  length (data (adc_ctx w')) = length (data (adc_ctx w))
  /\ forall j,
       j <> ADC_DATA_INDEX_VMCU_MV cfg ->
       j <> ADC_DATA_INDEX_VUSB_MV cfg ->
       j <> ADC_DATA_INDEX_VRS_MV cfg ->
       data (adc_ctx w') !! j = data (adc_ctx w) !! j.
Proof.
  intros E. apply perform_measurements_split in E.
  destruct E as (w1 & _ & _ & E & C & _).
  rewrite C.
  exact (first_failure_rel pass_frame _ acquisition_frame _ _ _ E).
Qed.

(** *** Undefined behaviour of the pass *)

Lemma bind_undef_inv {A B} (m : M A) (k : A -> M B) w f :
  bind m k w = Undefined f ->
  m w = Undefined f
  \/ exists a w1, m w = Done a w1 /\ k a w1 = Undefined f.
Proof.
  unfold bind. destruct (m w) as [a w1 | f' |]; intros E.
  - right. exists a, w1. split; [reflexivity | exact E].
  - left. inversion E. reflexivity.
  - discriminate.
Qed.

Lemma keeps_defined (R : world HW -> world HW -> Prop) {A} (m : M A) w f :
  keeps R m -> m w <> Undefined f.
Proof. intros Hm E. destruct (Hm w) as (a & w' & E' & _). congruence. Qed.

Lemma first_failure_cons_undef (step : M ADC_status_t) rest w f :
  first_failure (step :: rest) w = Undefined f ->
  step w = Undefined f
  \/ exists w1,
       step w = Done ADC_SUCCESS w1 /\ first_failure rest w1 = Undefined f.
Proof.
  cbn [first_failure]. intros E. apply bind_undef_inv in E.
  destruct E as [E | (st & w1 & E1 & E)]; [left; exact E |].
  right. exists w1.
  destruct st; try (unfold ret in E; discriminate E).
  split; assumption.
Qed.

Lemma compute_vmcu_undef (w : world HW) f :
  _ADC1_compute_vmcu cfg w = Undefined f ->
  f = DivisionByZero /\ vrefint_12bits (adc_ctx w) = 0
  \/ f = OutOfBounds
     /\ (length (data (adc_ctx w)) <= ADC_DATA_INDEX_VMCU_MV cfg)%nat.
Proof.
  unfold _ADC1_compute_vmcu. unfold_pure.
  destruct (vrefint_12bits (adc_ctx w) =? 0) eqn:Hz.
  - intros E. inversion E. left. split; [reflexivity | lia].
  - destruct (ADC_DATA_INDEX_VMCU_MV cfg <? length (data (adc_ctx w)))%nat
      eqn:Hi; [discriminate |].
    intros E. inversion E. right. split; [reflexivity |].
    apply Nat.ltb_ge in Hi. exact Hi.
Qed.

(** With valid calibration constants the temperature step divides by
    nonzero constants only; it reads the supply voltage inside the array. *)
Lemma compute_tmcu_undef (w : world HW) f :
  calib_ok cfg = true ->
  (ADC_DATA_INDEX_VMCU_MV cfg < length (data (adc_ctx w)))%nat ->
  _ADC1_compute_tmcu cfg w = Undefined f ->
  f = SignedOverflow.
Proof.
  intros Hc Hi. unfold _ADC1_compute_tmcu.
  destruct (filtered_conversion_returns ADC_CHANNEL_TMCU (Some 0) w)
    as (st & r & w1 & E & C & _ & Hok & _).
  rewrite (bind_done_l _ _ _ _ _ E). cbn beta iota.
  unfold same_ctx in C.
  unfold calib_ok in Hc.
  repeat (apply andb_prop in Hc; destruct Hc as [Hc ?]).
  assert (Hvcc : (wrap32 (TS_VCC_CALIB_MV cfg) =? 0) = false).
  { rewrite wrap32_small by (pow_const; lia). lia. }
  assert (Hcal : (to_int32 (TS_CAL2 cfg - TS_CAL1 cfg) =? 0) = false).
  { rewrite to_int32_small by (pow_const; lia). lia. }
  destruct (ADC_status_t_eq_dec st ADC_SUCCESS) as [-> | Hst].
  - destruct (Hok eq_refl) as (v & -> & _).
    destruct (lookup_lt_is_Some_2 (data (adc_ctx w1))
                (ADC_DATA_INDEX_VMCU_MV cfg) ltac:(rewrite C; exact Hi))
      as [x Hx].
    rewrite (bind_done_l _ _ _ _ _ (data_load_done _ _ _ Hx)).
    intros E'. unfold_pure_in E'. rewrite Hvcc, Hcal in E'.
    split_hyp_tests E'; try discriminate E'; inversion E'; reflexivity.
  - intros E'. destruct st, r; try discriminate E'; congruence.
Qed.

(** A scaled-input step is defined as soon as the bandgap reading is not
    zero and its slot exists. *)
Lemma compute_scaled_defined adc_channel ratio idx (w : world HW) f :
  vrefint_12bits (adc_ctx w) <> 0 ->
  (idx < length (data (adc_ctx w)))%nat ->
  compute_scaled cfg adc_channel ratio idx w <> Undefined f.
Proof.
  intros Hz Hi. unfold compute_scaled.
  destruct (filtered_conversion_returns adc_channel (Some 0) w)
    as (st & r & w1 & E & C & _ & Hok & _).
  rewrite (bind_done_l _ _ _ _ _ E). cbn beta iota.
  unfold same_ctx in C.
  apply Z.eqb_neq in Hz. apply Nat.ltb_lt in Hi.
  destruct (ADC_status_t_eq_dec st ADC_SUCCESS) as [-> | Hst].
  - destruct (Hok eq_refl) as (v & -> & _).
    unfold scaled_input_mv. unfold_pure. rewrite !C, Hz. cbn [adc_ctx data].
    rewrite ?C, Hi. discriminate.
  - destruct st, r; try discriminate; congruence.
Qed.

Lemma perform_measurements_undef (w : world HW) f :
  ADC1_perform_measurements cfg w = Undefined f
  <-> first_failure (acquisition_steps cfg) w = Undefined f.
Proof.
  rewrite perform_measurements_unfold.
  destruct (first_failure (acquisition_steps cfg) w) as [st w1 | f' |] eqn:E.
  - destruct (teardown_done cfg w1) as (w2 & ccr & cr & Et & _).
    rewrite (bind_done_l _ _ _ _ _ Et). split; discriminate.
  - reflexivity.
  - reflexivity.
Qed.

(** The steps that precede the supply voltage are always defined. *)
Lemma bandgap_prefix_defined (w : world HW) f :
  first_failure [step_ready; step_settle cfg; _ADC1_compute_vrefint] w
    <> Undefined f.
Proof.
  intros E.
  apply first_failure_cons_undef in E.
  destruct E as [E | (w1 & _ & E)];
    [exact (keeps_defined _ _ _ _ same_ctx_step_ready E) |].
  apply first_failure_cons_undef in E.
  destruct E as [E | (w2 & _ & E)];
    [exact (keeps_defined _ _ _ _ (same_ctx_step_settle cfg) E) |].
  rewrite first_failure_single in E.
  destruct (compute_vrefint_returns w2) as (st & w3 & E3 & _). congruence.
Qed.

Lemma first_failure_app_undef (l1 l2 : list (M ADC_status_t)) :
  forall w f,
    first_failure (l1 ++ l2) w = Undefined f ->
    first_failure l1 w = Undefined f
    \/ exists w1,
         first_failure l1 w = Done ADC_SUCCESS w1
         /\ first_failure l2 w1 = Undefined f.
Proof.
  induction l1 as [| step l1 IH]; intros w f E.
  - right. exists w. split; [reflexivity | exact E].
  - cbn [app] in E. apply first_failure_cons_undef in E.
    destruct E as [E | (w1 & E1 & E)].
    + left. cbn [first_failure]. unfold bind. rewrite E. reflexivity.
    + cbn [first_failure]. rewrite (bind_done_l _ _ _ _ _ E1).
      apply IH, E.
Qed.

(** X6: The undefined behaviours of a pass.  On a context whose array has its
    slots and with valid calibration constants, a pass never accesses the
    array out of bounds; it divides by zero exactly when the bandgap step
    succeeds with the reading 0; it overflows a signed integer exactly
    when the temperature step does. *)
Theorem perform_measurements_faults (w : world HW) :
  ctx_wf cfg (adc_ctx w) ->
  layout_ok cfg = true ->
  calib_ok cfg = true ->
  ADC1_perform_measurements cfg w <> Undefined OutOfBounds
  /\ (ADC1_perform_measurements cfg w = Undefined DivisionByZero
      <-> exists wb,
            first_failure
              [step_ready; step_settle cfg; _ADC1_compute_vrefint] w
              = Done ADC_SUCCESS wb
            /\ vrefint_12bits (adc_ctx wb) = 0)
  /\ (ADC1_perform_measurements cfg w = Undefined SignedOverflow
      <-> exists wt,
            first_failure
              [step_ready; step_settle cfg; _ADC1_compute_vrefint;
               step_vmcu cfg] w = Done ADC_SUCCESS wt
            /\ _ADC1_compute_tmcu cfg wt = Undefined SignedOverflow).
Proof.
  intros Hwf Hl Hc. unfold ctx_wf in Hwf.
  destruct (layout_ok_true cfg Hl) as (Hm & Hu & Hr & _).
  assert (Hall : forall f,
    ADC1_perform_measurements cfg w = Undefined f ->
    (f = DivisionByZero
     /\ exists wb,
          first_failure
            [step_ready; step_settle cfg; _ADC1_compute_vrefint] w
            = Done ADC_SUCCESS wb
          /\ vrefint_12bits (adc_ctx wb) = 0)
    \/ (f = SignedOverflow
        /\ exists wt,
             first_failure
               [step_ready; step_settle cfg; _ADC1_compute_vrefint;
                step_vmcu cfg] w = Done ADC_SUCCESS wt
             /\ _ADC1_compute_tmcu cfg wt = Undefined SignedOverflow)).
  { intros f E. apply perform_measurements_undef in E.
    change (acquisition_steps cfg)
      with ([step_ready; step_settle cfg; _ADC1_compute_vrefint]
            ++ [step_vmcu cfg; _ADC1_compute_tmcu cfg;
                _ADC1_compute_vusb cfg; _ADC1_compute_vrs cfg]) in E.
    apply first_failure_app_undef in E.
    destruct E as [E | (wb & Eb & E)];
      [exfalso; exact (bandgap_prefix_defined _ _ E) |].
    destruct (bandgap_prefix_effect cfg _ _ Eb) as (Hdb & _).
    apply first_failure_cons_undef in E.
    destruct E as [E | (wt & Et & E)].
    - unfold step_vmcu in E. apply bind_undef_inv in E.
      destruct E as [E | (u & w1 & _ & E)]; [| discriminate E].
      apply compute_vmcu_undef in E.
      destruct E as [(-> & Hz) | (_ & Hlen)]; [| rewrite Hdb in Hlen; lia].
      left. split; [reflexivity |]. exists wb. split; assumption.
    - assert (Ebt :
        first_failure
          [step_ready; step_settle cfg; _ADC1_compute_vrefint;
           step_vmcu cfg] w = Done ADC_SUCCESS wt).
      { change [step_ready; step_settle cfg; _ADC1_compute_vrefint;
                step_vmcu cfg]
          with ([step_ready; step_settle cfg; _ADC1_compute_vrefint]
                ++ [step_vmcu cfg]).
        rewrite (first_failure_app _ _ _ _ Eb), first_failure_single.
        exact Et. }
      unfold step_vmcu in Et. apply bind_done_inv in Et.
      destruct Et as (u & w1 & Ev & Et). inversion Et; subst w1.
      apply compute_vmcu_done in Ev.
      destruct Ev as (Hz & _ & _ & Hvt & _ & _ & Hdt).
      assert (Hlt : length (data (adc_ctx wt)) = ADC_DATA_INDEX_LAST cfg).
      { rewrite Hdt, length_insert, Hdb. exact Hwf. }
      apply first_failure_cons_undef in E.
      destruct E as [E | (wu & Eu & E)].
      + pose proof (compute_tmcu_undef wt f Hc
                      ltac:(rewrite Hlt; exact Hm) E) as ->.
        right. split; [reflexivity |]. exists wt. split; assumption.
      + exfalso. apply compute_tmcu_done in Eu.
        destruct Eu as (Hvu & Hdu & _).
        apply first_failure_cons_undef in E.
        destruct E as [E | (wv & Ev & E)].
        * rewrite compute_vusb_scaled in E.
          apply compute_scaled_defined in E; [exact E | congruence |].
          rewrite Hdu, Hlt. exact Hu.
        * rewrite first_failure_single in E.
          rewrite compute_vusb_scaled in Ev.
          destruct (compute_scaled_done cfg _ _ _ _ _ _ Ev) as (Hvv & _).
          pose proof (compute_scaled_frame _ _ _ _ _ _
                        (or_introl eq_refl) Ev) as (Hlv & _).
          rewrite compute_vrs_scaled in E.
          apply compute_scaled_defined in E; [exact E | congruence |].
          rewrite Hlv, Hdu, Hlt. exact Hr. }
  split; [| split].
  - intros E. destruct (Hall _ E) as [(Hf & _) | (Hf & _)]; discriminate.
  - split.
    + intros E. destruct (Hall _ E) as [(_ & H) | (Hf & _)];
        [exact H | discriminate].
    + intros (wb & Eb & Hz). apply perform_measurements_undef.
      change (acquisition_steps cfg)
        with ([step_ready; step_settle cfg; _ADC1_compute_vrefint]
              ++ [step_vmcu cfg; _ADC1_compute_tmcu cfg;
                  _ADC1_compute_vusb cfg; _ADC1_compute_vrs cfg]).
      rewrite (first_failure_app _ _ _ _ Eb).
      cbn [first_failure]. unfold step_vmcu, bind.
      rewrite (compute_vmcu_zero cfg _ Hz). reflexivity.
  - split.
    + intros E. destruct (Hall _ E) as [(Hf & _) | (_ & H)];
        [discriminate | exact H].
    + intros (wt & Et & Eo). apply perform_measurements_undef.
      change (acquisition_steps cfg)
        with ([step_ready; step_settle cfg; _ADC1_compute_vrefint;
               step_vmcu cfg]
              ++ [_ADC1_compute_tmcu cfg; _ADC1_compute_vusb cfg;
                  _ADC1_compute_vrs cfg]).
      rewrite (first_failure_app _ _ _ _ Et).
      cbn [first_failure]. unfold bind. rewrite Eo. reflexivity.
Qed.

(** *** Failure before the bandgap reading *)

Lemma first_failure_app_failure (l1 l2 : list (M ADC_status_t)) :
  forall w status w1,
    first_failure l1 w = Done status w1 ->
    status <> ADC_SUCCESS ->
    first_failure (l1 ++ l2) w = Done status w1.
Proof.
  induction l1 as [| step l1 IH]; intros w status w1 E Hst.
  - inversion E; subst. contradiction.
  - apply first_failure_cons_inv in E.
    destruct E as (st1 & w2 & E1 & [(-> & E) | (Hne & -> & ->)]);
      cbn [app first_failure]; rewrite (bind_done_l _ _ _ _ _ E1).
    + apply IH; assumption.
    + destruct st1; [contradiction | reflexivity ..].
Qed.

Lemma bandgap_prefix_failure (w wb : world HW) status :
  first_failure [step_ready; step_settle cfg; _ADC1_compute_vrefint] w
    = Done status wb ->
  status <> ADC_SUCCESS ->
  adc_ctx wb = adc_ctx w.
Proof.
  intros E Hst.
  apply first_failure_cons_inv in E.
  destruct E as (st1 & w1 & E1 & [(-> & E) | (_ & -> & ->)]);
    pose proof (keeps_done _ _ _ _ _ same_ctx_step_ready E1) as C1;
    unfold same_ctx in C1; [| exact C1].
  apply first_failure_cons_inv in E.
  destruct E as (st2 & w2 & E2 & [(-> & E) | (_ & -> & ->)]);
    pose proof (keeps_done _ _ _ _ _ (same_ctx_step_settle cfg) E2) as C2;
    unfold same_ctx in C2; [| congruence].
  rewrite first_failure_single in E.
  destruct (compute_vrefint_returns w2) as (st & w3 & E3 & _ & _ & _ & Hko).
  rewrite E in E3. inversion E3; subst st w3.
  rewrite (Hko Hst). congruence.
Qed.

(** X7: If the converter does not get ready, the settling delay fails or the
    bandgap conversion fails, the pass returns that status after the
    teardown and leaves the whole driver context as it was: no stale
    bandgap reading, supply voltage or temperature is replaced. *)
Theorem bandgap_failure_keeps_context (w wb : world HW) status :
  first_failure [step_ready; step_settle cfg; _ADC1_compute_vrefint] w
    = Done status wb ->
  status <> ADC_SUCCESS ->
  exists w',
    ADC1_perform_measurements cfg w = Done status w'
    /\ adc_ctx w' = adc_ctx w.
Proof.
  intros E Hst.
  pose proof (bandgap_prefix_failure _ _ _ E Hst) as C.
  pose proof (first_failure_app_failure _
                [step_vmcu cfg; _ADC1_compute_tmcu cfg;
                 _ADC1_compute_vusb cfg; _ADC1_compute_vrs cfg]
                _ _ _ E Hst) as Eall.
  change ([step_ready; step_settle cfg; _ADC1_compute_vrefint]
          ++ [step_vmcu cfg; _ADC1_compute_tmcu cfg;
              _ADC1_compute_vusb cfg; _ADC1_compute_vrs cfg])
    with (acquisition_steps cfg) in Eall.
  rewrite perform_measurements_unfold, Eall.
  destruct (teardown_done cfg wb) as (w' & ccr & cr & Et & Htr & Hc).
  rewrite (bind_done_l _ _ _ _ _ Et).
  exists w'. split; [reflexivity | congruence].
Qed.

(** *** The supply voltage and the scaled inputs of a pass *)

(** The bandgap step stores the result of its filtered conversion. *)
Lemma compute_vrefint_run (wa wb : world HW) vref :
  _ADC1_filtered_conversion ADC_CHANNEL_VREFINT
    (Some (vrefint_12bits (adc_ctx wa))) wa
    = Done (ADC_SUCCESS, Some vref) wb ->
  _ADC1_compute_vrefint wa
  = Done ADC_SUCCESS
      (with_ctx {| vrefint_12bits := vref; data := data (adc_ctx wa);
                   tmcu_degrees := tmcu_degrees (adc_ctx wa) |} wb).
Proof.
  intros E. unfold _ADC1_compute_vrefint, get_ctx. unfold bind at 1.
  rewrite (bind_done_l _ _ _ _ _ E). reflexivity.
Qed.

Lemma bandgap_stored (w wa wb : world HW) vref :
  first_failure [step_ready; step_settle cfg] w = Done ADC_SUCCESS wa ->
  _ADC1_filtered_conversion ADC_CHANNEL_VREFINT
    (Some (vrefint_12bits (adc_ctx wa))) wa
    = Done (ADC_SUCCESS, Some vref) wb ->
  first_failure [step_ready; step_settle cfg; _ADC1_compute_vrefint] w
  = Done ADC_SUCCESS
      (with_ctx {| vrefint_12bits := vref; data := data (adc_ctx wa);
                   tmcu_degrees := tmcu_degrees (adc_ctx wa) |} wb).
Proof.
  intros E1 E2.
  change [step_ready; step_settle cfg; _ADC1_compute_vrefint]
    with ([step_ready; step_settle cfg] ++ [_ADC1_compute_vrefint]).
  rewrite (first_failure_app _ _ _ _ E1), first_failure_single.
  apply compute_vrefint_run, E2.
Qed.

(** The steps of a pass keep the length of the data array. *)
Lemma prefix_length (l1 l2 : list (M ADC_status_t)) (w : world HW) status w1 :
  acquisition_steps cfg = l1 ++ l2 ->
  first_failure l1 w = Done status w1 ->
  length (data (adc_ctx w1)) = length (data (adc_ctx w)).
Proof.
  intros Hl E.
  pose proof acquisition_frame as Hf. rewrite Hl in Hf.
  apply List.Forall_app in Hf. destruct Hf as (Hf & _).
  exact (proj1 (first_failure_rel pass_frame _ Hf _ _ _ E)).
Qed.

(** On a 12-bit converter a filtered reading is a 12-bit value. *)
Lemma filtered_reading_12bits adc_channel slot (w : world HW) raw w1 :
  (forall h, wrap32 (fst (hw_read ADC1_DR h)) <= 4095) ->
  _ADC1_filtered_conversion adc_channel slot w
    = Done (ADC_SUCCESS, Some raw) w1 ->
  0 <= raw <= 4095.
Proof.
  intros Hdr E.
  destruct (filtered_conversion_returns adc_channel slot w)
    as (st & r & x & E' & _ & _ & Hok & _).
  rewrite E in E'. inversion E'; subst st r x.
  destruct (Hok eq_refl) as (v & Hv & Hfrom). inversion Hv; subst v.
  exact (filtered_from_12bits _ _ _ _ Hdr Hfrom).
Qed.

(** A scaled-input step whose filtered conversion succeeds, run with a
    non-zero bandgap reading: it succeeds and stores the quotient in its
    slot. *)
Lemma compute_scaled_run adc_channel idx (w : world HW) raw w1 :
  calib_ok cfg = true ->
  (forall h, wrap32 (fst (hw_read ADC1_DR h)) <= 4095) ->
  _ADC1_filtered_conversion adc_channel (Some 0) w
    = Done (ADC_SUCCESS, Some raw) w1 ->
  vrefint_12bits (adc_ctx w) <> 0 ->
  (idx < length (data (adc_ctx w)))%nat ->
  exists w',
    compute_scaled cfg adc_channel 2 idx w = Done ADC_SUCCESS w'
    /\ vrefint_12bits (adc_ctx w') = vrefint_12bits (adc_ctx w)
    /\ length (data (adc_ctx w')) = length (data (adc_ctx w))
    /\ data (adc_ctx w') !! idx
       = Some ((ADC_VREFINT_VOLTAGE_MV cfg * raw * 2)
               / vrefint_12bits (adc_ctx w)).
Proof.
  intros Hc Hdr E Hz Hi.
  pose proof (filtered_reading_12bits _ _ _ _ _ Hdr E) as Hraw.
  pose proof (keeps_done _ _ _ _ _
                (same_ctx_filtered_conversion _ _) E) as C.
  unfold same_ctx in C.
  assert (Erun : exists w',
    compute_scaled cfg adc_channel 2 idx w = Done ADC_SUCCESS w'
    /\ adc_ctx w'
       = {| vrefint_12bits := vrefint_12bits (adc_ctx w);
            data := <[idx := (wrap32 (wrap32 (ADC_VREFINT_VOLTAGE_MV cfg
                                              * raw) * 2)
                              / vrefint_12bits (adc_ctx w))%Z]>
                      (data (adc_ctx w));
            tmcu_degrees := tmcu_degrees (adc_ctx w) |}).
  { unfold compute_scaled. rewrite (bind_done_l _ _ _ _ _ E).
    cbn beta iota. unfold scaled_input_mv. unfold_pure. rewrite !C.
    apply Z.eqb_neq in Hz. rewrite Hz. cbn [adc_ctx]. rewrite ?C.
    apply Nat.ltb_lt in Hi. rewrite Hi.
    eexists. split; [reflexivity |]. cbn. rewrite ?C. reflexivity. }
  destruct Erun as (w' & Erun & Hctx).
  exists w'. split; [exact Erun |]. rewrite Hctx. cbn.
  split; [reflexivity |]. split; [apply length_insert |].
  rewrite list_lookup_insert_eq by exact Hi.
  rewrite (scaled_product_exact cfg raw Hc Hraw). reflexivity.
Qed.

(** A scaled-input step run with a non-zero bandgap reading and an
    existing slot returns. *)
Lemma compute_scaled_returns adc_channel ratio idx (w : world HW) :
  vrefint_12bits (adc_ctx w) <> 0 ->
  (idx < length (data (adc_ctx w)))%nat ->
  exists status w',
    compute_scaled cfg adc_channel ratio idx w = Done status w'.
Proof.
  intros Hz Hi.
  destruct (compute_scaled cfg adc_channel ratio idx w)
    as [st w' | f |] eqn:E.
  - exists st, w'. reflexivity.
  - exfalso. exact (compute_scaled_defined _ _ _ _ _ Hz Hi E).
  - exfalso. exact (fuel_ok_compute_scaled cfg _ _ _ _ E).
Qed.

(** What a pass returns, from the outcome of its steps. *)
Lemma perform_measurements_returns (w : world HW) status w1 :
  first_failure (acquisition_steps cfg) w = Done status w1 ->
  exists w',
    ADC1_perform_measurements cfg w = Done status w'
    /\ adc_ctx w' = adc_ctx w1.
Proof.
  intros E. rewrite perform_measurements_unfold, E.
  destruct (teardown_done cfg w1) as (w' & ccr & cr & Et & _ & C).
  rewrite (bind_done_l _ _ _ _ _ Et).
  exists w'. split; [reflexivity | exact C].
Qed.

(** C3: the supply-voltage derivation of a call whose bandgap acquisition
    has succeeded, leaving the state [wb].  If the bandgap reading is not
    zero, the derivation runs on [wb] without any input or output, does not
    fail, and stores [(VREFINT_CAL * VREFINT_VCC_CALIB_MV) /
    vrefint_12bits], the integer quotient by the bandgap reading of that
    call; the value is still stored, with the reading, when the call
    returns.  If the reading is zero, the derivation divides by zero: it has
    no result, and neither has the call. *)
Theorem supply_voltage_derivation (w wb : world HW) :
  ctx_wf cfg (adc_ctx w) ->
  layout_ok cfg = true ->
  calib_ok cfg = true ->
  first_failure [step_ready; step_settle cfg; _ADC1_compute_vrefint] w
    = Done ADC_SUCCESS wb ->
  (vrefint_12bits (adc_ctx wb) <> 0 ->
   exists wc,
     _ADC1_compute_vmcu cfg wb = Done tt wc
     /\ hw wc = hw wb /\ trace wc = trace wb
     /\ vrefint_12bits (adc_ctx wc) = vrefint_12bits (adc_ctx wb)
     /\ data (adc_ctx wc) !! ADC_DATA_INDEX_VMCU_MV cfg
        = Some (supply_formula cfg (vrefint_12bits (adc_ctx wb)))
     /\ forall status w',
          ADC1_perform_measurements cfg w = Done status w' ->
          vrefint_12bits (adc_ctx w') = vrefint_12bits (adc_ctx wb)
          /\ data (adc_ctx w') !! ADC_DATA_INDEX_VMCU_MV cfg
             = Some (supply_formula cfg (vrefint_12bits (adc_ctx wb))))
  /\ (vrefint_12bits (adc_ctx wb) = 0 ->
      _ADC1_compute_vmcu cfg wb = Undefined DivisionByZero
      /\ ADC1_perform_measurements cfg w = Undefined DivisionByZero).
Proof.
  intros Hwf Hl Hc Hb. unfold ctx_wf in Hwf.
  destruct (layout_ok_true cfg Hl) as (Hm & _).
  destruct (bandgap_prefix_effect cfg _ _ Hb) as (Hdb & _).
  split.
  - intros Hz.
    destruct (compute_vmcu_defined cfg wb Hz
                ltac:(rewrite Hdb, Hwf; exact Hm)) as (wc & Ev).
    pose proof (compute_vmcu_done cfg _ _ _ Ev)
      as (_ & Hhw & Htr & Hv & _ & Hi & Hd).
    assert (Hslot :
      data (adc_ctx wc) !! ADC_DATA_INDEX_VMCU_MV cfg
      = Some (supply_formula cfg (vrefint_12bits (adc_ctx wb)))).
    { rewrite Hd, list_lookup_insert_eq by exact Hi.
      unfold supply_formula.
      rewrite wrap32_small
        by (pose proof (calib_product_range cfg Hc); pow_const; lia).
      reflexivity. }
    exists wc. split; [exact Ev |]. split; [exact Hhw |].
    split; [exact Htr |]. split; [exact Hv |]. split; [exact Hslot |].
    intros status w' Hp.
    apply perform_measurements_done in Hp. destruct Hp as (w1 & E & C).
    change (acquisition_steps cfg)
      with ([step_ready; step_settle cfg; _ADC1_compute_vrefint]
            ++ [step_vmcu cfg; _ADC1_compute_tmcu cfg;
                _ADC1_compute_vusb cfg; _ADC1_compute_vrs cfg]) in E.
    rewrite (first_failure_app _ _ _ _ Hb) in E.
    cbn [first_failure] in E. unfold step_vmcu at 1 in E.
    rewrite bind_assoc, (bind_done_l _ _ _ _ _ Ev), bind_ret_l in E.
    destruct (after_supply_effect cfg _ _ _ Hl E) as (Hv' & Hd').
    rewrite C. split; [congruence |]. rewrite Hd'. exact Hslot.
  - intros Hz.
    pose proof (compute_vmcu_zero cfg wb Hz) as Ev.
    split; [exact Ev |].
    apply perform_measurements_undef.
    change (acquisition_steps cfg)
      with ([step_ready; step_settle cfg; _ADC1_compute_vrefint]
            ++ [step_vmcu cfg; _ADC1_compute_tmcu cfg;
                _ADC1_compute_vusb cfg; _ADC1_compute_vrs cfg]).
    rewrite (first_failure_app _ _ _ _ Hb).
    cbn [first_failure]. unfold step_vmcu, bind. rewrite Ev. reflexivity.
Qed.

(** The state in which the steps that follow the bandgap step run: the
    bandgap reading is the stored one and is not zero, and the data array
    has its slots. *)
Lemma after_bandgap (rest : list (M ADC_status_t)) (w wa wb : world HW)
    vref ws :
  ctx_wf cfg (adc_ctx w) ->
  first_failure [step_ready; step_settle cfg] w = Done ADC_SUCCESS wa ->
  _ADC1_filtered_conversion ADC_CHANNEL_VREFINT
    (Some (vrefint_12bits (adc_ctx wa))) wa
    = Done (ADC_SUCCESS, Some vref) wb ->
  (exists tail,
     acquisition_steps cfg
     = ([step_ready; step_settle cfg; _ADC1_compute_vrefint;
         step_vmcu cfg; _ADC1_compute_tmcu cfg] ++ rest) ++ tail) ->
  Forall (fun step : M ADC_status_t =>
            forall x status x',
              step x = Done status x' ->
              vrefint_12bits (adc_ctx x') = vrefint_12bits (adc_ctx x)) rest ->
  first_failure
    ([step_ready; step_settle cfg; _ADC1_compute_vrefint; step_vmcu cfg;
      _ADC1_compute_tmcu cfg] ++ rest) w = Done ADC_SUCCESS ws ->
  vref <> 0
  /\ vrefint_12bits (adc_ctx ws) = vref
  /\ length (data (adc_ctx ws)) = ADC_DATA_INDEX_LAST cfg.
Proof.
  intros Hwf E1 E2 (tail & Htail) Hrest E. unfold ctx_wf in Hwf.
  pose proof (prefix_length _ _ _ _ _ Htail E) as Hlen.
  pose proof (bandgap_stored _ _ _ _ E1 E2) as Eb.
  change ([step_ready; step_settle cfg; _ADC1_compute_vrefint;
           step_vmcu cfg; _ADC1_compute_tmcu cfg] ++ rest)
    with ([step_ready; step_settle cfg; _ADC1_compute_vrefint]
          ++ [step_vmcu cfg; _ADC1_compute_tmcu cfg] ++ rest) in E.
  rewrite (first_failure_app _ _ _ _ Eb) in E.
  apply first_failure_cons_inv in E.
  destruct E as (st1 & wc & Ec & [(-> & E) | (Hne & Hst & _)]);
    [| congruence].
  unfold step_vmcu in Ec. apply bind_done_inv in Ec.
  destruct Ec as (u & wc' & Ev & Er). inversion Er; subst wc'.
  apply compute_vmcu_done in Ev.
  destruct Ev as (Hz & _ & _ & Hvc & _).
  apply first_failure_cons_inv in E.
  destruct E as (st2 & wt & Et & [(-> & E) | (Hne & Hst & _)]);
    [| congruence].
  apply compute_tmcu_done in Et. destruct Et as (Hvt & _ & _).
  assert (Hvs : vrefint_12bits (adc_ctx ws) = vrefint_12bits (adc_ctx wt)).
  { assert (Hpre : PreOrder
                     (fun x x' : world HW =>
                        vrefint_12bits (adc_ctx x')
                        = vrefint_12bits (adc_ctx x))).
    { split; [intros x; reflexivity |].
      intros x y z Hxy Hyz. congruence. }
    exact (first_failure_rel _ (R_preorder := Hpre) rest Hrest _ _ _ E). }
  cbn in Hz, Hvc. split; [exact Hz |].
  split; [congruence | congruence].
Qed.

(** C4, as amended.  [ADC_VREFINT_VOLTAGE_MV] is the constant
    [(VREFINT_CAL * VREFINT_VCC_CALIB_MV) / 4095]: the quotient of step 5
    taken at the full-scale code, not at the bandgap reading.  In a call
    on a 12-bit converter whose bandgap conversion delivers [vref]:
    whenever the steps before the USB step succeed and the filtered USB
    conversion of the call delivers [raw_usb], the call returns, whatever
    the resistor step then does, and the USB slot holds
    [(ADC_VREFINT_VOLTAGE_MV * raw_usb * 2) / vref]; whenever the steps
    before the resistor step succeed and the filtered resistor conversion
    of the call delivers [raw_rs], the call succeeds and the resistor slot
    holds [(ADC_VREFINT_VOLTAGE_MV * raw_rs * 2) / vref].  In both cases
    [vref] is not zero and is the bandgap reading that the call leaves
    stored. *)
Theorem scaled_inputs_stored (w wa wb : world HW) vref :
  ctx_wf cfg (adc_ctx w) ->
  layout_ok cfg = true ->
  calib_ok cfg = true ->
  (forall h, wrap32 (fst (hw_read ADC1_DR h)) <= 4095) ->
  first_failure [step_ready; step_settle cfg] w = Done ADC_SUCCESS wa ->
  _ADC1_filtered_conversion ADC_CHANNEL_VREFINT
    (Some (vrefint_12bits (adc_ctx wa))) wa
    = Done (ADC_SUCCESS, Some vref) wb ->
  ADC_VREFINT_VOLTAGE_MV cfg
  = (VREFINT_CAL cfg * VREFINT_VCC_CALIB_MV cfg) / 4095
  /\ (forall wt raw_usb w2,
        first_failure
          [step_ready; step_settle cfg; _ADC1_compute_vrefint;
           step_vmcu cfg; _ADC1_compute_tmcu cfg] w = Done ADC_SUCCESS wt ->
        _ADC1_filtered_conversion ADC_CHANNEL_VUSB (Some 0) wt
          = Done (ADC_SUCCESS, Some raw_usb) w2 ->
        vref <> 0
        /\ exists status w',
             ADC1_perform_measurements cfg w = Done status w'
             /\ vrefint_12bits (adc_ctx w') = vref
             /\ data (adc_ctx w') !! ADC_DATA_INDEX_VUSB_MV cfg
                = Some ((ADC_VREFINT_VOLTAGE_MV cfg * raw_usb
                         * ADC_VOLTAGE_DIVIDER_RATIO_VUSB) / vref))
  /\ (forall wu raw_rs w3,
        first_failure
          [step_ready; step_settle cfg; _ADC1_compute_vrefint;
           step_vmcu cfg; _ADC1_compute_tmcu cfg; _ADC1_compute_vusb cfg] w
          = Done ADC_SUCCESS wu ->
        _ADC1_filtered_conversion ADC_CHANNEL_VRS (Some 0) wu
          = Done (ADC_SUCCESS, Some raw_rs) w3 ->
        vref <> 0
        /\ exists w',
             ADC1_perform_measurements cfg w = Done ADC_SUCCESS w'
             /\ vrefint_12bits (adc_ctx w') = vref
             /\ data (adc_ctx w') !! ADC_DATA_INDEX_VRS_MV cfg
                = Some ((ADC_VREFINT_VOLTAGE_MV cfg * raw_rs
                         * ADC_VOLTAGE_DIVIDER_RATIO_VRS) / vref)).
Proof.
  intros Hwf Hl Hc Hdr E1 E2.
  destruct (layout_ok_true cfg Hl) as (_ & Hu & Hr & _ & _ & Hur).
  split; [apply (vrefint_voltage_range cfg), Hc |]. split.
  - intros wt raw_usb w2 Et Eraw.
    destruct (after_bandgap [] w wa wb vref wt Hwf E1 E2
                ltac:(exists [_ADC1_compute_vusb cfg; _ADC1_compute_vrs cfg];
                      reflexivity)
                ltac:(constructor) Et) as (Hz & Hv & Hlen).
    split; [exact Hz |].
    destruct (compute_scaled_run ADC_CHANNEL_VUSB
                (ADC_DATA_INDEX_VUSB_MV cfg) wt raw_usb w2 Hc Hdr Eraw
                ltac:(rewrite Hv; exact Hz) ltac:(rewrite Hlen; exact Hu))
      as (wu & Eu & Hvu & Hlu & Hdu).
    destruct (compute_scaled_returns ADC_CHANNEL_VRS
                ADC_VOLTAGE_DIVIDER_RATIO_VRS (ADC_DATA_INDEX_VRS_MV cfg) wu
                ltac:(rewrite Hvu, Hv; exact Hz)
                ltac:(rewrite Hlu, Hlen; exact Hr))
      as (status & wv & Ev).
    destruct (compute_scaled_effect cfg _ _ _ _ _ _ Ev) as (Hvv & _ & Hdv).
    assert (Eall : first_failure (acquisition_steps cfg) w = Done status wv).
    { change (acquisition_steps cfg)
        with ([step_ready; step_settle cfg; _ADC1_compute_vrefint;
               step_vmcu cfg; _ADC1_compute_tmcu cfg]
              ++ [_ADC1_compute_vusb cfg; _ADC1_compute_vrs cfg]).
      rewrite (first_failure_app _ _ _ _ Et).
      cbn [first_failure]. rewrite compute_vusb_scaled.
      change ADC_VOLTAGE_DIVIDER_RATIO_VUSB with 2.
      rewrite (bind_done_l _ _ _ _ _ Eu).
      rewrite compute_vrs_scaled, (bind_done_l _ _ _ _ _ Ev).
      destruct status; reflexivity. }
    destruct (perform_measurements_returns _ _ _ Eall) as (w' & Ep & C).
    exists status, w'. split; [exact Ep |]. rewrite C.
    split; [congruence |].
    rewrite (Hdv (ADC_DATA_INDEX_VUSB_MV cfg) Hur), Hdu, Hv.
    reflexivity.
  - intros wu raw_rs w3 Eu Eraw.
    destruct (after_bandgap [_ADC1_compute_vusb cfg] w wa wb vref wu
                Hwf E1 E2
                ltac:(exists [_ADC1_compute_vrs cfg]; reflexivity)
                ltac:(constructor; [| constructor];
                      intros x status x' Ex;
                      rewrite compute_vusb_scaled in Ex;
                      exact (proj1 (compute_scaled_effect cfg _ _ _ _ _ _ Ex)))
                Eu) as (Hz & Hv & Hlen).
    split; [exact Hz |].
    destruct (compute_scaled_run ADC_CHANNEL_VRS
                (ADC_DATA_INDEX_VRS_MV cfg) wu raw_rs w3 Hc Hdr Eraw
                ltac:(rewrite Hv; exact Hz) ltac:(rewrite Hlen; exact Hr))
      as (wv & Ev & Hvv & _ & Hdv).
    assert (Eall :
      first_failure (acquisition_steps cfg) w = Done ADC_SUCCESS wv).
    { change (acquisition_steps cfg)
        with ([step_ready; step_settle cfg; _ADC1_compute_vrefint;
               step_vmcu cfg; _ADC1_compute_tmcu cfg;
               _ADC1_compute_vusb cfg]
              ++ [_ADC1_compute_vrs cfg]).
      rewrite (first_failure_app _ _ _ _ Eu), first_failure_single.
      rewrite compute_vrs_scaled.
      change ADC_VOLTAGE_DIVIDER_RATIO_VRS with 2. exact Ev. }
    destruct (perform_measurements_returns _ _ _ Eall) as (w' & Ep & C).
    exists w'. split; [exact Ep |]. rewrite C.
    split; [congruence |]. rewrite Hdv, Hv. reflexivity.
Qed.

End Pass.

(** ** Further properties of the initialisation *)

Section Init.

Context {HW : Type} {dev : Device HW}.
Variable cfg : ADC_config.

Local Abbreviation M := (exec HW).
Local Abbreviation quiet := (@quiet HW).

#[local] Existing Instance quiet_preorder.

Lemma reg_read_trace r (w : world HW) :
  exists v w',
    reg_read r w = Done v w'
    /\ trace w' = EvRead r v :: trace w
    /\ adc_ctx w' = adc_ctx w.
Proof.
  unfold reg_read. destruct (hw_read r (hw w)) as [v h].
  eexists _, _. split; [reflexivity |]. split; reflexivity.
Qed.

Lemma delay_trace ms sm (w : world HW) :
  exists l w',
    LPTIM1_delay_milliseconds ms sm w = Done l w'
    /\ trace w' = EvDelay ms sm l :: trace w
    /\ adc_ctx w' = adc_ctx w.
Proof.
  unfold LPTIM1_delay_milliseconds.
  destruct (hw_delay_milliseconds ms sm (hw w)) as [l h].
  eexists _, _. split; [reflexivity |]. split; reflexivity.
Qed.

Lemma calibration_running_trace (w : world HW) b w' :
  calibration_running w = Done b w' ->
  exists polls,
    trace w' = polls ++ trace w /\ Forall calibration_poll polls
    /\ polls <> [].
Proof.
  unfold calibration_running. intros E.
  apply bind_done_inv in E. destruct E as (v & w1 & E1 & E).
  destruct (reg_read_trace ADC1_CR w) as (v' & w1' & E1' & T1 & _).
  rewrite E1 in E1'. inversion E1'; subst v' w1'.
  destruct (Z.land v (Z.shiftl 1 31) =? 0).
  - inversion E; subst. exists [EvRead ADC1_CR v].
    split; [exact T1 |]. split; [| discriminate].
    constructor; [| constructor]. exists v. left. reflexivity.
  - unfold isr_flag_clear in E. apply bind_done_inv in E.
    destruct E as (i & w2 & E2 & E).
    destruct (reg_read_trace ADC1_ISR w1) as (i' & w2' & E2' & T2 & _).
    rewrite E2 in E2'. inversion E2'; subst i' w2'. inversion E; subst.
    exists [EvRead ADC1_ISR i; EvRead ADC1_CR v].
    split; [rewrite T2, T1; reflexivity |]. split; [| discriminate].
    constructor; [exists i; right; reflexivity |].
    constructor; [exists v; left; reflexivity | constructor].
Qed.

Lemma wait_while_calibration_trace on_timeout :
  forall fuel loop_count (w : world HW) status n w',
    wait_while fuel calibration_running on_timeout loop_count w
      = Done (status, n) w' ->
    exists polls,
      trace w' = polls ++ trace w /\ Forall calibration_poll polls
      /\ polls <> [].
Proof.
  induction fuel as [|fuel IH]; intros lc w st n w' E.
  - discriminate.
  - cbn [wait_while] in E. apply bind_done_inv in E.
    destruct E as (b & w1 & E1 & E2).
    apply calibration_running_trace in E1.
    destruct E1 as (p1 & T1 & F1 & N1).
    destruct b.
    + destruct (wrap32 (lc + 1) >? ADC_TIMEOUT_COUNT).
      * inversion E2; subst. exists p1. repeat split; assumption.
      * apply IH in E2. destruct E2 as (p2 & T2 & F2 & _).
        exists (p2 ++ p1). rewrite T2, T1, <- app_assoc.
        split; [reflexivity |]. split; [apply Forall_app; split; assumption |].
        destruct p2; [exact N1 | discriminate].
    + inversion E2; subst. exists p1. repeat split; assumption.
Qed.

(** X8: The register protocol of [ADC1_init].  After the context, the pins
    are configured, the peripheral clock is enabled, the converter is
    disabled if and only if ADEN reads as set, the voltage regulator is
    enabled and the driver waits 5 ms.  If the delay fails, its error is
    returned on the LPTIM base and nothing more is done to the device.
    Otherwise the clock and the sampling time are configured, ADCAL is set
    and only the control and status registers are polled; the status is
    then success or the calibration error. *)
Theorem init_protocol (w : world HW) :
  ctx_wf cfg (adc_ctx w) ->
  layout_ok cfg = true ->
  exists status w' l apb cr0 cr1 disable post,
    ADC1_init cfg w = Done status w'
    /\ trace w'
       = post
         ++ [EvDelay 5 0 l;
             EvWrite ADC1_CR (Z.lor cr1 (Z.shiftl 1 28)); EvRead ADC1_CR cr1]
         ++ disable
         ++ [EvRead ADC1_CR cr0;
             EvWrite RCC_APB2ENR (Z.lor apb (Z.shiftl 1 9));
             EvRead RCC_APB2ENR apb]
         ++ init_gpio_events cfg ++ trace w
    /\ (Z.land cr0 1 = 0 /\ disable = []
        \/ Z.land cr0 1 <> 0
           /\ exists cr, disable = [EvWrite ADC1_CR (Z.lor cr 2);
                                    EvRead ADC1_CR cr])
    /\ (l <> LPTIM_SUCCESS /\ status = ADC_ERROR_BASE_LPTIM l /\ post = []
        \/ l = LPTIM_SUCCESS
           /\ (status = ADC_SUCCESS \/ status = ADC_ERROR_CALIBRATION)
           /\ exists polls cr2 smpr cfgr2,
                post = polls
                       ++ [EvWrite ADC1_CR (Z.lor cr2 (Z.shiftl 1 31));
                           EvRead ADC1_CR cr2;
                           EvWrite ADC1_SMPR (Z.lor smpr 7);
                           EvRead ADC1_SMPR smpr;
                           EvWrite ADC1_CFGR2 (Z.lor cfgr2 (Z.shiftl 1 30));
                           EvRead ADC1_CFGR2 cfgr2]
                /\ Forall calibration_poll polls /\ polls <> []).
Proof.
  intros Hwf Hl. destruct (layout_ok_true cfg Hl) as (Hi & _).
  pose proof (init_context_done cfg w Hwf Hi) as E0.
  set (w0 := with_ctx (reset_ctx cfg) w) in E0.
  assert (Eg : exists w3,
    forall A (k : M A),
      (GPIO_configure GPIO_ADC1_IN4 GPIO_MODE_ANALOG GPIO_TYPE_OPEN_DRAIN
         GPIO_SPEED_LOW GPIO_PULL_NONE ;;;
       GPIO_configure GPIO_ADC1_IN5 GPIO_MODE_ANALOG GPIO_TYPE_OPEN_DRAIN
         GPIO_SPEED_LOW GPIO_PULL_NONE ;;;
       (if HW1_1 cfg then
          GPIO_configure GPIO_MNTR_EN GPIO_MODE_OUTPUT GPIO_TYPE_PUSH_PULL
            GPIO_SPEED_LOW GPIO_PULL_NONE
        else ret tt) ;;; k) w0 = k w3
      /\ trace w3 = init_gpio_events cfg ++ trace w).
  { unfold init_gpio_events. destruct (HW1_1 cfg); eexists; intros A k;
      (split; [reflexivity | reflexivity]). }
  destruct Eg as (w3 & Eg).
  destruct (reg_or_trace RCC_APB2ENR (Z.shiftl 1 9) w3)
    as (apb & w4 & E4 & T4 & _).
  destruct (reg_read_trace ADC1_CR w4) as (cr0 & w5 & E5 & T5 & _).
  assert (Ed : exists disable w6,
    (if Z.land cr0 (Z.shiftl 1 0) =? 0 then ret tt
     else reg_or ADC1_CR (Z.shiftl 1 1)) w5 = Done tt w6
    /\ trace w6 = disable ++ trace w5
    /\ (Z.land cr0 1 = 0 /\ disable = []
        \/ Z.land cr0 1 <> 0
           /\ exists cr, disable = [EvWrite ADC1_CR (Z.lor cr 2);
                                    EvRead ADC1_CR cr])).
  { change (Z.shiftl 1 0) with 1.
    destruct (Z.land cr0 1 =? 0) eqn:Hen.
    - exists [], w5. split; [reflexivity |]. split; [reflexivity |].
      left. split; [apply Z.eqb_eq, Hen | reflexivity].
    - destruct (reg_or_trace ADC1_CR (Z.shiftl 1 1) w5)
        as (cr & w6 & E6 & T6 & _).
      exists [EvWrite ADC1_CR (Z.lor cr 2); EvRead ADC1_CR cr], w6.
      split; [exact E6 |]. split; [exact T6 |].
      right. split; [apply Z.eqb_neq, Hen | exists cr; reflexivity]. }
  destruct Ed as (disable & w6 & E6 & T6 & Hdis).
  destruct (reg_or_trace ADC1_CR (Z.shiftl 1 28) w6)
    as (cr1 & w7 & E7 & T7 & _).
  destruct (delay_trace 5 0 w7) as (l & w8 & E8 & T8 & _).
  assert (Etr : trace w8
    = [EvDelay 5 0 l;
       EvWrite ADC1_CR (Z.lor cr1 (Z.shiftl 1 28)); EvRead ADC1_CR cr1]
      ++ disable
      ++ [EvRead ADC1_CR cr0;
          EvWrite RCC_APB2ENR (Z.lor apb (Z.shiftl 1 9));
          EvRead RCC_APB2ENR apb]
      ++ init_gpio_events cfg ++ trace w).
  { rewrite T8, T7, T6, T5, T4. rewrite (proj2 (Eg _ (ret tt))).
    reflexivity. }
  assert (Erun : ADC1_init cfg w
    = match l with
      | LPTIM_SUCCESS =>
          (reg_or ADC1_CFGR2 (Z.shiftl 1 30) ;;;
           reg_or ADC1_SMPR (Z.shiftl 7 0) ;;;
           reg_or ADC1_CR (Z.shiftl 1 31) ;;;
           let* (status, _) :=
             wait_while poll_fuel calibration_running
               ADC_ERROR_CALIBRATION 0 in
           ret status) w8
      | _ => Done (ADC_ERROR_BASE_LPTIM l) w8
      end).
  { unfold ADC1_init.
    rewrite (bind_done_l _ _ _ _ _ E0).
    rewrite (proj1 (Eg _ _)).
    rewrite (bind_done_l _ _ _ _ _ E4).
    rewrite (bind_done_l _ _ _ _ _ E5).
    rewrite (bind_done_l _ _ _ _ _ E6).
    rewrite (bind_done_l _ _ _ _ _ E7).
    rewrite (bind_done_l _ _ _ _ _ E8).
    destruct l; reflexivity. }
  assert (Hcase : l = LPTIM_SUCCESS \/ l <> LPTIM_SUCCESS)
    by (destruct l; [left; reflexivity | right; discriminate ..]).
  destruct Hcase as [-> | Hl8].
  - destruct (reg_or_trace ADC1_CFGR2 (Z.shiftl 1 30) w8)
      as (cfgr2 & w9 & E9 & T9 & _).
    destruct (reg_or_trace ADC1_SMPR (Z.shiftl 7 0) w9)
      as (smpr & w10 & E10 & T10 & _).
    destruct (reg_or_trace ADC1_CR (Z.shiftl 1 31) w10)
      as (cr2 & w11 & E11 & T11 & _).
    destruct (wait_while_returns quiet calibration_running
                ADC_ERROR_CALIBRATION quiet_calibration_running
                poll_fuel 0 w11)
      as (st & n & w12 & E12 & _ & _ & Hst);
      [unfold ADC_TIMEOUT_COUNT; lia | apply poll_fuel_enough |].
    destruct (wait_while_calibration_trace _ _ _ _ _ _ _ E12)
      as (polls & T12 & F12 & N12).
    rewrite (bind_done_l _ _ _ _ _ E9) in Erun.
    rewrite (bind_done_l _ _ _ _ _ E10) in Erun.
    rewrite (bind_done_l _ _ _ _ _ E11) in Erun.
    rewrite (bind_done_l _ _ _ _ _ E12) in Erun.
    exists st, w12, LPTIM_SUCCESS, apb, cr0, cr1, disable.
    eexists. split; [exact Erun |].
    split; [rewrite T12, T11, T10, T9, Etr |].
    2: { split; [exact Hdis |]. right. split; [reflexivity |].
         split; [destruct Hst as [(-> & _) | (-> & _)]; [left | right];
                 reflexivity |].
         exists polls, cr2, smpr, cfgr2.
         split; [reflexivity |]. split; assumption. }
    rewrite <- app_assoc. reflexivity.
  - exists (ADC_ERROR_BASE_LPTIM l), w8, l, apb, cr0, cr1, disable, [].
    split; [rewrite Erun; destruct l; [contradiction | reflexivity ..] |].
    split; [exact Etr |]. split; [exact Hdis |].
    left. repeat split. exact Hl8.
Qed.

Lemma reset_ctx_lookup i :
  (ADC_DATA_INDEX_VMCU_MV cfg < ADC_DATA_INDEX_LAST cfg)%nat ->
  (i < ADC_DATA_INDEX_LAST cfg)%nat ->
  data (reset_ctx cfg) !! i
  = Some (if (i =? ADC_DATA_INDEX_VMCU_MV cfg)%nat
          then ADC_VMCU_DEFAULT_MV else 0).
Proof.
  intros Hm Hi. unfold reset_ctx. cbn [data].
  destruct (i =? ADC_DATA_INDEX_VMCU_MV cfg)%nat eqn:Heq.
  - apply Nat.eqb_eq in Heq. subst i.
    apply list_lookup_insert_eq. rewrite length_replicate. exact Hm.
  - apply Nat.eqb_neq in Heq.
    rewrite list_lookup_insert_ne by congruence.
    apply lookup_replicate_2. exact Hi.
Qed.

(** X9: What the getters deliver after an initialisation, whether it
    succeeded or not: [ADC1_get_data] returns the default supply voltage
    of 3300 mV for the supply-voltage index and 0 for every other valid
    index, and [ADC1_get_tmcu] returns 0 degrees; both report success and
    change nothing. *)
Theorem init_then_getters (w : world HW) data_idx old_data old_tmcu :
  ctx_wf cfg (adc_ctx w) ->
  layout_ok cfg = true ->
  (data_idx < ADC_DATA_INDEX_LAST cfg)%nat ->
  exists status w',
    ADC1_init cfg w = Done status w'
    /\ ADC1_get_data cfg data_idx (Some old_data) w'
       = Done (ADC_SUCCESS,
               Some (if (data_idx =? ADC_DATA_INDEX_VMCU_MV cfg)%nat
                     then 3300 else 0)) w'
    /\ ADC1_get_tmcu (Some old_tmcu) w' = Done (ADC_SUCCESS, Some 0) w'.
Proof.
  intros Hwf Hl Hidx. destruct (layout_ok_true cfg Hl) as (Hi & _).
  destruct (init_done cfg w Hwf Hi) as (status & w' & E & C).
  exists status, w'. split; [exact E |]. split.
  - unfold ADC1_get_data.
    replace (ADC_DATA_INDEX_LAST cfg <=? data_idx)%nat with false
      by (symmetry; apply Nat.leb_gt; exact Hidx).
    pose proof (reset_ctx_lookup data_idx Hi Hidx) as Hv.
    rewrite <- C in Hv.
    rewrite (bind_done_l _ _ _ _ _ (data_load_done _ _ _ Hv)).
    reflexivity.
  - unfold ADC1_get_tmcu, get_ctx, bind, ret. rewrite C. reflexivity.
Qed.

End Init.

(** ** The further properties on the scripted device *)

Lemma supply_voltage_derivation_witness :
  ctx_wf board_example (adc_ctx (boot (ready_device [])))
  /\ layout_ok board_example = true
  /\ calib_ok board_example = true
  /\ (exists wb,
        first_failure
          [step_ready; step_settle board_example; _ADC1_compute_vrefint]
          (boot (ready_device [])) = Done ADC_SUCCESS wb
        /\ vrefint_12bits (adc_ctx wb) = 0
        /\ _ADC1_compute_vmcu board_example wb = Undefined DivisionByZero
        /\ ADC1_perform_measurements board_example (boot (ready_device []))
           = Undefined DivisionByZero)
  /\ (exists wb wc,
        first_failure
          [step_ready; step_settle board_example; _ADC1_compute_vrefint]
          (boot (ready_device nominal_samples)) = Done ADC_SUCCESS wb
        /\ vrefint_12bits (adc_ctx wb) <> 0
        /\ _ADC1_compute_vmcu board_example wb = Done tt wc
        /\ hw wc = hw wb /\ trace wc = trace wb
        /\ vrefint_12bits (adc_ctx wc) = vrefint_12bits (adc_ctx wb)
        /\ data (adc_ctx wc) !! ADC_DATA_INDEX_VMCU_MV board_example
           = Some (supply_formula board_example
                     (vrefint_12bits (adc_ctx wb)))
        /\ forall status w',
             ADC1_perform_measurements board_example
               (boot (ready_device nominal_samples)) = Done status w' ->
             vrefint_12bits (adc_ctx w') = vrefint_12bits (adc_ctx wb)
             /\ data (adc_ctx w') !! ADC_DATA_INDEX_VMCU_MV board_example
                = Some (supply_formula board_example
                          (vrefint_12bits (adc_ctx wb)))).
Proof.
  split; [reflexivity |]. split; [reflexivity |]. split; [reflexivity |].
  split.
  - assert (Hb : exists wb,
      first_failure
        [step_ready; step_settle board_example; _ADC1_compute_vrefint]
        (boot (ready_device [])) = Done ADC_SUCCESS wb
      /\ vrefint_12bits (adc_ctx wb) = 0).
    { eexists. split; [vm_compute; reflexivity | reflexivity]. }
    destruct Hb as (wb & Eb & Hz).
    destruct (supply_voltage_derivation board_example
                (boot (ready_device [])) wb eq_refl eq_refl eq_refl Eb)
      as (_ & Hzero).
    exists wb. split; [exact Eb |]. split; [exact Hz |]. exact (Hzero Hz).
  - assert (Hb : exists wb,
      first_failure
        [step_ready; step_settle board_example; _ADC1_compute_vrefint]
        (boot (ready_device nominal_samples)) = Done ADC_SUCCESS wb
      /\ vrefint_12bits (adc_ctx wb) <> 0).
    { eexists. split; [vm_compute; reflexivity | vm_compute; discriminate]. }
    destruct Hb as (wb & Eb & Hz).
    destruct (supply_voltage_derivation board_example
                (boot (ready_device nominal_samples)) wb
                eq_refl eq_refl eq_refl Eb)
      as (Hnz & _).
    destruct (Hnz Hz) as (wc & Hrest).
    exists wb, wc. split; [exact Eb |]. split; [exact Hz | exact Hrest].
Defined.

Lemma scaled_inputs_stored_witness :
  ctx_wf board_example (adc_ctx (boot (ready_device nominal_samples)))
  /\ layout_ok board_example = true
  /\ calib_ok board_example = true
  /\ (forall h : script, wrap32 (fst (hw_read ADC1_DR h)) <= 4095)
  /\ ADC_VREFINT_VOLTAGE_MV board_example
     = (VREFINT_CAL board_example * VREFINT_VCC_CALIB_MV board_example)
       / 4095
  /\ (exists wa wb wt w2 w',
        first_failure [step_ready; step_settle board_example]
          (boot (stalling_device
                   (replicate 9%nat 1500 ++ replicate 9%nat 650
                    ++ replicate 9%nat 1000))) = Done ADC_SUCCESS wa
        /\ _ADC1_filtered_conversion ADC_CHANNEL_VREFINT
             (Some (vrefint_12bits (adc_ctx wa))) wa
           = Done (ADC_SUCCESS, Some 1500) wb
        /\ first_failure
             [step_ready; step_settle board_example; _ADC1_compute_vrefint;
              step_vmcu board_example; _ADC1_compute_tmcu board_example]
             (boot (stalling_device
                      (replicate 9%nat 1500 ++ replicate 9%nat 650
                       ++ replicate 9%nat 1000))) = Done ADC_SUCCESS wt
        /\ _ADC1_filtered_conversion ADC_CHANNEL_VUSB (Some 0) wt
           = Done (ADC_SUCCESS, Some 1000) w2
        /\ ADC1_perform_measurements board_example
             (boot (stalling_device
                      (replicate 9%nat 1500 ++ replicate 9%nat 650
                       ++ replicate 9%nat 1000)))
           = Done ADC_ERROR_TIMEOUT w'
        /\ vrefint_12bits (adc_ctx w') = 1500
        /\ data (adc_ctx w') !! ADC_DATA_INDEX_VUSB_MV board_example
           = Some ((ADC_VREFINT_VOLTAGE_MV board_example * 1000
                    * ADC_VOLTAGE_DIVIDER_RATIO_VUSB) / 1500))
  /\ (exists wa wb wu w3 w',
        first_failure [step_ready; step_settle board_example]
          (boot (ready_device nominal_samples)) = Done ADC_SUCCESS wa
        /\ _ADC1_filtered_conversion ADC_CHANNEL_VREFINT
             (Some (vrefint_12bits (adc_ctx wa))) wa
           = Done (ADC_SUCCESS, Some 1500) wb
        /\ first_failure
             [step_ready; step_settle board_example; _ADC1_compute_vrefint;
              step_vmcu board_example; _ADC1_compute_tmcu board_example;
              _ADC1_compute_vusb board_example]
             (boot (ready_device nominal_samples)) = Done ADC_SUCCESS wu
        /\ _ADC1_filtered_conversion ADC_CHANNEL_VRS (Some 0) wu
           = Done (ADC_SUCCESS, Some 2000) w3
        /\ ADC1_perform_measurements board_example
             (boot (ready_device nominal_samples)) = Done ADC_SUCCESS w'
        /\ vrefint_12bits (adc_ctx w') = 1500
        /\ data (adc_ctx w') !! ADC_DATA_INDEX_VRS_MV board_example
           = Some ((ADC_VREFINT_VOLTAGE_MV board_example * 2000
                    * ADC_VOLTAGE_DIVIDER_RATIO_VRS) / 1500)).
Proof.
  split; [reflexivity |]. split; [reflexivity |]. split; [reflexivity |].
  split; [exact script_12bits |].
  split; [reflexivity |].
  split.
  - set (d := stalling_device
                (replicate 9%nat 1500 ++ replicate 9%nat 650
                 ++ replicate 9%nat 1000)).
    assert (Hrun : exists wa wb wt w2 wu,
      first_failure [step_ready; step_settle board_example] (boot d)
        = Done ADC_SUCCESS wa
      /\ _ADC1_filtered_conversion ADC_CHANNEL_VREFINT
           (Some (vrefint_12bits (adc_ctx wa))) wa
         = Done (ADC_SUCCESS, Some 1500) wb
      /\ first_failure
           [step_ready; step_settle board_example; _ADC1_compute_vrefint;
            step_vmcu board_example; _ADC1_compute_tmcu board_example]
           (boot d) = Done ADC_SUCCESS wt
      /\ _ADC1_filtered_conversion ADC_CHANNEL_VUSB (Some 0) wt
         = Done (ADC_SUCCESS, Some 1000) w2
      /\ first_failure
           [step_ready; step_settle board_example; _ADC1_compute_vrefint;
            step_vmcu board_example; _ADC1_compute_tmcu board_example;
            _ADC1_compute_vusb board_example]
           (boot d) = Done ADC_SUCCESS wu
      /\ stalled wu).
    { eexists _, _, _, _, _.
      split; [vm_compute; reflexivity |].
      split; [vm_compute; reflexivity |].
      split; [vm_compute; reflexivity |].
      split; [vm_compute; reflexivity |].
      split; [vm_compute; reflexivity |].
      split; reflexivity. }
    destruct Hrun as (wa & wb & wt & w2 & wu & E1 & E2 & Et & Eraw & Eu & Hs).
    destruct (proj1 (proj2 (scaled_inputs_stored board_example (boot d)
                              wa wb 1500 eq_refl eq_refl eq_refl
                              script_12bits E1 E2)) wt 1000 w2 Et Eraw)
      as (_ & status & w' & Ep & Hv & Hd).
    assert (Hst : status = ADC_ERROR_TIMEOUT).
    { destruct (stalled_compute_scaled board_example ADC_CHANNEL_VRS
                  ADC_VOLTAGE_DIVIDER_RATIO_VRS
                  (ADC_DATA_INDEX_VRS_MV board_example) wu
                  ltac:(reflexivity) Hs) as (wv & Ev).
      assert (Eall :
        first_failure (acquisition_steps board_example) (boot d)
        = Done ADC_ERROR_TIMEOUT wv).
      { change (acquisition_steps board_example)
          with ([step_ready; step_settle board_example;
                 _ADC1_compute_vrefint; step_vmcu board_example;
                 _ADC1_compute_tmcu board_example;
                 _ADC1_compute_vusb board_example]
                ++ [_ADC1_compute_vrs board_example]).
        rewrite (first_failure_app _ _ _ _ Eu), first_failure_single.
        exact Ev. }
      destruct (perform_measurements_returns board_example _ _ _ Eall)
        as (w'' & Ep' & _).
      rewrite Ep in Ep'. inversion Ep'. reflexivity. }
    subst status.
    exists wa, wb, wt, w2, w'.
    split; [exact E1 |]. split; [exact E2 |]. split; [exact Et |].
    split; [exact Eraw |]. split; [exact Ep |].
    split; [exact Hv | exact Hd].
  - assert (Hrun : exists wa wb wu w3,
      first_failure [step_ready; step_settle board_example]
        (boot (ready_device nominal_samples)) = Done ADC_SUCCESS wa
      /\ _ADC1_filtered_conversion ADC_CHANNEL_VREFINT
           (Some (vrefint_12bits (adc_ctx wa))) wa
         = Done (ADC_SUCCESS, Some 1500) wb
      /\ first_failure
           [step_ready; step_settle board_example; _ADC1_compute_vrefint;
            step_vmcu board_example; _ADC1_compute_tmcu board_example;
            _ADC1_compute_vusb board_example]
           (boot (ready_device nominal_samples)) = Done ADC_SUCCESS wu
      /\ _ADC1_filtered_conversion ADC_CHANNEL_VRS (Some 0) wu
         = Done (ADC_SUCCESS, Some 2000) w3).
    { eexists _, _, _, _.
      split; [vm_compute; reflexivity |].
      split; [vm_compute; reflexivity |].
      split; [vm_compute; reflexivity |].
      vm_compute; reflexivity. }
    destruct Hrun as (wa & wb & wu & w3 & E1 & E2 & Eu & Eraw).
    destruct (proj2 (proj2 (scaled_inputs_stored board_example
                              (boot (ready_device nominal_samples))
                              wa wb 1500 eq_refl eq_refl eq_refl
                              script_12bits E1 E2)) wu 2000 w3 Eu Eraw)
      as (_ & w' & Ep & Hv & Hd).
    exists wa, wb, wu, w3, w'.
    split; [exact E1 |]. split; [exact E2 |]. split; [exact Eu |].
    split; [exact Eraw |]. split; [exact Ep |].
    split; [exact Hv | exact Hd].
Defined.

Lemma single_conversion_protocol_witness :
  0 <= ADC_CHANNEL_VREFINT < ADC_CHANNEL_LAST
  /\ exists status r w' c0 c1 isr cr polls tail,
       _ADC1_single_conversion ADC_CHANNEL_VREFINT (Some 0)
         (boot (ready_device nominal_samples)) = Done (status, r) w'
       /\ adc_ctx w' = adc_ctx (boot (ready_device nominal_samples))
       /\ trace w'
          = tail ++ polls
            ++ [ EvWrite ADC1_CR (Z.lor cr 4); EvRead ADC1_CR cr;
                 EvWrite ADC1_ISR (Z.lor isr 0x89F); EvRead ADC1_ISR isr;
                 EvWrite ADC1_CHSELR
                   (Z.lor c1 (Z.shiftl 1 ADC_CHANNEL_VREFINT));
                 EvRead ADC1_CHSELR c1;
                 EvWrite ADC1_CHSELR (Z.land c0 0xFFF80000);
                 EvRead ADC1_CHSELR c0 ]
            ++ trace (boot (ready_device nominal_samples))
       /\ Forall (fun e => exists v, e = EvRead ADC1_ISR v) polls
       /\ polls <> []
       /\ (status = ADC_SUCCESS
           /\ (exists v, tail = [EvRead ADC1_DR v] /\ r = Some v)
           \/ status = ADC_ERROR_TIMEOUT /\ tail = [] /\ r = Some 0)
       /\ (c1 = Z.land c0 0xFFF80000 ->
           forall i, 0 <= i < ADC_CHANNEL_LAST ->
             Z.testbit (Z.lor c1 (Z.shiftl 1 ADC_CHANNEL_VREFINT)) i
             = (i =? ADC_CHANNEL_VREFINT)).
Proof.
  split; [unfold ADC_CHANNEL_VREFINT, ADC_CHANNEL_LAST; lia |].
  apply (single_conversion_protocol ADC_CHANNEL_VREFINT 0
           (boot (ready_device nominal_samples))).
  unfold ADC_CHANNEL_VREFINT, ADC_CHANNEL_LAST; lia.
Defined.

Lemma perform_measurements_status_witness :
  exists status w',
    ADC1_perform_measurements board_example (boot delay_failing_device)
      = Done status w'
    /\ pass_status status
    /\ status <> ADC_ERROR_CHANNEL
    /\ status <> ADC_ERROR_NULL_PARAMETER
    /\ status <> ADC_ERROR_CALIBRATION
    /\ status <> ADC_ERROR_DATA_INDEX
    /\ status <> ADC_ERROR_BASE_LPTIM LPTIM_SUCCESS
    /\ status <> ADC_ERROR_BASE_MATH MATH_SUCCESS.
Proof.
  eexists _, _. split; [vm_compute; reflexivity |].
  eapply (perform_measurements_status board_example
            (boot delay_failing_device)).
  vm_compute; reflexivity.
Defined.

Lemma perform_measurements_data_reads_witness :
  exists status w',
    ADC1_perform_measurements board_example
      (boot (ready_device nominal_samples)) = Done status w'
    /\ (data_reads (trace w')
        <= data_reads (trace (boot (ready_device nominal_samples))) + 36)%nat
    /\ (status = ADC_SUCCESS ->
        data_reads (trace w')
        = (data_reads (trace (boot (ready_device nominal_samples)))
           + 36)%nat)
    /\ (data_reads (trace w')
        < data_reads (trace (boot (ready_device nominal_samples))) + 36 ->
        status <> ADC_SUCCESS)%nat.
Proof.
  eexists _, _. split; [vm_compute; reflexivity |].
  apply (perform_measurements_data_reads board_example
           (boot (ready_device nominal_samples))).
  vm_compute; reflexivity.
Defined.

Lemma perform_measurements_frame_witness :
  exists status w',
    ADC1_perform_measurements wide_board
      (wide_boot (ready_device nominal_samples)) = Done status w'
    /\ length (data (adc_ctx w'))
       = length (data (adc_ctx (wide_boot (ready_device nominal_samples))))
    /\ forall j,
         j <> ADC_DATA_INDEX_VMCU_MV wide_board ->
         j <> ADC_DATA_INDEX_VUSB_MV wide_board ->
         j <> ADC_DATA_INDEX_VRS_MV wide_board ->
         data (adc_ctx w') !! j
         = data (adc_ctx (wide_boot (ready_device nominal_samples))) !! j.
Proof.
  eexists _, _. split; [vm_compute; reflexivity |].
  eapply (perform_measurements_frame wide_board
            (wide_boot (ready_device nominal_samples))).
  vm_compute; reflexivity.
Defined.

Lemma perform_measurements_faults_witness :
  ctx_wf board_example (adc_ctx (boot (ready_device nominal_samples)))
  /\ layout_ok board_example = true
  /\ calib_ok board_example = true
  /\ ADC1_perform_measurements board_example
       (boot (ready_device nominal_samples)) <> Undefined OutOfBounds
  /\ (ADC1_perform_measurements board_example
        (boot (ready_device nominal_samples)) = Undefined DivisionByZero
      <-> exists wb,
            first_failure
              [step_ready; step_settle board_example; _ADC1_compute_vrefint]
              (boot (ready_device nominal_samples)) = Done ADC_SUCCESS wb
            /\ vrefint_12bits (adc_ctx wb) = 0)
  /\ (ADC1_perform_measurements board_example
        (boot (ready_device nominal_samples)) = Undefined SignedOverflow
      <-> exists wt,
            first_failure
              [step_ready; step_settle board_example; _ADC1_compute_vrefint;
               step_vmcu board_example]
              (boot (ready_device nominal_samples)) = Done ADC_SUCCESS wt
            /\ _ADC1_compute_tmcu board_example wt
               = Undefined SignedOverflow).
Proof.
  split; [reflexivity |]. split; [reflexivity |]. split; [reflexivity |].
  apply (perform_measurements_faults board_example
           (boot (ready_device nominal_samples))); reflexivity.
Defined.

Lemma bandgap_failure_keeps_context_witness :
  exists wb w',
    first_failure
      [step_ready; step_settle board_example; _ADC1_compute_vrefint]
      (boot delay_failing_device)
      = Done (ADC_ERROR_BASE_LPTIM LPTIM_ERROR_WRITE_ARR) wb
    /\ ADC_ERROR_BASE_LPTIM LPTIM_ERROR_WRITE_ARR <> ADC_SUCCESS
    /\ ADC1_perform_measurements board_example (boot delay_failing_device)
       = Done (ADC_ERROR_BASE_LPTIM LPTIM_ERROR_WRITE_ARR) w'
    /\ adc_ctx w' = adc_ctx (boot delay_failing_device).
Proof.
  assert (Hb : exists wb,
    first_failure
      [step_ready; step_settle board_example; _ADC1_compute_vrefint]
      (boot delay_failing_device)
    = Done (ADC_ERROR_BASE_LPTIM LPTIM_ERROR_WRITE_ARR) wb).
  { eexists. vm_compute. reflexivity. }
  destruct Hb as (wb & Eb).
  destruct (bandgap_failure_keeps_context board_example
              (boot delay_failing_device) wb
              (ADC_ERROR_BASE_LPTIM LPTIM_ERROR_WRITE_ARR) Eb
              ltac:(discriminate)) as (w' & E & C).
  exists wb, w'. split; [exact Eb |]. split; [discriminate |].
  split; [exact E | exact C].
Defined.

Lemma init_protocol_witness :
  ctx_wf board_example (adc_ctx (boot enabled_device))
  /\ layout_ok board_example = true
  /\ exists status w' l apb cr0 cr1 disable post,
       ADC1_init board_example (boot enabled_device) = Done status w'
       /\ trace w'
          = post
            ++ [EvDelay 5 0 l;
                EvWrite ADC1_CR (Z.lor cr1 (Z.shiftl 1 28));
                EvRead ADC1_CR cr1]
            ++ disable
            ++ [EvRead ADC1_CR cr0;
                EvWrite RCC_APB2ENR (Z.lor apb (Z.shiftl 1 9));
                EvRead RCC_APB2ENR apb]
            ++ init_gpio_events board_example
            ++ trace (boot enabled_device)
       /\ (Z.land cr0 1 = 0 /\ disable = []
           \/ Z.land cr0 1 <> 0
              /\ exists cr, disable = [EvWrite ADC1_CR (Z.lor cr 2);
                                       EvRead ADC1_CR cr])
       /\ (l <> LPTIM_SUCCESS /\ status = ADC_ERROR_BASE_LPTIM l
           /\ post = []
           \/ l = LPTIM_SUCCESS
              /\ (status = ADC_SUCCESS \/ status = ADC_ERROR_CALIBRATION)
              /\ exists polls cr2 smpr cfgr2,
                   post = polls
                          ++ [EvWrite ADC1_CR (Z.lor cr2 (Z.shiftl 1 31));
                              EvRead ADC1_CR cr2;
                              EvWrite ADC1_SMPR (Z.lor smpr 7);
                              EvRead ADC1_SMPR smpr;
                              EvWrite ADC1_CFGR2
                                (Z.lor cfgr2 (Z.shiftl 1 30));
                              EvRead ADC1_CFGR2 cfgr2]
                   /\ Forall calibration_poll polls /\ polls <> []).
Proof.
  split; [reflexivity |]. split; [reflexivity |].
  apply (init_protocol board_example (boot enabled_device)); reflexivity.
Defined.

Lemma init_then_getters_witness :
  ctx_wf board_example (adc_ctx (boot delay_failing_device))
  /\ layout_ok board_example = true
  /\ (2 < ADC_DATA_INDEX_LAST board_example)%nat
  /\ exists status w',
       ADC1_init board_example (boot delay_failing_device) = Done status w'
       /\ ADC1_get_data board_example 2 (Some 9) w'
          = Done (ADC_SUCCESS,
                  Some (if (2 =? ADC_DATA_INDEX_VMCU_MV board_example)%nat
                        then 3300 else 0)) w'
       /\ ADC1_get_tmcu (Some 9) w' = Done (ADC_SUCCESS, Some 0) w'.
Proof.
  split; [reflexivity |]. split; [reflexivity |].
  split; [unfold board_example; cbn; lia |].
  apply (init_then_getters board_example (boot delay_failing_device));
    [reflexivity | reflexivity | unfold board_example; cbn; lia].
Defined.

(** * Properties of the NVM, EXTI and RCC drivers *)

Section MachineProperties.

Context {HW : Type} {mcu : Mcu HW}.

Local Abbreviation P := (step HW).
Local Open Scope step_scope.

Lemma and_then_returns {A B} (c : P A) (k : A -> P B) m a m1 :
  c m = Returns a m1 -> and_then c k m = k a m1.
Proof. intros E. unfold and_then. rewrite E. reflexivity. Qed.

Lemma and_then_stuck {A B} (c : P A) (k : A -> P B) m h :
  c m = Stuck h -> and_then c k m = Stuck h.
Proof. intros E. unfold and_then. rewrite E. reflexivity. Qed.

Lemma load_returns p f (m : machine HW) :
  exists v m1,
    load p f m = Returns v m1
    /\ io_trace m1 = IoLoad p f v :: io_trace m
    /\ rcc_sysclk_khz m1 = rcc_sysclk_khz m
    /\ 0 <= v < 2 ^ 32.
Proof.
  unfold load. destruct (mcu_load p f (mcu_hw m)) as [v h].
  eexists _, _. split; [reflexivity |].
  split; [reflexivity |]. split; [reflexivity | apply wrap32_range].
Qed.

Lemma store_returns p f v (m : machine HW) :
  exists m1,
    store p f v m = Returns tt m1
    /\ io_trace m1 = IoStore p f v :: io_trace m
    /\ rcc_sysclk_khz m1 = rcc_sysclk_khz m.
Proof. eexists. split; [reflexivity |]. split; reflexivity. Qed.

Lemma set_bits_returns p f mask (m : machine HW) :
  exists v m1,
    set_bits p f mask m = Returns tt m1
    /\ io_trace m1 = IoStore p f (Z.lor v mask) :: IoLoad p f v :: io_trace m
    /\ rcc_sysclk_khz m1 = rcc_sysclk_khz m
    /\ 0 <= v < 2 ^ 32.
Proof.
  unfold set_bits.
  destruct (load_returns p f m) as (v & m1 & E1 & T1 & K1 & Hv).
  destruct (store_returns p f (Z.lor v mask) m1) as (m2 & E2 & T2 & K2).
  exists v, m2. rewrite (and_then_returns _ _ _ _ _ E1).
  split; [exact E2 |]. split; [congruence |]. split; [congruence | exact Hv].
Qed.

Lemma keep_bits_returns p f mask (m : machine HW) :
  exists v m1,
    keep_bits p f mask m = Returns tt m1
    /\ io_trace m1 = IoStore p f (Z.land v mask) :: IoLoad p f v :: io_trace m
    /\ rcc_sysclk_khz m1 = rcc_sysclk_khz m
    /\ 0 <= v < 2 ^ 32.
Proof.
  unfold keep_bits.
  destruct (load_returns p f m) as (v & m1 & E1 & T1 & K1 & Hv).
  destruct (store_returns p f (Z.land v mask) m1) as (m2 & E2 & T2 & K2).
  exists v, m2. rewrite (and_then_returns _ _ _ _ _ E1).
  split; [exact E2 |]. split; [congruence |]. split; [congruence | exact Hv].
Qed.

Lemma bits_set_polls p f mask :
  polls_register (bits_set p f mask) p f
    (fun v => negb (Z.land v mask =? 0)).
Proof.
  intros m. unfold bits_set.
  destruct (load_returns p f m) as (v & m1 & E1 & T1 & K1 & _).
  exists v, m1. rewrite (and_then_returns _ _ _ _ _ E1).
  split; [reflexivity |]. split; assumption.
Qed.

Lemma bits_clear_polls p f mask :
  polls_register (bits_clear p f mask) p f (fun v => Z.land v mask =? 0).
Proof.
  intros m. unfold bits_clear.
  destruct (load_returns p f m) as (v & m1 & E1 & T1 & K1 & _).
  exists v, m1. rewrite (and_then_returns _ _ _ _ _ E1).
  split; [reflexivity |]. split; assumption.
Qed.

(** A busy-wait loop with enough fuel returns, by the timeout or not, and
    its polls are as [waited] tells. *)
Lemma busy_wait_returns busy p f waiting timeout_count :
  polls_register busy p f waiting ->
  0 <= timeout_count < 2 ^ 32 - 1 ->
  forall fuel loop_count (m : machine HW),
    0 <= loop_count <= timeout_count ->
    (Z.to_nat (timeout_count + 1 - loop_count) <= fuel)%nat ->
    exists timed_out m' vs,
      busy_wait fuel busy timeout_count loop_count m = Returns timed_out m'
      /\ io_trace m' = map (IoLoad p f) vs ++ io_trace m
      /\ rcc_sysclk_khz m' = rcc_sysclk_khz m
      /\ if timed_out : bool then
           Forall (fun v => waiting v = true) vs
           /\ Z.of_nat (length vs) = timeout_count + 1 - loop_count
         else
           exists v vs',
             vs = v :: vs' /\ waiting v = false
             /\ Forall (fun v => waiting v = true) vs'
             /\ Z.of_nat (length vs') <= timeout_count - loop_count.
Proof.
  intros Hbusy Hlimit.
  induction fuel as [| fuel IH]; intros lc m Hlc Hfuel; [lia |].
  cbn [busy_wait].
  destruct (Hbusy m) as (v & m1 & E1 & T1 & K1).
  rewrite (and_then_returns _ _ _ _ _ E1).
  destruct (waiting v) eqn:Hw.
  - rewrite wrap32_small by lia.
    destruct (lc + 1 >? timeout_count) eqn:Hgt.
    + exists true, m1, [v]. split; [reflexivity |].
      split; [exact T1 |]. split; [exact K1 |].
      split; [constructor; [exact Hw | constructor] |].
      cbn [length]. lia.
    + destruct (IH (lc + 1) m1 ltac:(lia) ltac:(lia))
        as (t & m' & vs & E & T & K & Hvs).
      exists t, m', (vs ++ [v]). split; [exact E |].
      split; [rewrite T, T1, map_app, <- app_assoc; reflexivity |].
      split; [congruence |].
      destruct t.
      * destruct Hvs as (Hall & Hlen). split.
        -- apply Forall_app. split; [exact Hall |].
           constructor; [exact Hw | constructor].
        -- rewrite length_app. cbn [length]. lia.
      * destruct Hvs as (v1 & vs1 & -> & Hv1 & Hall & Hlen).
        exists v1, (vs1 ++ [v]). split; [reflexivity |].
        split; [exact Hv1 |]. split.
        -- apply Forall_app. split; [exact Hall |].
           constructor; [exact Hw | constructor].
        -- rewrite length_app. cbn [length]. lia.
  - exists false, m1, [v]. split; [reflexivity |].
    split; [exact T1 |]. split; [exact K1 |].
    exists v, []. split; [reflexivity |]. split; [exact Hw |].
    split; [constructor | cbn [length]; lia].
Qed.

Lemma wait_fuel_enough : (Z.to_nat (1000000 + 1 - 0) <= wait_fuel)%nat.
Proof. unfold wait_fuel. lia. Qed.

(** The waits of the three drivers, which all start at 0 and give up after
    1000000 iterations. *)
Lemma driver_wait busy p f waiting (m : machine HW) :
  polls_register busy p f waiting ->
  exists timed_out m' polls,
    busy_wait wait_fuel busy 1000000 0 m = Returns timed_out m'
    /\ io_trace m' = polls ++ io_trace m
    /\ rcc_sysclk_khz m' = rcc_sysclk_khz m
    /\ waited p f waiting 1000000 timed_out polls.
Proof.
  intros Hbusy.
  destruct (busy_wait_returns busy p f waiting 1000000 Hbusy
              ltac:(pow_const; lia) wait_fuel 0 m ltac:(lia)
              wait_fuel_enough)
    as (t & m' & vs & E & T & K & Hvs).
  exists t, m', (map (IoLoad p f) vs).
  split; [exact E |]. split; [exact T |]. split; [exact K |].
  exists vs. split; [reflexivity |].
  destruct t.
  - destruct Hvs as (Hall & Hlen). split; [exact Hall | lia].
  - destruct Hvs as (v & vs' & -> & Hv & Hall & Hlen).
    exists v, vs'. repeat split; [exact Hv | exact Hall | lia].
Qed.

End MachineProperties.

(** ** nvm.c *)

Section NvmProperties.

Context {HW : Type} {mcu : Mcu HW}.
Variable EEPROM_SIZE_BYTES : Z.

Local Abbreviation P := (step HW).
Local Open Scope step_scope.

Ltac trace_eq :=
  repeat first [rewrite <- app_assoc | rewrite <- app_comm_cons];
  reflexivity.

Lemma flash_wait (m : machine HW) :
  exists timed_out m' polls,
    busy_wait wait_fuel (bits_set FLASH SR (Z.shiftl 1 0))
      NVM_TIMEOUT_COUNT 0 m = Returns timed_out m'
    /\ io_trace m' = polls ++ io_trace m
    /\ waited FLASH SR flash_busy NVM_TIMEOUT_COUNT timed_out polls.
Proof.
  destruct (driver_wait (bits_set FLASH SR (Z.shiftl 1 0)) FLASH SR
              flash_busy m (bits_set_polls FLASH SR (Z.shiftl 1 0)))
    as (t & m' & polls & E & T & _ & Hw).
  exists t, m', polls. split; [exact E |]. split; [exact T | exact Hw].
Qed.

Lemma NVM_unlock_returns (m : machine HW) :
  exists status m' timed_out polls tail,
    _NVM_unlock m = Returns status m'
    /\ io_trace m' = tail ++ polls ++ io_trace m
    /\ waited FLASH SR flash_busy NVM_TIMEOUT_COUNT timed_out polls
    /\ if timed_out : bool then status = NVM_ERROR_UNLOCK /\ tail = []
       else status = NVM_SUCCESS /\ exists pecr, tail = unlock_events pecr.
Proof.
  unfold _NVM_unlock.
  destruct (flash_wait m) as (t & m1 & polls & E1 & T1 & Hw).
  rewrite (and_then_returns _ _ _ _ _ E1).
  destruct t.
  - exists NVM_ERROR_UNLOCK, m1, true, polls, [].
    split; [reflexivity |]. split; [exact T1 |]. split; [exact Hw |].
    split; reflexivity.
  - destruct (load_returns FLASH PECR m1) as (pecr & m2 & E2 & T2 & _).
    rewrite (and_then_returns _ _ _ _ _ E2).
    change (Z.shiftl 1 0) with 1.
    destruct (Z.land pecr 1 =? 0) eqn:Hz.
    + exists NVM_SUCCESS, m2, false, polls, [IoLoad FLASH PECR pecr].
      split; [reflexivity |]. split; [rewrite T2, T1; reflexivity |].
      split; [exact Hw |]. split; [reflexivity |].
      exists pecr. unfold unlock_events. rewrite Hz. reflexivity.
    + eexists NVM_SUCCESS, _, false, polls,
        [IoStore FLASH PEKEYR 0x02030405; IoStore FLASH PEKEYR 0x89ABCDEF;
         IoLoad FLASH PECR pecr].
      split; [reflexivity |]. split; [cbn; rewrite T2, T1; reflexivity |].
      split; [exact Hw |]. split; [reflexivity |].
      exists pecr. unfold unlock_events. rewrite Hz. reflexivity.
Qed.

Lemma NVM_lock_returns (m : machine HW) :
  exists status m' timed_out polls tail,
    _NVM_lock m = Returns status m'
    /\ io_trace m' = tail ++ polls ++ io_trace m
    /\ waited FLASH SR flash_busy NVM_TIMEOUT_COUNT timed_out polls
    /\ if timed_out : bool then status = NVM_ERROR_LOCK /\ tail = []
       else status = NVM_SUCCESS /\ exists pecr, tail = lock_events pecr.
Proof.
  unfold _NVM_lock.
  destruct (flash_wait m) as (t & m1 & polls & E1 & T1 & Hw).
  rewrite (and_then_returns _ _ _ _ _ E1).
  destruct t.
  - exists NVM_ERROR_LOCK, m1, true, polls, [].
    split; [reflexivity |]. split; [exact T1 |]. split; [exact Hw |].
    split; reflexivity.
  - destruct (set_bits_returns FLASH PECR (Z.shiftl 1 0) m1)
      as (pecr & m2 & E2 & T2 & _).
    rewrite (and_then_returns _ _ _ _ _ E2).
    exists NVM_SUCCESS, m2, false, polls, (lock_events pecr).
    split; [reflexivity |]. split; [rewrite T2, T1; reflexivity |].
    split; [exact Hw |]. split; [reflexivity |].
    exists pecr. reflexivity.
Qed.

(** X10: The outcome of [NVM_write_byte], read off its status.  An offset
    outside the EEPROM is refused before the device is touched.  If the
    memory stays busy the function gives up with the unlock error and has
    written nothing.  Otherwise the byte is written once, after the unlock
    sequence.  If the write does not end in time the function returns the
    write error at once: the lock routine is not called and PELOCK is not
    set again.  Only a return with success has set PELOCK. *)
Theorem NVM_write_byte_outcome address_offset data (m : machine HW) :
  exists status m' evs,
    NVM_write_byte EEPROM_SIZE_BYTES address_offset data m
      = Returns status m'
    /\ io_trace m' = evs ++ io_trace m
    /\ match status with
       | NVM_ERROR_ADDRESS =>
           EEPROM_SIZE_BYTES <= address_offset /\ evs = []
       | NVM_ERROR_NULL_PARAMETER => False
       | NVM_ERROR_UNLOCK =>
           address_offset < EEPROM_SIZE_BYTES
           /\ waited FLASH SR flash_busy NVM_TIMEOUT_COUNT true evs
       | NVM_ERROR_WRITE =>
           address_offset < EEPROM_SIZE_BYTES
           /\ exists polls1 pecr polls2,
                evs = polls2
                      ++ IoEepromStore address_offset data
                         :: unlock_events pecr ++ polls1
                /\ waited FLASH SR flash_busy NVM_TIMEOUT_COUNT false polls1
                /\ waited FLASH SR flash_busy NVM_TIMEOUT_COUNT true polls2
       | NVM_ERROR_LOCK =>
           address_offset < EEPROM_SIZE_BYTES
           /\ exists polls1 pecr polls2 polls3,
                evs = polls3 ++ polls2
                      ++ IoEepromStore address_offset data
                         :: unlock_events pecr ++ polls1
                /\ waited FLASH SR flash_busy NVM_TIMEOUT_COUNT false polls1
                /\ waited FLASH SR flash_busy NVM_TIMEOUT_COUNT false polls2
                /\ waited FLASH SR flash_busy NVM_TIMEOUT_COUNT true polls3
       | NVM_SUCCESS =>
           address_offset < EEPROM_SIZE_BYTES
           /\ exists polls1 pecr polls2 polls3 pecr',
                evs = lock_events pecr' ++ polls3 ++ polls2
                      ++ IoEepromStore address_offset data
                         :: unlock_events pecr ++ polls1
                /\ waited FLASH SR flash_busy NVM_TIMEOUT_COUNT false polls1
                /\ waited FLASH SR flash_busy NVM_TIMEOUT_COUNT false polls2
                /\ waited FLASH SR flash_busy NVM_TIMEOUT_COUNT false polls3
       end.
Proof.
  unfold NVM_write_byte.
  destruct (EEPROM_SIZE_BYTES <=? address_offset) eqn:Ha.
  { exists NVM_ERROR_ADDRESS, m, []. split; [reflexivity |].
    split; [reflexivity |]. split; [lia | reflexivity]. }
  assert (Hin : address_offset < EEPROM_SIZE_BYTES) by lia.
  destruct (NVM_unlock_returns m)
    as (st1 & m1 & t1 & polls1 & tail1 & E1 & T1 & W1 & H1).
  rewrite (and_then_returns _ _ _ _ _ E1).
  destruct t1.
  { destruct H1 as (-> & ->).
    exists NVM_ERROR_UNLOCK, m1, polls1. split; [reflexivity |].
    split; [exact T1 |]. split; [exact Hin | exact W1]. }
  destruct H1 as (-> & pecr & ->).
  set (m2 := record (IoEepromStore address_offset data)
               (mcu_eeprom_store address_offset data (mcu_hw m1)) m1).
  assert (E2 : eeprom_store address_offset data m1 = Returns tt m2)
    by reflexivity.
  assert (T2 : io_trace m2
               = IoEepromStore address_offset data :: io_trace m1)
    by reflexivity.
  rewrite (and_then_returns _ _ _ _ _ E2).
  destruct (flash_wait m2) as (t2 & m3 & polls2 & E3 & T3 & W2).
  rewrite (and_then_returns _ _ _ _ _ E3).
  destruct t2.
  { exists NVM_ERROR_WRITE, m3,
      (polls2 ++ IoEepromStore address_offset data
                 :: unlock_events pecr ++ polls1).
    split; [reflexivity |].
    split; [rewrite T3, T2, T1; trace_eq |].
    split; [exact Hin |]. exists polls1, pecr, polls2.
    split; [reflexivity |]. split; assumption. }
  destruct (NVM_lock_returns m3)
    as (st4 & m4 & t3 & polls3 & tail3 & E4 & T4 & W3 & H4).
  assert (Tall : io_trace m4
    = (tail3 ++ polls3 ++ polls2
       ++ IoEepromStore address_offset data :: unlock_events pecr ++ polls1)
      ++ io_trace m).
  { rewrite T4, T3, T2, T1. trace_eq. }
  destruct t3.
  - destruct H4 as (-> & ->).
    eexists NVM_ERROR_LOCK, m4, _. split; [exact E4 |].
    split; [exact Tall |]. split; [exact Hin |].
    exists polls1, pecr, polls2, polls3.
    split; [reflexivity |]. repeat split; assumption.
  - destruct H4 as (-> & pecr' & ->).
    eexists NVM_SUCCESS, m4, _. split; [exact E4 |].
    split; [exact Tall |]. split; [exact Hin |].
    exists polls1, pecr, polls2, polls3, pecr'.
    split; [reflexivity |]. repeat split; assumption.
Qed.

(** X11: The outcome of [NVM_read_byte], read off its status.  The offset is
    checked before the output pointer, and a refused call does not touch
    the device.  If the unlock wait times out the output is unchanged.
    Otherwise the byte is read once and stored through the pointer before
    the memory is locked again, so that a call that returns the lock error
    has nevertheless delivered the byte.  The function never writes the
    EEPROM. *)
Theorem NVM_read_byte_outcome address_offset data (m : machine HW) :
  exists status r m' evs,
    NVM_read_byte EEPROM_SIZE_BYTES address_offset data m
      = Returns (status, r) m'
    /\ io_trace m' = evs ++ io_trace m
    /\ (forall a v, ~ In (IoEepromStore a v) evs)
    /\ match status with
       | NVM_ERROR_ADDRESS =>
           EEPROM_SIZE_BYTES <= address_offset /\ evs = [] /\ r = data
       | NVM_ERROR_NULL_PARAMETER =>
           address_offset < EEPROM_SIZE_BYTES /\ data = None
           /\ evs = [] /\ r = None
       | NVM_ERROR_UNLOCK =>
           address_offset < EEPROM_SIZE_BYTES /\ data <> None /\ r = data
           /\ waited FLASH SR flash_busy NVM_TIMEOUT_COUNT true evs
       | NVM_ERROR_WRITE => False
       | NVM_ERROR_LOCK =>
           address_offset < EEPROM_SIZE_BYTES /\ data <> None
           /\ exists polls1 pecr v polls2,
                evs = polls2
                      ++ IoEepromLoad address_offset v
                         :: unlock_events pecr ++ polls1
                /\ r = Some v /\ 0 <= v < 256
                /\ waited FLASH SR flash_busy NVM_TIMEOUT_COUNT false polls1
                /\ waited FLASH SR flash_busy NVM_TIMEOUT_COUNT true polls2
       | NVM_SUCCESS =>
           address_offset < EEPROM_SIZE_BYTES /\ data <> None
           /\ exists polls1 pecr v polls2 pecr',
                evs = lock_events pecr' ++ polls2
                      ++ IoEepromLoad address_offset v
                         :: unlock_events pecr ++ polls1
                /\ r = Some v /\ 0 <= v < 256
                /\ waited FLASH SR flash_busy NVM_TIMEOUT_COUNT false polls1
                /\ waited FLASH SR flash_busy NVM_TIMEOUT_COUNT false polls2
       end.
Proof.
  assert (Hpolls : forall t polls a v,
            waited FLASH SR flash_busy NVM_TIMEOUT_COUNT t polls ->
            ~ In (IoEepromStore a v) polls).
  { intros t polls a v (vs & -> & _) Hin.
    apply in_map_iff in Hin. destruct Hin as (x & Hx & _). discriminate. }
  assert (Hunlock : forall pecr a v,
            ~ In (IoEepromStore a v) (unlock_events pecr)).
  { intros pecr a v. unfold unlock_events.
    destruct (Z.land pecr 1 =? 0); cbn; intuition discriminate. }
  unfold NVM_read_byte.
  destruct (EEPROM_SIZE_BYTES <=? address_offset) eqn:Ha.
  { exists NVM_ERROR_ADDRESS, data, m, []. split; [reflexivity |].
    split; [reflexivity |]. split; [intros a v [] |].
    split; [lia |]. split; reflexivity. }
  assert (Hin : address_offset < EEPROM_SIZE_BYTES) by lia.
  destruct data as [old |].
  2: { exists NVM_ERROR_NULL_PARAMETER, None, m, []. split; [reflexivity |].
       split; [reflexivity |]. split; [intros a v [] |].
       split; [exact Hin |]. repeat split. }
  destruct (NVM_unlock_returns m)
    as (st1 & m1 & t1 & polls1 & tail1 & E1 & T1 & W1 & H1).
  rewrite (and_then_returns _ _ _ _ _ E1).
  destruct t1.
  { destruct H1 as (-> & ->).
    exists NVM_ERROR_UNLOCK, (Some old), m1, polls1.
    split; [reflexivity |]. split; [exact T1 |].
    split; [intros a v; exact (Hpolls _ _ a v W1) |].
    split; [exact Hin |]. split; [discriminate |].
    split; [reflexivity | exact W1]. }
  destruct H1 as (-> & pecr & ->).
  assert (E2 : exists v m2,
    eeprom_load address_offset m1 = Returns v m2
    /\ io_trace m2 = IoEepromLoad address_offset v :: io_trace m1
    /\ 0 <= v < 256).
  { unfold eeprom_load.
    destruct (mcu_eeprom_load address_offset (mcu_hw m1)) as [v h].
    eexists _, _. split; [reflexivity |]. split; [reflexivity |].
    change (2 ^ 8) with 256. apply Z.mod_pos_bound. lia. }
  destruct E2 as (v & m2 & E2 & T2 & Hv).
  rewrite (and_then_returns _ _ _ _ _ E2).
  destruct (NVM_lock_returns m2)
    as (st3 & m3 & t3 & polls2 & tail3 & E3 & T3 & W2 & H3).
  rewrite (and_then_returns _ _ _ _ _ E3).
  assert (Tall : io_trace m3
    = (tail3 ++ polls2
       ++ IoEepromLoad address_offset v :: unlock_events pecr ++ polls1)
      ++ io_trace m).
  { rewrite T3, T2, T1. trace_eq. }
  assert (Hnone : forall tail,
    (forall a x, ~ In (IoEepromStore a x) tail) ->
    forall a x,
      ~ In (IoEepromStore a x)
          (tail ++ polls2
           ++ IoEepromLoad address_offset v :: unlock_events pecr ++ polls1)).
  { intros tail Htail a x Hi.
    apply in_app_or in Hi. destruct Hi as [Hi | Hi];
      [exact (Htail a x Hi) |].
    apply in_app_or in Hi. destruct Hi as [Hi | Hi];
      [exact (Hpolls _ _ a x W2 Hi) |].
    destruct Hi as [Hi | Hi]; [discriminate |].
    apply in_app_or in Hi. destruct Hi as [Hi | Hi];
      [exact (Hunlock _ a x Hi) | exact (Hpolls _ _ a x W1 Hi)]. }
  destruct t3.
  - destruct H3 as (-> & ->).
    eexists NVM_ERROR_LOCK, (Some v), m3, _. split; [reflexivity |].
    split; [exact Tall |].
    split; [apply Hnone; intros a x [] |].
    split; [exact Hin |]. split; [discriminate |].
    exists polls1, pecr, v, polls2.
    split; [reflexivity |]. repeat split; try assumption; lia.
  - destruct H3 as (-> & pecr' & ->).
    eexists NVM_SUCCESS, (Some v), m3, _. split; [reflexivity |].
    split; [exact Tall |].
    split; [apply Hnone; intros a x; cbn; intuition discriminate |].
    split; [exact Hin |]. split; [discriminate |].
    exists polls1, pecr, v, polls2, pecr'.
    split; [reflexivity |]. repeat split; try assumption; lia.
Qed.

End NvmProperties.

(** ** exti.c *)

Section ExtiProperties.

Context {HW : Type} {mcu : Mcu HW}.

Local Abbreviation P := (step HW).
Local Open Scope step_scope.

Lemma shift_one_returns n (m : machine HW) :
  0 <= n < 32 -> shift_one n m = Returns (Z.shiftl 1 n) m.
Proof.
  intros Hn. unfold shift_one.
  replace ((0 <=? n) && (n <? 32)) with true by lia. reflexivity.
Qed.

Lemma shift_one_stuck n (m : machine HW) :
  ~ 0 <= n < 32 -> shift_one n m = Stuck ShiftCount.
Proof.
  intros Hn. unfold shift_one.
  replace ((0 <=? n) && (n <? 32)) with false by lia. reflexivity.
Qed.

Lemma complement_bits x i :
  0 <= i < 32 -> Z.testbit (complement x) i = negb (Z.testbit x i).
Proof.
  intros Hi. unfold complement, wrap32.
  rewrite Z.mod_pow2_bits_low by lia. apply Z.lnot_spec. lia.
Qed.

Lemma set_bit_spec old line i :
  0 <= line ->
  Z.testbit (Z.lor old (Z.shiftl 1 line)) i = Z.testbit old i || (i =? line).
Proof.
  intros Hl. rewrite Z.lor_spec, Z.shiftl_1_l, Z.pow2_bits_eqb by exact Hl.
  rewrite (Z.eqb_sym line i). reflexivity.
Qed.

Lemma clear_bit_spec old line i :
  0 <= line -> 0 <= i < 32 ->
  Z.testbit (Z.land old (complement (Z.shiftl 1 line))) i
  = Z.testbit old i && negb (i =? line).
Proof.
  intros Hl Hi. rewrite Z.land_spec, complement_bits by exact Hi.
  rewrite Z.shiftl_1_l, Z.pow2_bits_eqb by exact Hl.
  rewrite (Z.eqb_sym line i). reflexivity.
Qed.

Lemma EXTI_set_trigger_returns trigger line_idx (m : machine HW) :
  0 <= line_idx < 32 ->
  exists m' pr edges,
    _EXTI_set_trigger trigger line_idx m = Returns tt m'
    /\ io_trace m'
       = IoStore EXTI PR (Z.lor pr (Z.shiftl 1 line_idx))
         :: IoLoad EXTI PR pr :: edges ++ io_trace m
    /\ trigger_edges trigger line_idx edges.
Proof.
  intros Hl. unfold _EXTI_set_trigger.
  assert (Hedges : exists m1 edges,
    match trigger with
    | EXTI_TRIGGER_RISING_EDGE =>
        bit <- shift_one line_idx ;;
        set_bits EXTI RTSR bit ;;;
        bit <- shift_one line_idx ;;
        keep_bits EXTI FTSR (complement bit)
    | EXTI_TRIGGER_FALLING_EDGE =>
        bit <- shift_one line_idx ;;
        keep_bits EXTI RTSR (complement bit) ;;;
        bit <- shift_one line_idx ;;
        set_bits EXTI FTSR bit
    | EXTI_TRIGGER_ANY_EDGE =>
        bit <- shift_one line_idx ;;
        set_bits EXTI RTSR bit ;;;
        bit <- shift_one line_idx ;;
        set_bits EXTI FTSR bit
    | EXTI_TRIGGER_unlisted => pure tt
    end m = Returns tt m1
    /\ io_trace m1 = edges ++ io_trace m
    /\ trigger_edges trigger line_idx edges).
  { destruct trigger; cbn [trigger_edges].
    - rewrite (and_then_returns _ _ _ _ _ (shift_one_returns _ m Hl)).
      destruct (set_bits_returns EXTI RTSR (Z.shiftl 1 line_idx) m)
        as (rtsr & m1 & E1 & T1 & _).
      rewrite (and_then_returns _ _ _ _ _ E1).
      rewrite (and_then_returns _ _ _ _ _ (shift_one_returns _ m1 Hl)).
      destruct (keep_bits_returns EXTI FTSR
                  (complement (Z.shiftl 1 line_idx)) m1)
        as (ftsr & m2 & E2 & T2 & _).
      exists m2, (edge_events FTSR false line_idx ftsr
                  ++ edge_events RTSR true line_idx rtsr).
      split; [exact E2 |]. split; [rewrite T2, T1; reflexivity |].
      exists rtsr, ftsr. reflexivity.
    - rewrite (and_then_returns _ _ _ _ _ (shift_one_returns _ m Hl)).
      destruct (keep_bits_returns EXTI RTSR
                  (complement (Z.shiftl 1 line_idx)) m)
        as (rtsr & m1 & E1 & T1 & _).
      rewrite (and_then_returns _ _ _ _ _ E1).
      rewrite (and_then_returns _ _ _ _ _ (shift_one_returns _ m1 Hl)).
      destruct (set_bits_returns EXTI FTSR (Z.shiftl 1 line_idx) m1)
        as (ftsr & m2 & E2 & T2 & _).
      exists m2, (edge_events FTSR true line_idx ftsr
                  ++ edge_events RTSR false line_idx rtsr).
      split; [exact E2 |]. split; [rewrite T2, T1; reflexivity |].
      exists rtsr, ftsr. reflexivity.
    - rewrite (and_then_returns _ _ _ _ _ (shift_one_returns _ m Hl)).
      destruct (set_bits_returns EXTI RTSR (Z.shiftl 1 line_idx) m)
        as (rtsr & m1 & E1 & T1 & _).
      rewrite (and_then_returns _ _ _ _ _ E1).
      rewrite (and_then_returns _ _ _ _ _ (shift_one_returns _ m1 Hl)).
      destruct (set_bits_returns EXTI FTSR (Z.shiftl 1 line_idx) m1)
        as (ftsr & m2 & E2 & T2 & _).
      exists m2, (edge_events FTSR true line_idx ftsr
                  ++ edge_events RTSR true line_idx rtsr).
      split; [exact E2 |]. split; [rewrite T2, T1; reflexivity |].
      exists rtsr, ftsr. reflexivity.
    - exists m, []. split; [reflexivity |]. split; reflexivity. }
  destruct Hedges as (m1 & edges & E1 & T1 & Hedges).
  rewrite (and_then_returns _ _ _ _ _ E1).
  rewrite (and_then_returns _ _ _ _ _ (shift_one_returns _ m1 Hl)).
  destruct (set_bits_returns EXTI PR (Z.shiftl 1 line_idx) m1)
    as (pr & m2 & E2 & T2 & _).
  exists m2, pr, edges. split; [exact E2 |].
  split; [rewrite T2, T1; reflexivity | exact Hedges].
Qed.

(** X12: The effect of [_EXTI_set_trigger] on a line below 32.  The edge
    registers are updated by read-modify-write, RTSR before FTSR, as the
    trigger asks; a trigger that the function does not list leaves both
    untouched.  In every case the pending flag of the line is then
    acknowledged in PR.  A written value differs from the value read in
    the bit of the line only.  With a line index of 32 or more no shift
    has a meaning, even for an unlisted trigger. *)
Theorem EXTI_set_trigger_effect trigger line_idx (m : machine HW) :
  (0 <= line_idx < 32 ->
   exists m' pr edges,
     _EXTI_set_trigger trigger line_idx m = Returns tt m'
     /\ io_trace m'
        = IoStore EXTI PR (Z.lor pr (Z.shiftl 1 line_idx))
          :: IoLoad EXTI PR pr :: edges ++ io_trace m
     /\ trigger_edges trigger line_idx edges
     /\ forall old i,
          0 <= i < 32 ->
          Z.testbit (Z.lor old (Z.shiftl 1 line_idx)) i
          = Z.testbit old i || (i =? line_idx)
          /\ Z.testbit (Z.land old (complement (Z.shiftl 1 line_idx))) i
             = Z.testbit old i && negb (i =? line_idx))
  /\ (~ 0 <= line_idx < 32 ->
      _EXTI_set_trigger trigger line_idx m = Stuck ShiftCount).
Proof.
  split.
  - intros Hl.
    destruct (EXTI_set_trigger_returns trigger line_idx m Hl)
      as (m' & pr & edges & E & T & Hedges).
    exists m', pr, edges. split; [exact E |]. split; [exact T |].
    split; [exact Hedges |]. intros old i Hi.
    split; [apply set_bit_spec; lia | apply clear_bit_spec; lia].
  - intros Hl. unfold _EXTI_set_trigger.
    destruct trigger;
      [apply and_then_stuck, and_then_stuck, shift_one_stuck, Hl ..
      | rewrite (and_then_returns _ _ m tt m eq_refl);
        apply and_then_stuck, shift_one_stuck, Hl].
Qed.

(** X13: [EXTI_configure_line] configures the trigger of every line below 32:
    its test [(line != 18) || (line <= 22)] holds for every line, so the
    edge registers are also written for the reserved line 18 and for the
    lines above 22.  The line is unmasked in IMR first. *)
Theorem EXTI_configure_line_never_skips line trigger (m : machine HW) :
  0 <= line < 32 ->
  exists m' imr pr edges,
    EXTI_configure_line line trigger m = Returns tt m'
    /\ io_trace m'
       = IoStore EXTI PR (Z.lor pr (Z.shiftl 1 line))
         :: IoLoad EXTI PR pr
         :: edges
         ++ IoStore EXTI IMR (Z.lor imr (Z.shiftl 1 line))
            :: IoLoad EXTI IMR imr :: io_trace m
    /\ trigger_edges trigger line edges.
Proof.
  intros Hl. unfold EXTI_configure_line.
  rewrite (and_then_returns _ _ _ _ _ (shift_one_returns _ m Hl)).
  destruct (set_bits_returns EXTI IMR (Z.shiftl 1 line) m)
    as (imr & m1 & E1 & T1 & _).
  rewrite (and_then_returns _ _ _ _ _ E1).
  assert (Hguard :
    negb (line =? EXTI_RTSR_FTSR_RESERVED_INDEX)
    || (line <=? EXTI_RTSR_FTSR_MAX_INDEX) = true).
  { unfold EXTI_RTSR_FTSR_RESERVED_INDEX, EXTI_RTSR_FTSR_MAX_INDEX.
    destruct (line =? 18) eqn:H18; [| reflexivity].
    apply Z.eqb_eq in H18. subst line. reflexivity. }
  rewrite Hguard.
  assert (Hu8 : line mod 2 ^ 8 = line)
    by (apply Z.mod_small; change (2 ^ 8) with 256; lia).
  rewrite Hu8.
  destruct (EXTI_set_trigger_returns trigger line m1 Hl)
    as (m' & pr & edges & E & T & Hedges).
  exists m', imr, pr, edges. split; [exact E |].
  split; [rewrite T, T1; reflexivity | exact Hedges].
Qed.

Lemma fifteen_bits j : Z.testbit 0xF j = (0 <=? j) && (j <? 4).
Proof.
  destruct (Z.ltb_spec j 0) as [Hneg | Hpos].
  - rewrite Z.testbit_neg_r by lia. lia.
  - destruct (Z.ltb_spec j 4) as [Hlt | Hge].
    + assert (Hc : j = 0 \/ j = 1 \/ j = 2 \/ j = 3) by lia.
      destruct Hc as [-> | [-> | [-> | ->]]]; reflexivity.
    + rewrite Z.bits_above_log2; [lia | lia |].
      change (Z.log2 0xF) with 3. lia.
Qed.

Lemma nibble_bits port j :
  0 <= port < 16 -> ~ 0 <= j < 4 -> Z.testbit port j = false.
Proof.
  intros Hp Hj.
  destruct (Z.ltb_spec j 0) as [Hneg | Hpos];
    [apply Z.testbit_neg_r; lia |].
  destruct (Z.eq_dec port 0) as [-> | Hnz]; [apply Z.bits_0 |].
  apply Z.bits_above_log2; [lia |].
  assert (Z.log2 port < 4) by (apply Z.log2_lt_pow2; lia). lia.
Qed.

(** The selection of the port in [SYSCFG -> EXTICR]: the value written
    last holds the port in the field of the pin and, elsewhere, the bits
    that were read first, provided that the register reads back what was
    written. *)
Lemma exticr_field c0 port shift i :
  0 <= port < 16 -> 0 <= shift <= 12 -> 0 <= i < 32 ->
  Z.testbit
    (Z.lor (Z.land c0 (complement (Z.shiftl 0xF shift)))
       (wrap32 (Z.shiftl port shift))) i
  = if in_field shift i then Z.testbit port (i - shift) else Z.testbit c0 i.
Proof.
  intros Hp Hs Hi. unfold in_field.
  rewrite Z.lor_spec, Z.land_spec, complement_bits by exact Hi.
  unfold wrap32. rewrite Z.mod_pow2_bits_low by lia.
  rewrite !Z.shiftl_spec by lia. rewrite fifteen_bits.
  destruct ((shift <=? i) && (i <? shift + 4)) eqn:Hf.
  - replace ((0 <=? i - shift) && (i - shift <? 4)) with true by lia.
    cbn [negb]. rewrite andb_false_r. reflexivity.
  - replace ((0 <=? i - shift) && (i - shift <? 4)) with false by lia.
    cbn [negb]. rewrite andb_true_r.
    rewrite (nibble_bits port (i - shift)) by lia.
    apply orb_false_r.
Qed.

(** X14: [EXTI_configure_gpio] for a pin 0 to 15 of a port 0 to 15: the field
    of the pin in [EXTICR[pin / 4]] is cleared and then loaded with the
    port, the line of the pin is unmasked, and its trigger is configured.
    If the register reads back what was written, the value written last
    holds the port in the field of the pin and leaves the three other
    fields as they were read. *)
Theorem EXTI_configure_gpio_effect gpio trigger (m : machine HW) :
  0 <= pin_index gpio < 16 ->
  0 <= port_index gpio < 16 ->
  exists m' c0 c1 imr pr edges,
    EXTI_configure_gpio gpio trigger m = Returns tt m'
    /\ 0 <= pin_index gpio / 4 < 4
    /\ io_trace m'
       = IoStore EXTI PR (Z.lor pr (Z.shiftl 1 (pin_index gpio)))
         :: IoLoad EXTI PR pr
         :: edges
         ++ [IoStore EXTI IMR (Z.lor imr (Z.shiftl 1 (pin_index gpio)));
             IoLoad EXTI IMR imr;
             IoStore SYSCFG (EXTICR (pin_index gpio / 4))
               (Z.lor c1
                  (wrap32 (Z.shiftl (port_index gpio)
                             (4 * (pin_index gpio mod 4)))));
             IoLoad SYSCFG (EXTICR (pin_index gpio / 4)) c1;
             IoStore SYSCFG (EXTICR (pin_index gpio / 4))
               (Z.land c0
                  (complement (Z.shiftl 0xF (4 * (pin_index gpio mod 4)))));
             IoLoad SYSCFG (EXTICR (pin_index gpio / 4)) c0]
         ++ io_trace m
    /\ trigger_edges trigger (pin_index gpio) edges
    /\ (c1 = Z.land c0
               (complement (Z.shiftl 0xF (4 * (pin_index gpio mod 4)))) ->
        forall i, 0 <= i < 32 ->
          Z.testbit
            (Z.lor c1
               (wrap32 (Z.shiftl (port_index gpio)
                          (4 * (pin_index gpio mod 4))))) i
          = if in_field (4 * (pin_index gpio mod 4)) i
            then Z.testbit (port_index gpio)
                   (i - 4 * (pin_index gpio mod 4))
            else Z.testbit c0 i).
Proof.
  intros Hpin Hport. unfold EXTI_configure_gpio.
  destruct (keep_bits_returns SYSCFG (EXTICR (pin_index gpio / 4))
              (complement (Z.shiftl 0xF (4 * (pin_index gpio mod 4)))) m)
    as (c0 & m1 & E1 & T1 & _).
  rewrite (and_then_returns _ _ _ _ _ E1).
  destruct (set_bits_returns SYSCFG (EXTICR (pin_index gpio / 4))
              (wrap32 (Z.shiftl (port_index gpio)
                         (4 * (pin_index gpio mod 4)))) m1)
    as (c1 & m2 & E2 & T2 & _).
  rewrite (and_then_returns _ _ _ _ _ E2).
  assert (Hl : 0 <= pin_index gpio < 32) by lia.
  rewrite (and_then_returns _ _ _ _ _ (shift_one_returns _ m2 Hl)).
  destruct (set_bits_returns EXTI IMR (Z.shiftl 1 (pin_index gpio)) m2)
    as (imr & m3 & E3 & T3 & _).
  rewrite (and_then_returns _ _ _ _ _ E3).
  destruct (EXTI_set_trigger_returns trigger (pin_index gpio) m3 Hl)
    as (m' & pr & edges & E & T & Hedges).
  exists m', c0, c1, imr, pr, edges. split; [exact E |].
  split; [split; [apply Z.div_pos; lia | apply Z.div_lt_upper_bound; lia] |].
  split; [rewrite T, T3, T2, T1; reflexivity |].
  split; [exact Hedges |].
  intros -> i Hi. apply exticr_field; [exact Hport | | exact Hi].
  pose proof (Z.mod_pos_bound (pin_index gpio) 4 ltac:(lia)). lia.
Qed.

End ExtiProperties.

(** ** rcc.c *)

Section RccProperties.

Context {HW : Type} {mcu : Mcu HW}.

Local Abbreviation P := (step HW).
Local Open Scope step_scope.

(** X15: [RCC_enable_lsi] sets LSION and waits for LSIRDY.  It returns success
    exactly when the flag was seen within 1000001 polls; after the timeout
    it returns the error without another access, so that the oscillator is
    left enabled. *)
Theorem RCC_enable_lsi_outcome (m : machine HW) :
  exists status m' timed_out csr polls,
    RCC_enable_lsi m = Returns status m'
    /\ io_trace m'
       = polls
         ++ IoStore RCC CSR (Z.lor csr (Z.shiftl 1 0))
            :: IoLoad RCC CSR csr :: io_trace m
    /\ waited RCC CSR (not_ready 1) RCC_TIMEOUT_COUNT timed_out polls
    /\ rcc_sysclk_khz m' = rcc_sysclk_khz m
    /\ status = (if timed_out then RCC_ERROR_LSI_READY else RCC_SUCCESS).
Proof.
  unfold RCC_enable_lsi.
  destruct (set_bits_returns RCC CSR (Z.shiftl 1 0) m)
    as (csr & m1 & E1 & T1 & K1 & _).
  rewrite (and_then_returns _ _ _ _ _ E1).
  destruct (driver_wait (bits_clear RCC CSR (Z.shiftl 1 1)) RCC CSR
              (not_ready 1) m1 (bits_clear_polls RCC CSR (Z.shiftl 1 1)))
    as (t & m2 & polls & E2 & T2 & K2 & Hw).
  unfold RCC_TIMEOUT_COUNT at 1.
  rewrite (and_then_returns _ _ _ _ _ E2).
  exists (if t then RCC_ERROR_LSI_READY else RCC_SUCCESS), m2, t, csr, polls.
  split; [destruct t; reflexivity |].
  split; [rewrite T2, T1; reflexivity |].
  split; [exact Hw |]. split; [congruence | reflexivity].
Qed.

(** X16: [RCC_enable_lse] sets LSEON and waits for LSERDY.  It returns success
    exactly when the flag was seen within 1000001 polls; after the timeout
    it switches the oscillator off again, by a write of CSR whose bit 8 is
    0, before it returns the error. *)
Theorem RCC_enable_lse_outcome (m : machine HW) :
  exists status m' timed_out csr polls tail,
    RCC_enable_lse m = Returns status m'
    /\ io_trace m'
       = tail ++ polls
         ++ IoStore RCC CSR (Z.lor csr (Z.shiftl 1 8))
            :: IoLoad RCC CSR csr :: io_trace m
    /\ waited RCC CSR (not_ready 9) RCC_TIMEOUT_COUNT timed_out polls
    /\ rcc_sysclk_khz m' = rcc_sysclk_khz m
    /\ if timed_out : bool then
         status = RCC_ERROR_LSE_READY
         /\ exists v,
              tail = [IoStore RCC CSR (Z.land v (complement (Z.shiftl 1 8)));
                      IoLoad RCC CSR v]
              /\ Z.testbit (Z.land v (complement (Z.shiftl 1 8))) 8 = false
              /\ forall i, 0 <= i < 32 -> i <> 8 ->
                   Z.testbit (Z.land v (complement (Z.shiftl 1 8))) i
                   = Z.testbit v i
       else status = RCC_SUCCESS /\ tail = [].
Proof.
  unfold RCC_enable_lse.
  destruct (set_bits_returns RCC CSR (Z.shiftl 1 8) m)
    as (csr & m1 & E1 & T1 & K1 & _).
  rewrite (and_then_returns _ _ _ _ _ E1).
  destruct (driver_wait (bits_clear RCC CSR (Z.shiftl 1 9)) RCC CSR
              (not_ready 9) m1 (bits_clear_polls RCC CSR (Z.shiftl 1 9)))
    as (t & m2 & polls & E2 & T2 & K2 & Hw).
  unfold RCC_TIMEOUT_COUNT at 1.
  rewrite (and_then_returns _ _ _ _ _ E2).
  destruct t.
  - destruct (keep_bits_returns RCC CSR (complement (Z.shiftl 1 8)) m2)
      as (v & m3 & E3 & T3 & K3 & _).
    rewrite (and_then_returns _ _ _ _ _ E3).
    exists RCC_ERROR_LSE_READY, m3, true, csr, polls,
      [IoStore RCC CSR (Z.land v (complement (Z.shiftl 1 8)));
       IoLoad RCC CSR v].
    split; [reflexivity |].
    split; [rewrite T3, T2, T1; reflexivity |].
    split; [exact Hw |]. split; [congruence |].
    split; [reflexivity |]. exists v. split; [reflexivity |].
    split.
    + rewrite clear_bit_spec by lia. cbn. apply andb_false_r.
    + intros i Hi Hne. rewrite clear_bit_spec by lia.
      replace (i =? 8) with false by lia. apply andb_true_r.
  - exists RCC_SUCCESS, m2, false, csr, polls, [].
    split; [reflexivity |]. split; [rewrite T2, T1; reflexivity |].
    split; [exact Hw |]. split; [congruence |]. split; reflexivity.
Qed.

End RccProperties.

(** ** The properties of exti.c on the idle microcontroller *)

Lemma EXTI_set_trigger_effect_witness :
  0 <= 5 < 32
  /\ (exists m' pr edges,
        _EXTI_set_trigger EXTI_TRIGGER_FALLING_EDGE 5 idle_machine
          = Returns tt m'
        /\ io_trace m'
           = IoStore EXTI PR (Z.lor pr (Z.shiftl 1 5))
             :: IoLoad EXTI PR pr :: edges ++ io_trace idle_machine
        /\ trigger_edges EXTI_TRIGGER_FALLING_EDGE 5 edges
        /\ forall old i,
             0 <= i < 32 ->
             Z.testbit (Z.lor old (Z.shiftl 1 5)) i
             = Z.testbit old i || (i =? 5)
             /\ Z.testbit (Z.land old (complement (Z.shiftl 1 5))) i
                = Z.testbit old i && negb (i =? 5))
  /\ ~ 0 <= 40 < 32
  /\ _EXTI_set_trigger EXTI_TRIGGER_unlisted 40 idle_machine
     = Stuck ShiftCount.
Proof.
  split; [lia |].
  split;
    [apply (proj1 (EXTI_set_trigger_effect EXTI_TRIGGER_FALLING_EDGE 5
                     idle_machine)); lia |].
  split; [lia |].
  apply (proj2 (EXTI_set_trigger_effect EXTI_TRIGGER_unlisted 40
                  idle_machine)); lia.
Defined.

Lemma EXTI_configure_line_never_skips_witness :
  0 <= EXTI_RTSR_FTSR_RESERVED_INDEX < 32
  /\ exists m' imr pr edges,
       EXTI_configure_line EXTI_RTSR_FTSR_RESERVED_INDEX
         EXTI_TRIGGER_RISING_EDGE idle_machine = Returns tt m'
       /\ io_trace m'
          = IoStore EXTI PR
              (Z.lor pr (Z.shiftl 1 EXTI_RTSR_FTSR_RESERVED_INDEX))
            :: IoLoad EXTI PR pr
            :: edges
            ++ IoStore EXTI IMR
                 (Z.lor imr (Z.shiftl 1 EXTI_RTSR_FTSR_RESERVED_INDEX))
               :: IoLoad EXTI IMR imr :: io_trace idle_machine
       /\ trigger_edges EXTI_TRIGGER_RISING_EDGE
            EXTI_RTSR_FTSR_RESERVED_INDEX edges.
Proof.
  split; [unfold EXTI_RTSR_FTSR_RESERVED_INDEX; lia |].
  apply (EXTI_configure_line_never_skips EXTI_RTSR_FTSR_RESERVED_INDEX
           EXTI_TRIGGER_RISING_EDGE idle_machine).
  unfold EXTI_RTSR_FTSR_RESERVED_INDEX; lia.
Defined.

Lemma EXTI_configure_gpio_effect_witness :
  0 <= pin_index {| port_index := 1; pin_index := 6 |} < 16
  /\ 0 <= port_index {| port_index := 1; pin_index := 6 |} < 16
  /\ exists m' c0 c1 imr pr edges,
       EXTI_configure_gpio {| port_index := 1; pin_index := 6 |}
         EXTI_TRIGGER_ANY_EDGE idle_machine = Returns tt m'
       /\ 0 <= 6 / 4 < 4
       /\ io_trace m'
          = IoStore EXTI PR (Z.lor pr (Z.shiftl 1 6))
            :: IoLoad EXTI PR pr
            :: edges
            ++ [IoStore EXTI IMR (Z.lor imr (Z.shiftl 1 6));
                IoLoad EXTI IMR imr;
                IoStore SYSCFG (EXTICR (6 / 4))
                  (Z.lor c1 (wrap32 (Z.shiftl 1 (4 * (6 mod 4)))));
                IoLoad SYSCFG (EXTICR (6 / 4)) c1;
                IoStore SYSCFG (EXTICR (6 / 4))
                  (Z.land c0 (complement (Z.shiftl 0xF (4 * (6 mod 4)))));
                IoLoad SYSCFG (EXTICR (6 / 4)) c0]
            ++ io_trace idle_machine
       /\ trigger_edges EXTI_TRIGGER_ANY_EDGE 6 edges
       /\ (c1 = Z.land c0 (complement (Z.shiftl 0xF (4 * (6 mod 4)))) ->
           forall i, 0 <= i < 32 ->
             Z.testbit
               (Z.lor c1 (wrap32 (Z.shiftl 1 (4 * (6 mod 4))))) i
             = if in_field (4 * (6 mod 4)) i
               then Z.testbit 1 (i - 4 * (6 mod 4))
               else Z.testbit c0 i).
Proof.
  split; [cbn; lia |]. split; [cbn; lia |].
  apply (EXTI_configure_gpio_effect {| port_index := 1; pin_index := 6 |}
           EXTI_TRIGGER_ANY_EDGE idle_machine); cbn; lia.
Defined.
